(** * Nano Banana Chat Renderer: the conversation state machine

    A shallow embedding of the decision logic of
    [Nano_Banana_Renderer-er_2025.py]: the three button handlers
    ([on_capture_viewport], [on_generate], [on_iterate]), the response
    parser [_process_response] and the cost bookkeeping, followed by the
    properties of the conversation life cycle.  The other handlers of the
    form (the prompt box, the mood board, the button that shows the result)
    and the two functions that read the camera and take the picture,
    [extract_camera_info] and [capture_active_view_shaded], come after them,
    with the invariants of the form over all its events.

    Conventions of the embedding.
    - A Python [str] is a [string] whose characters are code points below 256.
    - A Python [float] is a primitive binary64 [float].  A Python [int] is
      an integer of [Z]; its conversion to [float] and the true division
      [int / int] round the exact value once, to the nearest double, and
      raise [OverflowError] beyond the doubles.
    - [None] is [None]; an attribute that may hold [None] has an option type.
    - The form object is the record [Form]; a handler is a function from the
      answers of the outside world to one invocation (the record [Env]) and a
      [Form] to the [Form] it leaves behind.  The file system and the list of
      requests sent to the image API are carried in the same record.
    - A Python exception is the string of its message.
    - Bitmap objects, preview widgets and the timer thread are left out: of
      the timer only [timer_running] is kept.
    - A path is a [string].  Of [pathlib] only this is used: the text of
      [Path(folder) / name], for a plain file name, is a text that depends on
      the folder alone, followed by the name.
    - The file system is the map from the paths of the files to their
      contents: two paths are two files.  Directories are not in it: of
      [mkdir] only the error is kept. *)

From Stdlib Require Import ZArith String Ascii List Bool Floats Lia.
From stdpp Require Import gmap strings list pretty.

Set Warnings "-inexact-float".

Local Open Scope string_scope.
Local Open Scope Z_scope.

(** ** Results of calls that may raise *)

Inductive result (A : Type) :=
| Return (a : A)
| Raise (e : string).

Arguments Return {A} a.
Arguments Raise {A} e.

(** ** Python values *)

Definition bytes := list Byte.byte.

(** Truth value of a [str], of a [bytes] object and of an optional one. *)
Definition str_truthy (s : string) : bool :=
  match s with EmptyString => false | String _ _ => true end.

Definition bytes_truthy (b : bytes) : bool :=
  match b with [] => false | _ :: _ => true end.

Definition opt_truthy {A} (t : A -> bool) (o : option A) : bool :=
  match o with Some a => t a | None => false end.

(** [a or b] on optional strings. *)
Definition or_str (a b : option string) : option string :=
  if opt_truthy str_truthy a then a else b.

(** [str.isspace] on code points below 256. *)
Definition py_isspace (c : ascii) : bool :=
  let n := nat_of_ascii c in
  (((9 <=? n) && (n <=? 13)) || ((28 <=? n) && (n <=? 32))
   || (n =? 133) || (n =? 160))%nat.

Fixpoint lstrip (s : string) : string :=
  match s with
  | EmptyString => EmptyString
  | String c s' => if py_isspace c then lstrip s' else s
  end.

Fixpoint rstrip (s : string) : string :=
  match s with
  | EmptyString => EmptyString
  | String c s' =>
      match rstrip s' with
      | EmptyString => if py_isspace c then EmptyString else String c EmptyString
      | r => String c r
      end
  end.

Definition strip (s : string) : string := rstrip (lstrip s).

Definition startswith (s p : string) : bool := String.prefix p s.

(** [s.split(",", 1)[1]]: what follows the first comma; [None] stands for the
    [IndexError] raised when there is no comma. *)
Fixpoint split_comma_1 (s : string) : option string :=
  match s with
  | EmptyString => None
  | String c s' => if Ascii.eqb c "," then Some s' else split_comma_1 s'
  end.

(** The last character of a text. *)
Fixpoint last_char (s : string) : option ascii :=
  match s with
  | EmptyString => None
  | String c s' => match last_char s' with Some c' => Some c' | None => Some c end
  end.

(** [sep.join(l)]. *)
Fixpoint join (sep : string) (l : list string) : string :=
  match l with
  | [] => ""
  | [x] => x
  | x :: l' => x ++ sep ++ join sep l'
  end.

(** An integer as a binary number that is not rounded yet. *)
Definition Z2SF (z : Z) : spec_float :=
  match z with
  | 0 => S754_zero false
  | Zpos p => S754_finite false p 0
  | Zneg p => S754_finite true p 0
  end.

(** The double nearest to an integer, ties to even; it is the integer itself
    when the integer has at most 53 bits. *)
Definition exact_float (z : Z) : float := SF2Prim (binary_normalize prec emax z 0 false).

(** [float(z)], as in the sum of a [float] and an [int]. *)
Definition int_to_float (z : Z) : result float :=
  match binary_normalize prec emax z 0 false with
  | S754_infinity _ => Raise "int too large to convert to float"
  | _ => Return (exact_float z)
  end.

Definition small (z : Z) : bool := Z.abs z <? 2 ^ 53.

(** [a / b] on integers (true division): the exact quotient rounded once.
    When both integers have at most 53 bits this is the quotient of the two
    doubles, and CPython computes it so; otherwise the quotient of the two
    integers is rounded, and a quotient beyond the doubles raises. *)
Definition truediv (a b : Z) : result float :=
  if b =? 0 then Raise "division by zero"
  else if small a && small b then Return (exact_float a / exact_float b)%float
  else
    match SFdiv prec emax (Z2SF a) (Z2SF b) with
    | S754_infinity _ => Raise "integer division result too large for a float"
    | q => Return (SF2Prim q)
    end.

(** ** The API objects: parts, contents, candidates, responses *)

Record Blob := {
  data : option bytes;
  mime_type : option string;
  mimeType : option string
}.

Record Part := {
  inline_data : option Blob;
  inlineData : option Blob;
  text : option string
}.

Record Content := {
  role : string;
  parts : option (list Part)
}.

Record Candidate := { content : option Content }.

Record UsageMetadata := {
  prompt_token_count : option Z;
  candidates_token_count : option Z;
  total_token_count : option Z
}.

Record Response := {
  usage_metadata : option UsageMetadata;
  candidates : option (list Candidate)
}.

(** [types.Part.from_bytes] and [types.Part.from_text]. *)
Definition Part_from_bytes (d : bytes) (m : string) : Part :=
  {| inline_data := Some {| data := Some d; mime_type := Some m; mimeType := None |};
     inlineData := None;
     text := None |}.

Definition Part_from_text (t : string) : Part :=
  {| inline_data := None; inlineData := None; text := Some t |}.

Definition user_turn (ps : list Part) : Content :=
  {| role := "user"; parts := Some ps |}.

(** ** Pricing *)

Record Pricing := {
  input_price : float;
  output_price : float;
  image_generation_price : float;
  tokens_per_image : Z;
  cost_per_image : float
}.

Definition flash_image_preview : string := "gemini-2.5-flash-image-preview".

Definition model_pricing : gmap string Pricing :=
  <[ flash_image_preview :=
       {| input_price := 0.30; output_price := 2.50;
          image_generation_price := 30.00; tokens_per_image := 1290;
          cost_per_image := 0.039 |} ]>
  (<[ "gemini-2.0-flash" :=
       {| input_price := 0.10; output_price := 0.40;
          image_generation_price := 30.00; tokens_per_image := 1290;
          cost_per_image := 0.039 |} ]> ∅).

(** [self.model], fixed in [__init__]. *)
Definition model : string := flash_image_preview.

Definition default_pricing : Pricing :=
  {| input_price := 0.30; output_price := 2.50;
     image_generation_price := 30.00; tokens_per_image := 1290;
     cost_per_image := 0.039 |}.

(** [model_name or self.model], then [dict.get] with the entry of the
    image-preview model as default. *)
Definition _get_model_pricing (model_name : option string) : Pricing :=
  let m := match or_str model_name (Some model) with Some m => m | None => model end in
  default default_pricing (model_pricing !! m).

Record CostInfo := {
  input_cost : float;
  output_cost : float;
  image_cost : float;
  total_cost : float;
  pricing_info : Pricing
}.

Definition _calculate_generation_cost
    (input_tokens output_tokens : Z) (model_name : option string) : result CostInfo :=
  let pricing := _get_model_pricing model_name in
  match truediv input_tokens 1000000 with
  | Raise e => Raise e
  | Return input_millions =>
      let input_cost := (input_millions * input_price pricing)%float in
      match truediv output_tokens 1000000 with
      | Raise e => Raise e
      | Return output_millions =>
          let output_cost := (output_millions * output_price pricing)%float in
          let image_cost := cost_per_image pricing in
          Return {| input_cost := input_cost;
                    output_cost := output_cost;
                    image_cost := image_cost;
                    total_cost := (input_cost + output_cost + image_cost)%float;
                    pricing_info := pricing |}
      end
  end.

(** ** The form

    The chat log is the list of the messages appended to it, oldest first; the
    time stamp that prefixes each line is left out.  Messages that embed
    formatted numbers keep the numbers. *)

Inductive Speaker := You | Nano | System.

Inductive Msg :=
| Txt (s : string)
| UsageMsg (input_tokens output_tokens total_tokens : option Z)
| CostMsg (c : CostInfo)
| EstimatedMsg (c : float)
| SessionCostMsg (c : float).

Definition LogEntry : Type := Speaker * Msg.

(** A value of the settings dictionary (loaded from and saved as JSON). *)
Inductive JVal :=
| JStr (s : string)
| JInt (z : Z)
| JFloat (f : float).

(** The attributes of [NanoBananaChatForm] that the handlers read or write.
    [ref_previews] holds the [_file_path] attribute of each of the four
    mood-board previews ([None] when the attribute is absent).  The last two
    fields are the outside world: [fs] maps the path of each regular file to
    its contents (directories are not files, and are not in it), [api_calls]
    lists the [contents] argument of every [generate_content] call made so
    far.  The projections are primitive, so
    that reading an attribute through a chain of assignments is a plain
    reduction. *)
#[projections(primitive)]
Record Form := {
  api_key_tb : string;
  output_folder_tb : string;
  prompt_tb_Text : string;
  prompt_tb_Enabled : bool;
  _prompt_placeholder_active : bool;
  _prompt_ever_focused : bool;
  ref_previews : list (option string);
  generate_btn_Enabled : bool;
  iterate_btn_Enabled : bool;
  show_generated_btn_Enabled : bool;
  chat_log : list LogEntry;
  timer_running : bool;
  Prompt_history : list (option Content);
  _last_generated_image_path : option string;
  _captured_viewport_bytes : option bytes;
  _camera_info : option (gmap string string);
  _viewport_captured : bool;
  _first_capture : bool;
  session_tokens : Z;
  session_cost : float;
  settings : gmap string JVal;
  fs : gmap string bytes;
  api_calls : list (list (option Content))
}.

(** Attribute assignment, one function per attribute. *)

Definition set_prompt_tb_Text (v : string) (s : Form) : Form :=
  {| api_key_tb := api_key_tb s; output_folder_tb := output_folder_tb s;
     prompt_tb_Text := v; prompt_tb_Enabled := prompt_tb_Enabled s;
     _prompt_placeholder_active := _prompt_placeholder_active s;
     _prompt_ever_focused := _prompt_ever_focused s;
     ref_previews := ref_previews s;
     generate_btn_Enabled := generate_btn_Enabled s;
     iterate_btn_Enabled := iterate_btn_Enabled s;
     show_generated_btn_Enabled := show_generated_btn_Enabled s;
     chat_log := chat_log s; timer_running := timer_running s;
     Prompt_history := Prompt_history s;
     _last_generated_image_path := _last_generated_image_path s;
     _captured_viewport_bytes := _captured_viewport_bytes s;
     _camera_info := _camera_info s;
     _viewport_captured := _viewport_captured s;
     _first_capture := _first_capture s; session_tokens := session_tokens s;
     session_cost := session_cost s; settings := settings s; fs := fs s;
     api_calls := api_calls s |}.

Definition set_prompt_tb_Enabled (v : bool) (s : Form) : Form :=
  {| api_key_tb := api_key_tb s; output_folder_tb := output_folder_tb s;
     prompt_tb_Text := prompt_tb_Text s; prompt_tb_Enabled := v;
     _prompt_placeholder_active := _prompt_placeholder_active s;
     _prompt_ever_focused := _prompt_ever_focused s;
     ref_previews := ref_previews s;
     generate_btn_Enabled := generate_btn_Enabled s;
     iterate_btn_Enabled := iterate_btn_Enabled s;
     show_generated_btn_Enabled := show_generated_btn_Enabled s;
     chat_log := chat_log s; timer_running := timer_running s;
     Prompt_history := Prompt_history s;
     _last_generated_image_path := _last_generated_image_path s;
     _captured_viewport_bytes := _captured_viewport_bytes s;
     _camera_info := _camera_info s;
     _viewport_captured := _viewport_captured s;
     _first_capture := _first_capture s; session_tokens := session_tokens s;
     session_cost := session_cost s; settings := settings s; fs := fs s;
     api_calls := api_calls s |}.

Definition set_prompt_placeholder_active (v : bool) (s : Form) : Form :=
  {| api_key_tb := api_key_tb s; output_folder_tb := output_folder_tb s;
     prompt_tb_Text := prompt_tb_Text s;
     prompt_tb_Enabled := prompt_tb_Enabled s;
     _prompt_placeholder_active := v;
     _prompt_ever_focused := _prompt_ever_focused s;
     ref_previews := ref_previews s;
     generate_btn_Enabled := generate_btn_Enabled s;
     iterate_btn_Enabled := iterate_btn_Enabled s;
     show_generated_btn_Enabled := show_generated_btn_Enabled s;
     chat_log := chat_log s; timer_running := timer_running s;
     Prompt_history := Prompt_history s;
     _last_generated_image_path := _last_generated_image_path s;
     _captured_viewport_bytes := _captured_viewport_bytes s;
     _camera_info := _camera_info s;
     _viewport_captured := _viewport_captured s;
     _first_capture := _first_capture s; session_tokens := session_tokens s;
     session_cost := session_cost s; settings := settings s; fs := fs s;
     api_calls := api_calls s |}.

Definition set_ref_previews (v : list (option string)) (s : Form) : Form :=
  {| api_key_tb := api_key_tb s; output_folder_tb := output_folder_tb s;
     prompt_tb_Text := prompt_tb_Text s;
     prompt_tb_Enabled := prompt_tb_Enabled s;
     _prompt_placeholder_active := _prompt_placeholder_active s;
     _prompt_ever_focused := _prompt_ever_focused s; ref_previews := v;
     generate_btn_Enabled := generate_btn_Enabled s;
     iterate_btn_Enabled := iterate_btn_Enabled s;
     show_generated_btn_Enabled := show_generated_btn_Enabled s;
     chat_log := chat_log s; timer_running := timer_running s;
     Prompt_history := Prompt_history s;
     _last_generated_image_path := _last_generated_image_path s;
     _captured_viewport_bytes := _captured_viewport_bytes s;
     _camera_info := _camera_info s;
     _viewport_captured := _viewport_captured s;
     _first_capture := _first_capture s; session_tokens := session_tokens s;
     session_cost := session_cost s; settings := settings s; fs := fs s;
     api_calls := api_calls s |}.

Definition set_generate_btn_Enabled (v : bool) (s : Form) : Form :=
  {| api_key_tb := api_key_tb s; output_folder_tb := output_folder_tb s;
     prompt_tb_Text := prompt_tb_Text s;
     prompt_tb_Enabled := prompt_tb_Enabled s;
     _prompt_placeholder_active := _prompt_placeholder_active s;
     _prompt_ever_focused := _prompt_ever_focused s;
     ref_previews := ref_previews s; generate_btn_Enabled := v;
     iterate_btn_Enabled := iterate_btn_Enabled s;
     show_generated_btn_Enabled := show_generated_btn_Enabled s;
     chat_log := chat_log s; timer_running := timer_running s;
     Prompt_history := Prompt_history s;
     _last_generated_image_path := _last_generated_image_path s;
     _captured_viewport_bytes := _captured_viewport_bytes s;
     _camera_info := _camera_info s;
     _viewport_captured := _viewport_captured s;
     _first_capture := _first_capture s; session_tokens := session_tokens s;
     session_cost := session_cost s; settings := settings s; fs := fs s;
     api_calls := api_calls s |}.

Definition set_iterate_btn_Enabled (v : bool) (s : Form) : Form :=
  {| api_key_tb := api_key_tb s; output_folder_tb := output_folder_tb s;
     prompt_tb_Text := prompt_tb_Text s;
     prompt_tb_Enabled := prompt_tb_Enabled s;
     _prompt_placeholder_active := _prompt_placeholder_active s;
     _prompt_ever_focused := _prompt_ever_focused s;
     ref_previews := ref_previews s;
     generate_btn_Enabled := generate_btn_Enabled s;
     iterate_btn_Enabled := v;
     show_generated_btn_Enabled := show_generated_btn_Enabled s;
     chat_log := chat_log s; timer_running := timer_running s;
     Prompt_history := Prompt_history s;
     _last_generated_image_path := _last_generated_image_path s;
     _captured_viewport_bytes := _captured_viewport_bytes s;
     _camera_info := _camera_info s;
     _viewport_captured := _viewport_captured s;
     _first_capture := _first_capture s; session_tokens := session_tokens s;
     session_cost := session_cost s; settings := settings s; fs := fs s;
     api_calls := api_calls s |}.

Definition set_show_generated_btn_Enabled (v : bool) (s : Form) : Form :=
  {| api_key_tb := api_key_tb s; output_folder_tb := output_folder_tb s;
     prompt_tb_Text := prompt_tb_Text s;
     prompt_tb_Enabled := prompt_tb_Enabled s;
     _prompt_placeholder_active := _prompt_placeholder_active s;
     _prompt_ever_focused := _prompt_ever_focused s;
     ref_previews := ref_previews s;
     generate_btn_Enabled := generate_btn_Enabled s;
     iterate_btn_Enabled := iterate_btn_Enabled s;
     show_generated_btn_Enabled := v; chat_log := chat_log s;
     timer_running := timer_running s; Prompt_history := Prompt_history s;
     _last_generated_image_path := _last_generated_image_path s;
     _captured_viewport_bytes := _captured_viewport_bytes s;
     _camera_info := _camera_info s;
     _viewport_captured := _viewport_captured s;
     _first_capture := _first_capture s; session_tokens := session_tokens s;
     session_cost := session_cost s; settings := settings s; fs := fs s;
     api_calls := api_calls s |}.

Definition set_chat_log (v : list LogEntry) (s : Form) : Form :=
  {| api_key_tb := api_key_tb s; output_folder_tb := output_folder_tb s;
     prompt_tb_Text := prompt_tb_Text s;
     prompt_tb_Enabled := prompt_tb_Enabled s;
     _prompt_placeholder_active := _prompt_placeholder_active s;
     _prompt_ever_focused := _prompt_ever_focused s;
     ref_previews := ref_previews s;
     generate_btn_Enabled := generate_btn_Enabled s;
     iterate_btn_Enabled := iterate_btn_Enabled s;
     show_generated_btn_Enabled := show_generated_btn_Enabled s;
     chat_log := v; timer_running := timer_running s;
     Prompt_history := Prompt_history s;
     _last_generated_image_path := _last_generated_image_path s;
     _captured_viewport_bytes := _captured_viewport_bytes s;
     _camera_info := _camera_info s;
     _viewport_captured := _viewport_captured s;
     _first_capture := _first_capture s; session_tokens := session_tokens s;
     session_cost := session_cost s; settings := settings s; fs := fs s;
     api_calls := api_calls s |}.

Definition set_timer_running (v : bool) (s : Form) : Form :=
  {| api_key_tb := api_key_tb s; output_folder_tb := output_folder_tb s;
     prompt_tb_Text := prompt_tb_Text s;
     prompt_tb_Enabled := prompt_tb_Enabled s;
     _prompt_placeholder_active := _prompt_placeholder_active s;
     _prompt_ever_focused := _prompt_ever_focused s;
     ref_previews := ref_previews s;
     generate_btn_Enabled := generate_btn_Enabled s;
     iterate_btn_Enabled := iterate_btn_Enabled s;
     show_generated_btn_Enabled := show_generated_btn_Enabled s;
     chat_log := chat_log s; timer_running := v;
     Prompt_history := Prompt_history s;
     _last_generated_image_path := _last_generated_image_path s;
     _captured_viewport_bytes := _captured_viewport_bytes s;
     _camera_info := _camera_info s;
     _viewport_captured := _viewport_captured s;
     _first_capture := _first_capture s; session_tokens := session_tokens s;
     session_cost := session_cost s; settings := settings s; fs := fs s;
     api_calls := api_calls s |}.

Definition set_Prompt_history (v : list (option Content)) (s : Form) : Form :=
  {| api_key_tb := api_key_tb s; output_folder_tb := output_folder_tb s;
     prompt_tb_Text := prompt_tb_Text s;
     prompt_tb_Enabled := prompt_tb_Enabled s;
     _prompt_placeholder_active := _prompt_placeholder_active s;
     _prompt_ever_focused := _prompt_ever_focused s;
     ref_previews := ref_previews s;
     generate_btn_Enabled := generate_btn_Enabled s;
     iterate_btn_Enabled := iterate_btn_Enabled s;
     show_generated_btn_Enabled := show_generated_btn_Enabled s;
     chat_log := chat_log s; timer_running := timer_running s;
     Prompt_history := v;
     _last_generated_image_path := _last_generated_image_path s;
     _captured_viewport_bytes := _captured_viewport_bytes s;
     _camera_info := _camera_info s;
     _viewport_captured := _viewport_captured s;
     _first_capture := _first_capture s; session_tokens := session_tokens s;
     session_cost := session_cost s; settings := settings s; fs := fs s;
     api_calls := api_calls s |}.

Definition set_last_generated_image_path (v : option string) (s : Form) : Form :=
  {| api_key_tb := api_key_tb s; output_folder_tb := output_folder_tb s;
     prompt_tb_Text := prompt_tb_Text s;
     prompt_tb_Enabled := prompt_tb_Enabled s;
     _prompt_placeholder_active := _prompt_placeholder_active s;
     _prompt_ever_focused := _prompt_ever_focused s;
     ref_previews := ref_previews s;
     generate_btn_Enabled := generate_btn_Enabled s;
     iterate_btn_Enabled := iterate_btn_Enabled s;
     show_generated_btn_Enabled := show_generated_btn_Enabled s;
     chat_log := chat_log s; timer_running := timer_running s;
     Prompt_history := Prompt_history s; _last_generated_image_path := v;
     _captured_viewport_bytes := _captured_viewport_bytes s;
     _camera_info := _camera_info s;
     _viewport_captured := _viewport_captured s;
     _first_capture := _first_capture s; session_tokens := session_tokens s;
     session_cost := session_cost s; settings := settings s; fs := fs s;
     api_calls := api_calls s |}.

Definition set_captured_viewport_bytes (v : option bytes) (s : Form) : Form :=
  {| api_key_tb := api_key_tb s; output_folder_tb := output_folder_tb s;
     prompt_tb_Text := prompt_tb_Text s;
     prompt_tb_Enabled := prompt_tb_Enabled s;
     _prompt_placeholder_active := _prompt_placeholder_active s;
     _prompt_ever_focused := _prompt_ever_focused s;
     ref_previews := ref_previews s;
     generate_btn_Enabled := generate_btn_Enabled s;
     iterate_btn_Enabled := iterate_btn_Enabled s;
     show_generated_btn_Enabled := show_generated_btn_Enabled s;
     chat_log := chat_log s; timer_running := timer_running s;
     Prompt_history := Prompt_history s;
     _last_generated_image_path := _last_generated_image_path s;
     _captured_viewport_bytes := v; _camera_info := _camera_info s;
     _viewport_captured := _viewport_captured s;
     _first_capture := _first_capture s; session_tokens := session_tokens s;
     session_cost := session_cost s; settings := settings s; fs := fs s;
     api_calls := api_calls s |}.

Definition set_camera_info (v : option (gmap string string)) (s : Form) : Form :=
  {| api_key_tb := api_key_tb s; output_folder_tb := output_folder_tb s;
     prompt_tb_Text := prompt_tb_Text s;
     prompt_tb_Enabled := prompt_tb_Enabled s;
     _prompt_placeholder_active := _prompt_placeholder_active s;
     _prompt_ever_focused := _prompt_ever_focused s;
     ref_previews := ref_previews s;
     generate_btn_Enabled := generate_btn_Enabled s;
     iterate_btn_Enabled := iterate_btn_Enabled s;
     show_generated_btn_Enabled := show_generated_btn_Enabled s;
     chat_log := chat_log s; timer_running := timer_running s;
     Prompt_history := Prompt_history s;
     _last_generated_image_path := _last_generated_image_path s;
     _captured_viewport_bytes := _captured_viewport_bytes s;
     _camera_info := v; _viewport_captured := _viewport_captured s;
     _first_capture := _first_capture s; session_tokens := session_tokens s;
     session_cost := session_cost s; settings := settings s; fs := fs s;
     api_calls := api_calls s |}.

Definition set_viewport_captured (v : bool) (s : Form) : Form :=
  {| api_key_tb := api_key_tb s; output_folder_tb := output_folder_tb s;
     prompt_tb_Text := prompt_tb_Text s;
     prompt_tb_Enabled := prompt_tb_Enabled s;
     _prompt_placeholder_active := _prompt_placeholder_active s;
     _prompt_ever_focused := _prompt_ever_focused s;
     ref_previews := ref_previews s;
     generate_btn_Enabled := generate_btn_Enabled s;
     iterate_btn_Enabled := iterate_btn_Enabled s;
     show_generated_btn_Enabled := show_generated_btn_Enabled s;
     chat_log := chat_log s; timer_running := timer_running s;
     Prompt_history := Prompt_history s;
     _last_generated_image_path := _last_generated_image_path s;
     _captured_viewport_bytes := _captured_viewport_bytes s;
     _camera_info := _camera_info s; _viewport_captured := v;
     _first_capture := _first_capture s; session_tokens := session_tokens s;
     session_cost := session_cost s; settings := settings s; fs := fs s;
     api_calls := api_calls s |}.

Definition set_first_capture (v : bool) (s : Form) : Form :=
  {| api_key_tb := api_key_tb s; output_folder_tb := output_folder_tb s;
     prompt_tb_Text := prompt_tb_Text s;
     prompt_tb_Enabled := prompt_tb_Enabled s;
     _prompt_placeholder_active := _prompt_placeholder_active s;
     _prompt_ever_focused := _prompt_ever_focused s;
     ref_previews := ref_previews s;
     generate_btn_Enabled := generate_btn_Enabled s;
     iterate_btn_Enabled := iterate_btn_Enabled s;
     show_generated_btn_Enabled := show_generated_btn_Enabled s;
     chat_log := chat_log s; timer_running := timer_running s;
     Prompt_history := Prompt_history s;
     _last_generated_image_path := _last_generated_image_path s;
     _captured_viewport_bytes := _captured_viewport_bytes s;
     _camera_info := _camera_info s;
     _viewport_captured := _viewport_captured s; _first_capture := v;
     session_tokens := session_tokens s; session_cost := session_cost s;
     settings := settings s; fs := fs s; api_calls := api_calls s |}.

Definition set_session_tokens (v : Z) (s : Form) : Form :=
  {| api_key_tb := api_key_tb s; output_folder_tb := output_folder_tb s;
     prompt_tb_Text := prompt_tb_Text s;
     prompt_tb_Enabled := prompt_tb_Enabled s;
     _prompt_placeholder_active := _prompt_placeholder_active s;
     _prompt_ever_focused := _prompt_ever_focused s;
     ref_previews := ref_previews s;
     generate_btn_Enabled := generate_btn_Enabled s;
     iterate_btn_Enabled := iterate_btn_Enabled s;
     show_generated_btn_Enabled := show_generated_btn_Enabled s;
     chat_log := chat_log s; timer_running := timer_running s;
     Prompt_history := Prompt_history s;
     _last_generated_image_path := _last_generated_image_path s;
     _captured_viewport_bytes := _captured_viewport_bytes s;
     _camera_info := _camera_info s;
     _viewport_captured := _viewport_captured s;
     _first_capture := _first_capture s; session_tokens := v;
     session_cost := session_cost s; settings := settings s; fs := fs s;
     api_calls := api_calls s |}.

Definition set_session_cost (v : float) (s : Form) : Form :=
  {| api_key_tb := api_key_tb s; output_folder_tb := output_folder_tb s;
     prompt_tb_Text := prompt_tb_Text s;
     prompt_tb_Enabled := prompt_tb_Enabled s;
     _prompt_placeholder_active := _prompt_placeholder_active s;
     _prompt_ever_focused := _prompt_ever_focused s;
     ref_previews := ref_previews s;
     generate_btn_Enabled := generate_btn_Enabled s;
     iterate_btn_Enabled := iterate_btn_Enabled s;
     show_generated_btn_Enabled := show_generated_btn_Enabled s;
     chat_log := chat_log s; timer_running := timer_running s;
     Prompt_history := Prompt_history s;
     _last_generated_image_path := _last_generated_image_path s;
     _captured_viewport_bytes := _captured_viewport_bytes s;
     _camera_info := _camera_info s;
     _viewport_captured := _viewport_captured s;
     _first_capture := _first_capture s; session_tokens := session_tokens s;
     session_cost := v; settings := settings s; fs := fs s;
     api_calls := api_calls s |}.

Definition set_settings (v : gmap string JVal) (s : Form) : Form :=
  {| api_key_tb := api_key_tb s; output_folder_tb := output_folder_tb s;
     prompt_tb_Text := prompt_tb_Text s;
     prompt_tb_Enabled := prompt_tb_Enabled s;
     _prompt_placeholder_active := _prompt_placeholder_active s;
     _prompt_ever_focused := _prompt_ever_focused s;
     ref_previews := ref_previews s;
     generate_btn_Enabled := generate_btn_Enabled s;
     iterate_btn_Enabled := iterate_btn_Enabled s;
     show_generated_btn_Enabled := show_generated_btn_Enabled s;
     chat_log := chat_log s; timer_running := timer_running s;
     Prompt_history := Prompt_history s;
     _last_generated_image_path := _last_generated_image_path s;
     _captured_viewport_bytes := _captured_viewport_bytes s;
     _camera_info := _camera_info s;
     _viewport_captured := _viewport_captured s;
     _first_capture := _first_capture s; session_tokens := session_tokens s;
     session_cost := session_cost s; settings := v; fs := fs s;
     api_calls := api_calls s |}.

Definition set_fs (v : gmap string bytes) (s : Form) : Form :=
  {| api_key_tb := api_key_tb s; output_folder_tb := output_folder_tb s;
     prompt_tb_Text := prompt_tb_Text s;
     prompt_tb_Enabled := prompt_tb_Enabled s;
     _prompt_placeholder_active := _prompt_placeholder_active s;
     _prompt_ever_focused := _prompt_ever_focused s;
     ref_previews := ref_previews s;
     generate_btn_Enabled := generate_btn_Enabled s;
     iterate_btn_Enabled := iterate_btn_Enabled s;
     show_generated_btn_Enabled := show_generated_btn_Enabled s;
     chat_log := chat_log s; timer_running := timer_running s;
     Prompt_history := Prompt_history s;
     _last_generated_image_path := _last_generated_image_path s;
     _captured_viewport_bytes := _captured_viewport_bytes s;
     _camera_info := _camera_info s;
     _viewport_captured := _viewport_captured s;
     _first_capture := _first_capture s; session_tokens := session_tokens s;
     session_cost := session_cost s; settings := settings s; fs := v;
     api_calls := api_calls s |}.

Definition set_api_calls (v : list (list (option Content))) (s : Form) : Form :=
  {| api_key_tb := api_key_tb s; output_folder_tb := output_folder_tb s;
     prompt_tb_Text := prompt_tb_Text s;
     prompt_tb_Enabled := prompt_tb_Enabled s;
     _prompt_placeholder_active := _prompt_placeholder_active s;
     _prompt_ever_focused := _prompt_ever_focused s;
     ref_previews := ref_previews s;
     generate_btn_Enabled := generate_btn_Enabled s;
     iterate_btn_Enabled := iterate_btn_Enabled s;
     show_generated_btn_Enabled := show_generated_btn_Enabled s;
     chat_log := chat_log s; timer_running := timer_running s;
     Prompt_history := Prompt_history s;
     _last_generated_image_path := _last_generated_image_path s;
     _captured_viewport_bytes := _captured_viewport_bytes s;
     _camera_info := _camera_info s;
     _viewport_captured := _viewport_captured s;
     _first_capture := _first_capture s; session_tokens := session_tokens s;
     session_cost := session_cost s; settings := settings s; fs := fs s;
     api_calls := v |}.

(** ** The answers of the outside world to one handler invocation *)

Record Env := {
  (** [os.environ.get("GEMINI_API_KEY", "")] *)
  environ_key : string;
  (** the answer to the reset warning: [true] for Yes *)
  confirm_reset : bool;
  (** [output_dir.exists()], and the error of [mkdir] if it fails *)
  dir_exists : bool;
  mkdir_error : option string;
  (** [capture_active_view_shaded()]: PNG bytes and camera dictionary *)
  view : result (bytes * gmap string string);
  (** the [ImportError] of [google.genai], if any *)
  import_error : option string;
  (** the error of [genai.Client(...)], if any, and the outcome of
      [client.models.generate_content] *)
  client_error : option string;
  api_reply : result Response;
  (** [time.strftime("%Y%m%d_%H%M%S")], the error of writing the output file,
      and whether the two attempts at building the preview bitmap succeed *)
  timestamp : string;
  (** [time.strftime("%Y-%m-%d %H:%M:%S")] *)
  generation_date : string;
  write_error : option string;
  (** what a failed writing of the output file leaves at its path: [None]
      when the file could not be opened *)
  write_leftover : option bytes;
  bitmap_ok : bool;
  reload_ok : bool;
  (** what the settings file holds after [save_settings], when
      [_save_current_settings] calls it and when [_track_cumulative_usage]
      calls it: the text that [json.dump] wrote, or what was written of it
      when the writing broke off; [None] when the file could not be opened
      and is as it was *)
  settings_saved : option bytes;
  usage_saved : option bytes
}.

(** ** The library functions and the paths

    The section variables are the library functions the handlers call:
    [base64.b64decode] (which raises on malformed input), the pair
    [SD.Bitmap(path)] and [bitmap_to_png_bytes] applied to the contents of an
    image file, [mimetypes.guess_type], and the placeholder text of the prompt
    box; then what the platform decides: the text that [pathlib] puts before
    the file name in [Path(folder) / name], and the same text for the folder
    [Path.home() / "Documents"]. *)

Section Handlers.

Variable b64decode : string -> result bytes.
Variable load_png : bytes -> result bytes.
Variable guess_type : string -> option string.
Variable _prompt_placeholder_text : string.
Variable folder_prefix : string -> string.
Variable documents_prefix : string.

(** ** Logging, timer, settings *)

Definition _append_chat_log (message : Msg) (who : Speaker) (s : Form) : Form :=
  set_chat_log (chat_log s ++ [(who, message)]) s.

Definition _start_timer (s : Form) : Form := set_timer_running true s.

Definition _stop_timer (s : Form) : Form := set_timer_running false s.

(** [self.api_key_tb.Text or os.environ.get("GEMINI_API_KEY", "")] *)
Definition api_key_of (w : Env) (s : Form) : string :=
  if str_truthy (api_key_tb s) then api_key_tb s else environ_key w.

(** [Path.home() / "Documents" / "RhinoGeminiSettings.json"] *)
Definition SETTINGS_FILE : string := documents_prefix ++ "RhinoGeminiSettings.json".

(** The files after [save_settings], which swallows its errors. *)
Definition settings_file_after (outcome : option bytes) (files : gmap string bytes)
    : gmap string bytes :=
  match outcome with
  | Some content => <[SETTINGS_FILE := content]> files
  | None => files
  end.

Definition save_settings (outcome : option bytes) (s : Form) : Form :=
  set_fs (settings_file_after outcome (fs s)) s.

Definition _save_current_settings (w : Env) (s : Form) : Form :=
  let prompt_text := if _prompt_placeholder_active s then "" else prompt_tb_Text s in
  let s :=
    set_settings
      (<["prompt" := JStr prompt_text]>
         (<["output_folder" := JStr (output_folder_tb s)]>
            (<["api_key" := JStr (api_key_tb s)]> (settings s)))) s in
  save_settings (settings_saved w) s.

Definition dquote : string := String (ascii_of_nat 34) EmptyString.

(** [current + tokens] and [current + cost] on a value of the settings. *)
Definition add_int (current : JVal) (tokens : Z) : result JVal :=
  match current with
  | JInt a => Return (JInt (a + tokens))
  | JFloat f =>
      match int_to_float tokens with
      | Return t => Return (JFloat (f + t)%float)
      | Raise e => Raise e
      end
  | JStr _ =>
      Raise ("can only concatenate str (not " ++ dquote ++ "int" ++ dquote ++ ") to str")
  end.

Definition add_float (current : JVal) (cost : float) : result JVal :=
  match current with
  | JInt a =>
      match int_to_float a with
      | Return t => Return (JFloat (t + cost)%float)
      | Raise e => Raise e
      end
  | JFloat f => Return (JFloat (f + cost)%float)
  | JStr _ =>
      Raise ("can only concatenate str (not " ++ dquote ++ "float" ++ dquote ++ ") to str")
  end.

Definition track_failed (e : string) (s : Form) : Form :=
  _append_chat_log (Txt ("Failed to track usage: " ++ e)) System s.

Definition _track_cumulative_usage
    (tokens : Z) (cost : float) (show_session_cost : bool) (w : Env) (s : Form) : Form :=
  let s := set_session_tokens (session_tokens s + tokens) s in
  let s := set_session_cost (session_cost s + cost)%float s in
  let current_total_tokens := default (JInt 0) (settings s !! "total_tokens_used") in
  let current_total_cost := default (JFloat 0.0) (settings s !! "total_cost") in
  match add_int current_total_tokens tokens with
  | Raise e => track_failed e s
  | Return total_tokens =>
      let s := set_settings (<["total_tokens_used" := total_tokens]> (settings s)) s in
      match add_float current_total_cost cost with
      | Raise e => track_failed e s
      | Return total =>
          let s := set_settings (<["total_cost" := total]> (settings s)) s in
          let s := set_settings
                     (<["last_generation_date" := JStr (generation_date w)]> (settings s)) s in
          let s := save_settings (usage_saved w) s in
          if show_session_cost
          then _append_chat_log (SessionCostMsg (session_cost s)) System s
          else s
      end
  end.

(** ** Camera description *)

Definition get (d : gmap string string) (k dflt : string) : string :=
  default dflt (d !! k).

Definition camera_log_line (camera_info : gmap string string) : string :=
  if bool_decide (camera_info !! "type" = Some "parallel")
  then "Camera: orthographic"
  else
    let str := "Camera: " ++ get camera_info "type" "unknown" in
    let str :=
      if bool_decide (camera_info !! "lens_length" = Some "N/A (parallel projection)")
      then str
      else str ++ ", " ++ get camera_info "lens_length" "unknown" ++ " "
               ++ get camera_info "lens_type" "lens" in
    if opt_truthy str_truthy (camera_info !! "field_of_view")
    then str ++ ", FOV: " ++ get camera_info "field_of_view" "unknown"
    else str.

Definition _format_camera_info_for_prompt (camera_info : gmap string string) : string :=
  if bool_decide (camera_info = ∅) then ""
  else
    let camera_desc :=
      if bool_decide (camera_info !! "type" = Some "perspective") then
        ("Shot with a " ++ get camera_info "lens_length" "unknown" ++ " "
           ++ get camera_info "lens_type" "lens")
        :: (if opt_truthy str_truthy (camera_info !! "field_of_view")
            then ["field of view " ++ get camera_info "field_of_view" ""]
            else [])
      else if bool_decide (camera_info !! "type" = Some "parallel") then
        ["Shot with orthographic projection (no perspective distortion)"]
      else [] in
    match camera_desc with
    | [] => ""
    | _ => "Camera settings: " ++ join ", " camera_desc ++ ". "
    end.

Definition structured_prompt (camera_info : gmap string string) : string :=
  "Place what you see in the 3D viewport capture in a photo studio with a soft infinite white background. Always use the same soft daylight-like illumination. "
  ++ _format_camera_info_for_prompt camera_info
  ++ "Compare your result with the reference image and do not release it until the result is a complete match. Do not modify or change anything that doesn't match the viewport image in any way.".

(** ** Walking the parts of a response *)

Record Walk := {
  img_bytes : option bytes;
  img_mime : string;
  analysis_text : option string
}.

Definition or_else (a : option string) (b : string) : string :=
  match a with
  | Some x => if str_truthy x then x else b
  | None => b
  end.

(** The body of the inner loop of the first walk: an inline image overwrites
    [img_bytes], a text of more than ten characters overwrites
    [analysis_text]. *)
Definition walk_part (wk : Walk) (part : Part) : Walk :=
  let inline :=
    match inline_data part with
    | Some b => Some b
    | None => inlineData part
    end in
  let wk :=
    match inline with
    | Some b =>
        if opt_truthy bytes_truthy (data b)
        then {| img_bytes := data b;
                img_mime := or_else (mime_type b) (or_else (mimeType b) (img_mime wk));
                analysis_text := analysis_text wk |}
        else wk
    | None => wk
    end in
  match text part with
  | Some text_content =>
      if str_truthy text_content && str_truthy (strip text_content)
         && (10 <? String.length (strip text_content))%nat
      then {| img_bytes := img_bytes wk; img_mime := img_mime wk;
              analysis_text := Some (strip text_content) |}
      else wk
  | None => wk
  end.

Definition not_iterable : string := "'NoneType' object is not iterable".

Fixpoint walk_candidates (cs : list Candidate) (wk : Walk) : result Walk :=
  match cs with
  | [] => Return wk
  | candidate :: rest =>
      match content candidate with
      | None => walk_candidates rest wk
      | Some c =>
          match parts c with
          | None => Raise not_iterable
          | Some ps => walk_candidates rest (fold_left walk_part ps wk)
          end
      end
  end.

(** The history entry added for the reply: the content of the first
    candidate, whatever it holds. *)
Definition store_reply (response : Response) (s : Form) : Form :=
  match candidates response with
  | Some (candidate :: _) =>
      set_Prompt_history (Prompt_history s ++ [content candidate]) s
  | _ => s
  end.

(** ** The handlers *)

(** *** Response parsing *)

(** The inner loop of the fallback: the first text part that starts with
    [data:image] and decodes stops the loop; a part that raises is skipped. *)
Fixpoint fallback_parts (ps : list Part) (img : option bytes) : option bytes :=
  match ps with
  | [] => img
  | part :: rest =>
      match text part with
      | Some text_content =>
          if str_truthy text_content && startswith (strip text_content) "data:image"
          then
            match split_comma_1 (strip text_content) with
            | Some b64_data =>
                match b64decode b64_data with
                | Return d => Some d
                | Raise _ => fallback_parts rest img
                end
            | None => fallback_parts rest img
            end
          else fallback_parts rest img
      | None => fallback_parts rest img
      end
  end.

Fixpoint fallback_candidates (cs : list Candidate) (img : option bytes)
    : result (option bytes) :=
  match cs with
  | [] => Return img
  | candidate :: rest =>
      match content candidate with
      | None => fallback_candidates rest img
      | Some c =>
          match parts c with
          | None => Raise not_iterable
          | Some ps =>
              let img := fallback_parts ps img in
              if opt_truthy bytes_truthy img then Return img
              else fallback_candidates rest img
          end
      end
  end.

Definition candidates_of (response : Response) : list Candidate :=
  default [] (candidates response).

Definition initial_walk : Walk :=
  {| img_bytes := None; img_mime := "image/png"; analysis_text := None |}.

(** Usage and cost: the cost to track and the total token count, or the
    [TypeError] of dividing an absent count, or the [OverflowError] of
    dividing a count beyond the doubles. *)
Definition usage_phase (response : Response) (show_usage : bool) (s : Form)
    : result (float * option Z) * Form :=
  match usage_metadata response with
  | Some usage_info =>
      let input_tokens := prompt_token_count usage_info in
      let output_tokens := candidates_token_count usage_info in
      let total_tokens := total_token_count usage_info in
      let s := if show_usage
               then _append_chat_log (UsageMsg input_tokens output_tokens total_tokens) System s
               else s in
      match input_tokens, output_tokens with
      | Some i, Some o =>
          match _calculate_generation_cost i o None with
          | Raise e => (Raise e, s)
          | Return cost_info =>
              let s := if show_usage
                       then _append_chat_log (CostMsg cost_info) System s
                       else s in
              (Return (total_cost cost_info, total_tokens), s)
          end
      | Some i, None =>
          (* the cost of the input is computed first *)
          match truediv i 1000000 with
          | Raise e => (Raise e, s)
          | Return _ =>
              (Raise "unsupported operand type(s) for /: 'NoneType' and 'int'", s)
          end
      | None, _ => (Raise "unsupported operand type(s) for /: 'NoneType' and 'int'", s)
      end
  | None =>
      let pricing := _get_model_pricing None in
      let total_cost := cost_per_image pricing in
      let s := if show_usage then _append_chat_log (EstimatedMsg total_cost) System s else s in
      (Return (total_cost, Some (tokens_per_image pricing)), s)
  end.

Definition process_failed (e : string) (s : Form) : Form :=
  _append_chat_log (Txt ("Failed to process response: " ++ e)) System s.

Definition no_image_error : Msg := Txt "Error: No image returned by the model.".

(** [output_dir / f"nano_banana_viewport_{timestamp}.png"], or [..._chat_...]
    for a result of Generate, where [output_dir] is [Path] of the text of the
    output folder. *)
Definition output_path_of (output_dir : string) (is_viewport_processing : bool)
    (w : Env) : string :=
  folder_prefix output_dir
  ++ (if is_viewport_processing then "nano_banana_viewport_" else "nano_banana_chat_")
  ++ timestamp w ++ ".png".

(** Writing the image, remembering its path, refreshing the reference after a
    capture, and tracking the cost. *)
Definition save_image (response : Response) (output_dir : string)
    (is_viewport_processing show_usage : bool) (w : Env)
    (total_cost : float) (total_tokens : option Z) (img : bytes) (s : Form) : Form :=
  let output_path := output_path_of output_dir is_viewport_processing w in
  match write_error w with
  | Some e =>
      let s :=
        set_fs (match write_leftover w with
                | Some content => <[output_path := content]> (fs s)
                | None => fs s
                end) s in
      process_failed e s
  | None =>
      let s := set_fs (<[output_path := img]> (fs s)) s in
      let s := set_last_generated_image_path (Some output_path) s in
      let s := set_show_generated_btn_Enabled true s in
      let s :=
        if is_viewport_processing then
          if bitmap_ok w then set_captured_viewport_bytes (Some img) s
          else
            match fs s !! output_path with
            | Some img_bytes_reload =>
                if reload_ok w
                then set_captured_viewport_bytes (Some img_bytes_reload) s
                else s
            | None => s
            end
        else s in
      match usage_metadata response with
      | Some _ =>
          match total_tokens with
          | Some t =>
              if 0 <? t
              then _track_cumulative_usage t total_cost show_usage w s
              else _track_cumulative_usage 0 total_cost show_usage w s
          | None =>
              process_failed "'>' not supported between instances of 'NoneType' and 'int'" s
          end
      | None => _track_cumulative_usage 0 total_cost show_usage w s
      end
  end.

Definition _process_response (response : Response) (output_dir : string)
    (is_viewport_processing show_usage : bool) (w : Env) (s : Form) : Form :=
  match usage_phase response show_usage s with
  | (Raise e, s) => process_failed e s
  | (Return (total_cost, total_tokens), s) =>
      match walk_candidates (candidates_of response) initial_walk with
      | Raise e => process_failed e s
      | Return wk =>
          let s :=
            if opt_truthy str_truthy (analysis_text wk)
            then _append_chat_log (Txt (default "" (analysis_text wk))) Nano s
            else _append_chat_log (Txt "Image generated successfully!") Nano s in
          let s := store_reply response s in
          let found :=
            if opt_truthy bytes_truthy (img_bytes wk) then Return (img_bytes wk)
            else fallback_candidates (candidates_of response) (img_bytes wk) in
          match found with
          | Raise e => process_failed e s
          | Return (Some (b :: img)) =>
              save_image response output_dir is_viewport_processing show_usage w
                total_cost total_tokens (b :: img) s
          | Return _ => _append_chat_log no_image_error System s
          end
      end
  end.

(** *** Mood board *)

Definition read_file_as_part (files : gmap string bytes) (path : string) : option Part :=
  if str_truthy path then
    match files !! path with
    | Some d => Some (Part_from_bytes d (default "application/octet-stream" (guess_type path)))
    | None => None
    end
  else None.

(** The loop over [self.ref_previews] that appends the mood-board images. *)
Fixpoint add_mood_board (files : gmap string bytes) (previews : list (option string))
    (ps : list Part) : list Part :=
  match previews with
  | [] => ps
  | preview :: rest =>
      match preview with
      | Some file_path =>
          if str_truthy file_path then
            match read_file_as_part files file_path with
            | Some part => add_mood_board files rest (ps ++ [part])
            | None => add_mood_board files rest ps
            end
          else add_mood_board files rest ps
      | None => add_mood_board files rest ps
      end
  end.

(** *** Capture *)

Definition _update_prompt_state (s : Form) : Form :=
  if _viewport_captured s then
    let s := set_prompt_tb_Enabled true s in
    if negb (_prompt_ever_focused s)
       && (negb (str_truthy (strip (prompt_tb_Text s)))
           || bool_decide (prompt_tb_Text s = _prompt_placeholder_text))
    then set_prompt_placeholder_active true (set_prompt_tb_Text _prompt_placeholder_text s)
    else s
  else
    let s := set_prompt_tb_Enabled false s in
    if negb (_prompt_ever_focused s)
    then set_prompt_placeholder_active true (set_prompt_tb_Text _prompt_placeholder_text s)
    else s.

Definition capture_failed (e : string) (s : Form) : Form :=
  _stop_timer
    (_append_chat_log (Txt ("Failed to capture and process viewport: " ++ e)) System s).

Definition _execute_capture_viewport (w : Env) (s : Form) : Form :=
  let s := set_first_capture false s in
  let s := set_Prompt_history [] s in
  let s := _start_timer s in
  if negb (str_truthy (api_key_of w s)) then
    _stop_timer
      (_append_chat_log
         (Txt "Error: Please enter your Google API key or set GEMINI_API_KEY environment variable.")
         System s)
  else
    match (if dir_exists w then None else mkdir_error w) with
    | Some e =>
        _stop_timer
          (_append_chat_log (Txt ("Error: Cannot create output directory: " ++ e)) System s)
    | None =>
        match view w with
        | Raise e => capture_failed e s
        | Return (png_bytes, camera_info) =>
            let s := set_captured_viewport_bytes (Some png_bytes) s in
            let s := set_camera_info (Some camera_info) s in
            let s := set_viewport_captured true s in
            let s := _append_chat_log (Txt (camera_log_line camera_info)) System s in
            let s := _update_prompt_state s in
            match import_error w with
            | Some e =>
                _stop_timer
                  (_append_chat_log
                     (Txt ("Error: Failed to import google-genai: " ++ e)) System s)
            | None =>
                let s := _append_chat_log (Txt (structured_prompt camera_info)) You s in
                let ps := [Part_from_text (structured_prompt camera_info);
                           Part_from_bytes png_bytes "image/png"] in
                let contents := [Some (user_turn ps)] in
                let s := set_Prompt_history contents s in
                match client_error w with
                | Some e => capture_failed e s
                | None =>
                    let s := set_api_calls (api_calls s ++ [contents]) s in
                    match api_reply w with
                    | Raise e => capture_failed e s
                    | Return response =>
                        let s := _process_response response (output_folder_tb s)
                                   true false w s in
                        let s := set_generate_btn_Enabled true s in
                        let s := set_iterate_btn_Enabled true s in
                        _stop_timer s
                    end
                end
            end
        end
    end.

(** The button handler: the key check, the reset warning on every capture
    but the first, then the capture itself.  After the warning the source runs
    the capture from a timer half a second later; here it runs at once. *)
Definition on_capture_viewport (w : Env) (s : Form) : Form :=
  if negb (str_truthy (api_key_of w s)) then s
  else if negb (_first_capture s) then
    if confirm_reset w then _execute_capture_viewport w s else s
  else _execute_capture_viewport w s.

(** *** Generate *)

Definition strict_instruction : string :=
  "Follow the primary reference image strictly. Do not change the camera angle, form, or composition. ".

Definition api_error (e : string) (s : Form) : Form :=
  _stop_timer (_append_chat_log (Txt ("API error: " ++ e)) System s).

(** The reference image when the first check of [on_generate] passes. *)
Definition captured_reference (s : Form) : option bytes :=
  match _captured_viewport_bytes s with
  | Some reference =>
      if _viewport_captured s && bytes_truthy reference then Some reference else None
  | None => None
  end.

(** [self.prompt_tb.Text.strip() if self.prompt_tb.Text and not
    self._prompt_placeholder_active else ""] *)
Definition user_prompt_of (s : Form) : string :=
  if str_truthy (prompt_tb_Text s) && negb (_prompt_placeholder_active s)
  then strip (prompt_tb_Text s)
  else "".

Definition on_generate (w : Env) (s : Form) : Form :=
  match captured_reference s with
  | None => _append_chat_log (Txt "Please capture viewport first!") System s
  | Some reference =>
      if negb (str_truthy (api_key_of w s)) then s
      else
        let s := _start_timer s in
        let s := _save_current_settings w s in
        let user_prompt := user_prompt_of s in
        let has_user_input := str_truthy user_prompt in
        let full_prompt :=
          if has_user_input then strict_instruction ++ user_prompt
          else strict_instruction ++ "Create an image based on this reference." in
        let s := _append_chat_log (Txt full_prompt) You s in
        match (if dir_exists w then None else mkdir_error w) with
        | Some e =>
            _stop_timer
              (_append_chat_log (Txt ("Error: Cannot create output directory: " ++ e)) System s)
        | None =>
            match import_error w with
            | Some e =>
                _stop_timer
                  (_append_chat_log
                     (Txt ("Error: Failed to import google-genai: " ++ e)) System s)
            | None =>
                let ps :=
                  add_mood_board (fs s) (ref_previews s)
                    [Part_from_bytes reference "image/png"; Part_from_text full_prompt] in
                match client_error w with
                | Some e => api_error e s
                | None =>
                    let is_iteration := (0 <? length (Prompt_history s))%nat in
                    let s :=
                      if is_iteration then
                        let iteration_prompt :=
                          if has_user_input then strict_instruction ++ user_prompt
                          else strict_instruction ++ "Continue with this image" in
                        let current_request_parts :=
                          add_mood_board (fs s) (ref_previews s)
                            [Part_from_bytes reference "image/png";
                             Part_from_text iteration_prompt] in
                        set_Prompt_history
                          (Prompt_history s ++ [Some (user_turn current_request_parts)]) s
                      else set_Prompt_history [Some (user_turn ps)] s in
                    (* in both branches [contents] is now the stored history *)
                    let contents := Prompt_history s in
                    let s := set_api_calls (api_calls s ++ [contents]) s in
                    match api_reply w with
                    | Raise e => api_error e s
                    | Return response =>
                        let s := _process_response response (output_folder_tb s)
                                   false false w s in
                        let s := set_iterate_btn_Enabled true s in
                        _stop_timer s
                    end
                end
            end
        end
  end.

(** *** Iterate *)

(** The generated file that [on_iterate] accepts: the remembered path, when it
    is set and the file exists. *)
Definition last_generated_file (s : Form) : option bytes :=
  match _last_generated_image_path s with
  | Some path => if str_truthy path then fs s !! path else None
  | None => None
  end.

Definition on_iterate (s : Form) : Form :=
  match last_generated_file s with
  | None => _append_chat_log (Txt "No generated image available to iterate with!") System s
  | Some file =>
      match load_png file with
      | Raise e => _append_chat_log (Txt ("Failed to iterate: " ++ e)) System s
      | Return generated_png_bytes =>
          let s := set_captured_viewport_bytes (Some generated_png_bytes) s in
          let s :=
            if negb (_prompt_ever_focused s)
            then set_prompt_placeholder_active true
                   (set_prompt_tb_Text _prompt_placeholder_text s)
            else set_prompt_placeholder_active false (set_prompt_tb_Text "" s) in
          let s := set_iterate_btn_Enabled false s in
          set_viewport_captured true s
      end
  end.

(** *** The form as [__init__] leaves it

    The key and the output folder come from the loaded settings. *)

Definition initial_form (loaded : gmap string JVal) (api_key output_folder : string)
    : Form :=
  {| api_key_tb := api_key;
     output_folder_tb := output_folder;
     prompt_tb_Text := _prompt_placeholder_text;
     prompt_tb_Enabled := false;
     _prompt_placeholder_active := true;
     _prompt_ever_focused := false;
     ref_previews := [None; None; None; None];
     generate_btn_Enabled := false;
     iterate_btn_Enabled := false;
     show_generated_btn_Enabled := false;
     chat_log := [];
     timer_running := false;
     Prompt_history := [];
     _last_generated_image_path := None;
     _captured_viewport_bytes := None;
     _camera_info := None;
     _viewport_captured := false;
     _first_capture := true;
     session_tokens := 0;
     session_cost := 0.0;
     settings := loaded;
     fs := ∅;
     api_calls := [] |}.

(** *** Sequences of actions *)

Inductive Action :=
| Capture (w : Env)
| Generate (w : Env)
| Iterate.

Definition step (s : Form) (a : Action) : Form :=
  match a with
  | Capture w => on_capture_viewport w s
  | Generate w => on_generate w s
  | Iterate => on_iterate s
  end.

(** The forms after each action of a sequence, in order. *)
Fixpoint run (s : Form) (actions : list Action) : list Form :=
  match actions with
  | [] => []
  | a :: rest => step s a :: run (step s a) rest
  end.

(** ** The rest of the form: mood board and prompt box *)

Definition set_prompt_ever_focused (v : bool) (s : Form) : Form :=
  {| api_key_tb := api_key_tb s; output_folder_tb := output_folder_tb s;
     prompt_tb_Text := prompt_tb_Text s;
     prompt_tb_Enabled := prompt_tb_Enabled s;
     _prompt_placeholder_active := _prompt_placeholder_active s;
     _prompt_ever_focused := v; ref_previews := ref_previews s;
     generate_btn_Enabled := generate_btn_Enabled s;
     iterate_btn_Enabled := iterate_btn_Enabled s;
     show_generated_btn_Enabled := show_generated_btn_Enabled s;
     chat_log := chat_log s; timer_running := timer_running s;
     Prompt_history := Prompt_history s;
     _last_generated_image_path := _last_generated_image_path s;
     _captured_viewport_bytes := _captured_viewport_bytes s;
     _camera_info := _camera_info s;
     _viewport_captured := _viewport_captured s;
     _first_capture := _first_capture s; session_tokens := session_tokens s;
     session_cost := session_cost s; settings := settings s; fs := fs s;
     api_calls := api_calls s |}.

(** [on_prompt_focus] and [on_prompt_blur], the two closures that
    [_setup_widgets] attaches to the prompt box. *)
Definition on_prompt_focus (s : Form) : Form :=
  if _prompt_placeholder_active s && prompt_tb_Enabled s
  then set_prompt_ever_focused true
         (set_prompt_placeholder_active false (set_prompt_tb_Text "" s))
  else s.

Definition on_prompt_blur (s : Form) : Form :=
  if negb (_prompt_ever_focused s) && negb (str_truthy (strip (prompt_tb_Text s)))
  then set_prompt_placeholder_active true (set_prompt_tb_Text _prompt_placeholder_text s)
  else s.

Definition index_error : string := "list index out of range".

(** [_load_reference_preview]: [bitmap_error] is the error of
    [Drawing.Bitmap(file_path)], if any; an index outside the list raises
    within the [try] and is logged like it. *)
Definition _load_reference_preview (bitmap_error : option string) (index : nat)
    (file_path : string) (s : Form) : Form :=
  if str_truthy file_path && bool_decide (is_Some (fs s !! file_path)) then
    let failed e :=
      _append_chat_log
        (Txt ("Failed to load mood board preview #" ++ pretty (index + 1)%nat ++ ": " ++ e))
        System s in
    match bitmap_error with
    | Some e => failed e
    | None =>
        match ref_previews s !! index with
        | Some _ => set_ref_previews (<[index := Some file_path]> (ref_previews s)) s
        | None => failed index_error
        end
    end
  else s.

(** [_select_reference_image]: [chosen] is the file name when the dialog is
    closed with Ok. *)
Definition _select_reference_image (chosen : option string) (bitmap_error : option string)
    (index : nat) (s : Form) : Form :=
  match chosen with
  | Some file_path => _load_reference_preview bitmap_error index file_path s
  | None => s
  end.

(** [_clear_reference_image] has no [try]: an index outside the list raises
    out of the handler. *)
Definition _clear_reference_image (index : nat) (s : Form) : result Form :=
  match ref_previews s !! index with
  | Some _ => Return (set_ref_previews (<[index := None]> (ref_previews s)) s)
  | None => Raise index_error
  end.

(** [on_show_generated], up to the dialog it opens: [bitmap_error] is the
    error of loading the image for the viewer, if any. *)
Definition on_show_generated (bitmap_error : option string) (s : Form) : Form :=
  match last_generated_file s with
  | None => _append_chat_log (Txt "Error: No generated image available to show.") System s
  | Some _ =>
      match bitmap_error with
      | Some e => _append_chat_log (Txt ("Failed to show image: " ++ e)) System s
      | None => s
      end
  end.

(** *** Everything that can happen to the form

    Besides the three actions: focus entering and leaving the prompt box, the
    user replacing the text of the box (which the toolkit allows while the box
    is enabled), the two buttons of a mood-board slot, and the button that
    shows the last generated image.  An exception that leaves a handler
    leaves the form as the handler found it. *)

Inductive Event :=
| Act (a : Action)
| Focus
| Blur
| Typed (t : string)
| ChooseMood (index : nat) (chosen : option string) (bitmap_error : option string)
| ClearMood (index : nat)
| ShowGenerated (bitmap_error : option string).

Definition handle (s : Form) (e : Event) : Form :=
  match e with
  | Act a => step s a
  | Focus => on_prompt_focus s
  | Blur => on_prompt_blur s
  | Typed t => if prompt_tb_Enabled s then set_prompt_tb_Text t s else s
  | ChooseMood index chosen bitmap_error =>
      _select_reference_image chosen bitmap_error index s
  | ClearMood index =>
      match _clear_reference_image index s with
      | Return s' => s'
      | Raise _ => s
      end
  | ShowGenerated bitmap_error => on_show_generated bitmap_error s
  end.

(** The form after all the events of a list. *)
Definition play (s : Form) (events : list Event) : Form := fold_left handle events s.

(** ** Reading the camera and capturing the viewport

    [format_1f x] is the text of [f"{x:.1f}"]; [degree_sign] is the pair of
    characters that the source writes after the field of view. *)

Variable format_1f : float -> string.
Variable degree_sign : string.

(** The attributes that [extract_camera_info] asks for with [hasattr];
    [None] is an absent attribute. *)
Record Camera := {
  IsPerspectiveProjection : option bool;
  IsParallelProjection : option bool;
  Camera35mmLensLength : option float;
  CameraAngle : option float
}.

(** A viewport: its own camera attributes, and the attribute [ViewportInfo]
    and the method [GetViewportInfo] when it has them (either may give
    [None]). *)
Record Viewport := {
  own : Camera;
  ViewportInfo : option (option Camera);
  GetViewportInfo : option (option Camera)
}.

Definition lens_type_of (lens_length : float) : string :=
  if (lens_length <? 24)%float then "ultra-wide angle"
  else if (lens_length <? 35)%float then "wide angle"
  else if (lens_length <? 85)%float then "normal"
  else if (lens_length <? 135)%float then "short telephoto"
  else "telephoto".

Definition field_of_view_of (fov_radians : float) : string :=
  format_1f (fov_radians * 180.0 / 3.14159)%float ++ degree_sign.

Definition all_unknown : gmap string string :=
  <["field_of_view" := "unknown"]>
    (<["lens_type" := "unknown"]>
       (<["lens_length" := "unknown"]> (<["type" := "unknown"]> ∅))).

Definition extract_camera_info (viewport : Viewport) : gmap string string :=
  let vp_info :=
    match ViewportInfo viewport with
    | Some v => v
    | None => match GetViewportInfo viewport with Some v => v | None => None end
    end in
  match vp_info with
  | None =>
      let camera_info : gmap string string := ∅ in
      let camera_info :=
        match IsPerspectiveProjection (own viewport) with
        | Some p => <["type" := if p then "perspective" else "parallel"]> camera_info
        | None => camera_info
        end in
      let camera_info :=
        match Camera35mmLensLength (own viewport) with
        | Some lens_length =>
            <["lens_type" := lens_type_of lens_length]>
              (<["lens_length" := format_1f lens_length ++ "mm"]> camera_info)
        | None => camera_info
        end in
      let camera_info :=
        match CameraAngle (own viewport) with
        | Some fov_radians => <["field_of_view" := field_of_view_of fov_radians]> camera_info
        | None => camera_info
        end in
      if bool_decide (camera_info = ∅) then all_unknown else camera_info
  | Some info =>
      let type :=
        if default false (IsPerspectiveProjection info) then "perspective"
        else if default false (IsParallelProjection info) then "parallel"
        else "unknown" in
      let camera_info : gmap string string := <["type" := type]> ∅ in
      let camera_info :=
        match Camera35mmLensLength info with
        | Some lens_length =>
            if String.eqb type "perspective"
            then <["lens_type" := lens_type_of lens_length]>
                   (<["lens_length" := format_1f lens_length ++ "mm"]> camera_info)
            else <["lens_type" := "orthographic"]>
                   (<["lens_length" := "N/A (parallel projection)"]> camera_info)
        | None =>
            <["lens_type" := "orthographic"]>
              (<["lens_length" := "N/A (parallel projection)"]> camera_info)
        end in
      match CameraAngle info with
      | Some fov_radians => <["field_of_view" := field_of_view_of fov_radians]> camera_info
      | None => camera_info
      end
  end.

(** An object of the document: its id, whether it is a curve, and whether
    it is visible. *)
Record RhinoObject := {
  Id : Z;
  is_curve : bool;
  Visible : bool
}.

(** The document as [capture_active_view_shaded] sees it: the objects, the
    active viewport if there is one, its display mode and its size. *)
Record Doc := {
  Objects : list RhinoObject;
  ActiveView : option Viewport;
  DisplayMode : string;
  size_Width : Z;
  size_Height : Z
}.

Definition with_visible (v : bool) (obj : RhinoObject) : RhinoObject :=
  {| Id := Id obj; is_curve := is_curve obj; Visible := v |}.

(** The first loop: the visibility of every curve is recorded, and the
    visible curves are hidden. *)
Fixpoint hide_curves (objs : list RhinoObject) : list (Z * bool) * list RhinoObject :=
  match objs with
  | [] => ([], [])
  | obj :: rest =>
      let (orig_curves_visible, rest') := hide_curves rest in
      if is_curve obj then
        ((Id obj, Visible obj) :: orig_curves_visible,
         (if Visible obj then with_visible false obj else obj) :: rest')
      else (orig_curves_visible, obj :: rest')
  end.

(** [obj = sc.doc.Objects.FindId(obj_id)], then the assignment of the
    recorded visibility when it differs. *)
Fixpoint restore_one (obj_id : Z) (was_visible : bool) (objs : list RhinoObject)
    : list RhinoObject :=
  match objs with
  | [] => []
  | obj :: rest =>
      if Id obj =? obj_id then
        (if Bool.eqb (Visible obj) was_visible then obj else with_visible was_visible obj)
        :: rest
      else obj :: restore_one obj_id was_visible rest
  end.

Definition restore_curves (orig_curves_visible : list (Z * bool)) (objs : list RhinoObject)
    : list RhinoObject :=
  fold_left (fun objs '(obj_id, was_visible) => restore_one obj_id was_visible objs)
    orig_curves_visible objs.

(** [int(width or size.Width)], the minimum of 64, and the default for a size
    that is still too small. *)
Definition capture_extent (requested : option Z) (view_extent : Z) : Z :=
  let w :=
    match requested with
    | Some r => if r =? 0 then view_extent else r
    | None => view_extent
    end in
  let w := Z.max w 64 in
  if w <? 64 then 1024 else w.

(** [bitmap_to_png_bytes], on the outcome of saving the bitmap as PNG. *)
Definition bitmap_to_png_bytes (saved : result bytes) : result bytes :=
  match saved with
  | Return b => Return b
  | Raise e => Raise ("Failed to convert bitmap to PNG bytes: " ++ e)
  end.

(** [shaded] is the display mode found under the name "Shaded", if any;
    [CaptureToBitmap] gives, for the document as it is when the picture is
    taken and the size asked for, [None] or the bitmap, which stands here as the
    outcome of saving it as PNG. *)
Definition capture_active_view_shaded
    (shaded : option string) (CaptureToBitmap : Doc -> Z -> Z -> option (result bytes))
    (width height : option Z) (doc : Doc)
    : result (bytes * gmap string string) * Doc :=
  match ActiveView doc with
  | None => (Raise "No active view to capture.", doc)
  | Some vp =>
      let orig_mode := DisplayMode doc in
      let camera_info := extract_camera_info vp in
      match shaded with
      | None => (Raise "Couldn't find 'Shaded' display mode.", doc)
      | Some shaded_dm =>
          let (orig_curves_visible, hidden) := hide_curves (Objects doc) in
          let shooting :=
            {| Objects := hidden; ActiveView := ActiveView doc; DisplayMode := shaded_dm;
               size_Width := size_Width doc; size_Height := size_Height doc |} in
          let w := capture_extent width (size_Width doc) in
          let h := capture_extent height (size_Height doc) in
          let outcome :=
            match CaptureToBitmap shooting w h with
            | None => Raise "Capture returned None."
            | Some bmp =>
                match bitmap_to_png_bytes bmp with
                | Return png_bytes => Return (png_bytes, camera_info)
                | Raise e => Raise e
                end
            end in
          (outcome,
           {| Objects := restore_curves orig_curves_visible hidden;
              ActiveView := ActiveView doc; DisplayMode := orig_mode;
              size_Width := size_Width doc; size_Height := size_Height doc |})
      end
  end.

(** ** Descriptions used in the statements

    These definitions do not come from the handlers: they describe, with list
    functions, what the loops of the handlers are proved to compute. *)

(** The parts of every candidate, in the order the walk visits them. *)
Definition parts_of (candidate : Candidate) : list Part :=
  match content candidate with
  | Some c => default [] (parts c)
  | None => []
  end.

Definition all_parts (cs : list Candidate) : list Part :=
  concat (map parts_of cs).

(** A response the loops can walk: every content has a list of parts. *)
Definition parts_present (cs : list Candidate) : bool :=
  forallb (fun candidate =>
             match content candidate with
             | Some c => match parts c with Some _ => true | None => false end
             | None => true
             end) cs.

(** Usage metadata, when present, carries both token counts, and a
    millionth of each is within the doubles. *)
Definition usage_ok (response : Response) : bool :=
  match usage_metadata response with
  | Some u =>
      match prompt_token_count u, candidates_token_count u with
      | Some i, Some o =>
          match truediv i 1000000, truediv o 1000000 with
          | Return _, Return _ => true
          | _, _ => false
          end
      | _, _ => false
      end
  | None => true
  end.

(** The image a part carries inline: non-empty data under [inline_data] or,
    failing that attribute, [inlineData]. *)
Definition inline_image (part : Part) : option bytes :=
  match (match inline_data part with Some b => Some b | None => inlineData part end) with
  | Some b => if opt_truthy bytes_truthy (data b) then data b else None
  | None => None
  end.

Definition inline_images (cs : list Candidate) : list bytes :=
  omap inline_image (all_parts cs).

(** The bytes of a text part that is a [data:image...] URI with a decodable
    payload after its first comma. *)
Definition data_uri (part : Part) : option bytes :=
  match text part with
  | Some text_content =>
      if str_truthy text_content && startswith (strip text_content) "data:image"
      then
        match split_comma_1 (strip text_content) with
        | Some b64_data =>
            match b64decode b64_data with
            | Return d => Some d
            | Raise _ => None
            end
        | None => None
        end
      else None
  | None => None
  end.

Definition usable (img : option bytes) : option bytes :=
  match img with
  | Some (b :: d) => Some (b :: d)
  | _ => None
  end.

(** The first data URI of each candidate, kept when it is not empty; the
    first candidate that has one decides. *)
Definition first_usable_uri (cs : list Candidate) : option bytes :=
  head (omap (fun candidate => usable (head (omap data_uri (parts_of candidate)))) cs).

(** The image the parser settles on: the last inline image over all parts of
    all candidates; without any, the first usable data URI. *)
Definition selected_image (response : Response) : option bytes :=
  match last (inline_images (candidates_of response)) with
  | Some img => Some img
  | None => first_usable_uri (candidates_of response)
  end.

(** The entry the reply adds to the history. *)
Definition reply_turn (response : Response) : list (option Content) :=
  match candidates response with
  | Some (candidate :: _) => [content candidate]
  | _ => []
  end.

(** The mood-board parts: one per preview whose file can be read. *)
Definition mood_board_parts (files : gmap string bytes) (previews : list (option string))
    : list Part :=
  omap (fun preview =>
          match preview with
          | Some file_path => read_file_as_part files file_path
          | None => None
          end) previews.

Definition default_phrase (s : Form) : string :=
  if (0 <? length (Prompt_history s))%nat
  then "Continue with this image"
  else "Create an image based on this reference.".

(** The instruction of a request: the strict instruction, then what is typed
    in the prompt box (nothing while the placeholder is shown) or, without
    it, the default phrase. *)
Definition typed_prompt (s : Form) : string :=
  if _prompt_placeholder_active s then "" else strip (prompt_tb_Text s).

Definition instruction_text (s : Form) : string :=
  strict_instruction
  ++ (if str_truthy (typed_prompt s) then typed_prompt s else default_phrase s).

Definition request_turn (s : Form) (reference : bytes) : Content :=
  user_turn (Part_from_bytes reference "image/png"
             :: Part_from_text (instruction_text s)
             :: mood_board_parts (fs s) (ref_previews s)).

Definition capture_turn (png_bytes : bytes) (camera_info : gmap string string) : Content :=
  user_turn [Part_from_text (structured_prompt camera_info);
             Part_from_bytes png_bytes "image/png"].

(** The request a capture sends, when it gets as far as sending one. *)
Definition capture_request (w : Env) (s : Form) : option Content :=
  if str_truthy (api_key_of w s) then
    match (if dir_exists w then None else mkdir_error w), view w,
          import_error w, client_error w with
    | None, Return (png_bytes, camera_info), None, None =>
        Some (capture_turn png_bytes camera_info)
    | _, _, _, _ => None
    end
  else None.

(** What the processing of a response never touches: the controls, the
    flags of the capture, the timer and the requests sent. *)
Definition same_controls (s s' : Form) : Prop :=
  api_key_tb s' = api_key_tb s
  /\ output_folder_tb s' = output_folder_tb s
  /\ prompt_tb_Text s' = prompt_tb_Text s
  /\ prompt_tb_Enabled s' = prompt_tb_Enabled s
  /\ _prompt_placeholder_active s' = _prompt_placeholder_active s
  /\ _prompt_ever_focused s' = _prompt_ever_focused s
  /\ ref_previews s' = ref_previews s
  /\ generate_btn_Enabled s' = generate_btn_Enabled s
  /\ iterate_btn_Enabled s' = iterate_btn_Enabled s
  /\ timer_running s' = timer_running s
  /\ _camera_info s' = _camera_info s
  /\ _viewport_captured s' = _viewport_captured s
  /\ _first_capture s' = _first_capture s
  /\ api_calls s' = api_calls s.

(** What logging and the storing of a reply leave alone: the results, the
    counters and the settings. *)
Definition same_results (s s' : Form) : Prop :=
  _last_generated_image_path s' = _last_generated_image_path s
  /\ show_generated_btn_Enabled s' = show_generated_btn_Enabled s
  /\ fs s' = fs s
  /\ _captured_viewport_bytes s' = _captured_viewport_bytes s
  /\ session_tokens s' = session_tokens s
  /\ session_cost s' = session_cost s
  /\ settings s' = settings s.

(** The three entries of the settings that [_save_current_settings] writes. *)
Definition same_saved_entries (s s' : Form) : Prop :=
  settings s' !! "api_key" = settings s !! "api_key"
  /\ settings s' !! "output_folder" = settings s !! "output_folder"
  /\ settings s' !! "prompt" = settings s !! "prompt".

(** The text of a part when it is long enough to be shown as commentary. *)
Definition long_text (part : Part) : option string :=
  match text part with
  | Some text_content =>
      if str_truthy text_content && str_truthy (strip text_content)
         && (10 <? String.length (strip text_content))%nat
      then Some (strip text_content)
      else None
  | None => None
  end.

(** The commentary of a response: its last long text. *)
Definition commentary (response : Response) : option string :=
  last (omap long_text (all_parts (candidates_of response))).

Definition commentary_line (response : Response) : LogEntry :=
  (Nano, Txt (default "Image generated successfully!" (commentary response))).

(** The form at the moment a Generate builds its request: the files are those
    that the saving of the settings leaves. *)
Definition at_request (w : Env) (s : Form) : Form :=
  set_fs (settings_file_after (settings_saved w) (fs s)) s.

(** The files are what they were, but for those at the given paths; and no
    file has gone. *)
Definition same_files_but (paths : list string) (s s' : Form) : Prop :=
  forall path, path ∉ paths -> fs s' !! path = fs s !! path.

Definition no_file_lost (s s' : Form) : Prop :=
  forall path, is_Some (fs s !! path) -> is_Some (fs s' !! path).

(** What a handler may do to the files: write at the path of its result and
    write the settings file. *)
Definition files_kept (out : string) (s s' : Form) : Prop :=
  same_files_but [out; SETTINGS_FILE] s s' /\ no_file_lost s s'.

(** The results, the counters and the settings, the files apart. *)
Definition same_results_but_files (s s' : Form) : Prop :=
  _last_generated_image_path s' = _last_generated_image_path s
  /\ show_generated_btn_Enabled s' = show_generated_btn_Enabled s
  /\ _captured_viewport_bytes s' = _captured_viewport_bytes s
  /\ session_tokens s' = session_tokens s
  /\ session_cost s' = session_cost s
  /\ settings s' = settings s.

(** The forms a Generate goes through: once the timer is started, the
    settings are saved and the prompt is logged; and once the request turn
    has joined the history and the history has been sent. *)
Definition prompt_logged (w : Env) (s : Form) : Form :=
  _append_chat_log
    (Txt (if str_truthy (user_prompt_of s)
          then strict_instruction ++ user_prompt_of s
          else strict_instruction ++ "Create an image based on this reference."))
    You (_save_current_settings w (_start_timer s)).

Definition before_reply (w : Env) (s : Form) (reference : bytes) : Form :=
  let s1 := prompt_logged w s in
  let s2 := set_Prompt_history
              (Prompt_history s ++ [Some (request_turn (at_request w s) reference)]) s1 in
  set_api_calls (api_calls s ++ [Prompt_history s2]) s2.

(** The forms a capture goes through: after the purge, after the view is
    stored, after the request is built, after it is sent. *)
Definition capture_started (s : Form) : Form :=
  _start_timer (set_Prompt_history [] (set_first_capture false s)).

Definition view_stored (png_bytes : bytes) (camera_info : gmap string string) (s : Form)
    : Form :=
  _update_prompt_state
    (_append_chat_log (Txt (camera_log_line camera_info)) System
       (set_viewport_captured true
          (set_camera_info (Some camera_info)
             (set_captured_viewport_bytes (Some png_bytes) (capture_started s))))).

Definition request_built (png_bytes : bytes) (camera_info : gmap string string) (s : Form)
    : Form :=
  set_Prompt_history [Some (capture_turn png_bytes camera_info)]
    (_append_chat_log (Txt (structured_prompt camera_info)) You
       (view_stored png_bytes camera_info s)).

Definition request_sent (png_bytes : bytes) (camera_info : gmap string string) (s : Form)
    : Form :=
  set_api_calls (api_calls s ++ [[Some (capture_turn png_bytes camera_info)]])
    (request_built png_bytes camera_info s).

(** What holds of the form between any two events. *)
Definition reference_when_captured (s : Form) : Prop :=
  _viewport_captured s = true -> is_Some (_captured_viewport_bytes s).

Definition generate_button_needs_capture (s : Form) : Prop :=
  generate_btn_Enabled s = true -> _viewport_captured s = true.

Definition show_button_follows_result (s : Form) : Prop :=
  show_generated_btn_Enabled s = true <-> is_Some (_last_generated_image_path s).

Definition result_file_present (s : Form) : Prop :=
  is_Some (_last_generated_image_path s) -> is_Some (last_generated_file s).

(** Once the prompt box has been focused the placeholder is not shown. *)
Definition focused_without_placeholder (s : Form) : Prop :=
  _prompt_ever_focused s = true -> _prompt_placeholder_active s = false.

(** The events whose handlers call the API. *)
Definition is_request_action (e : Event) : bool :=
  match e with
  | Act (Capture _) | Act (Generate _) => true
  | _ => false
  end.

(** The handler gets as far as the API call: a key is there, the output
    directory exists or can be made, the SDK imports, the client is built. *)
Definition reaches_api (w : Env) (s : Form) : Prop :=
  str_truthy (api_key_of w s) = true
  /\ (if dir_exists w then None else mkdir_error w) = None
  /\ import_error w = None
  /\ client_error w = None.

(** The cost formula in the words of the specification. *)
Definition spec_cost (p : Pricing) (inputTokens outputTokens : Z) : float :=
  ((exact_float inputTokens / 1000000.0) * input_price p
   + (exact_float outputTokens / 1000000.0) * output_price p
   + cost_per_image p)%float.

Definition is_capture (a : Action) : bool :=
  match a with Capture _ => true | _ => false end.

(** ** Scenarios

    Concrete library functions, forms and responses on which the statements
    below are run. *)

Definition image_A : bytes := [Byte.x89; Byte.x50; Byte.x4e; Byte.x47; Byte.x0a].
Definition image_B : bytes := [Byte.x89; Byte.x50; Byte.x4e; Byte.x47; Byte.x0b].
Definition viewport_png : bytes := [Byte.x89; Byte.x50; Byte.x4e; Byte.x47].

(** A decoder that knows one payload. *)
Definition sample_b64decode (payload : string) : result bytes :=
  if String.eqb payload "iVBORwo=" then Return image_A else Raise "Incorrect padding".

Definition sample_load_png (file : bytes) : result bytes := Return file.

Definition sample_guess_type (path : string) : option string := Some "image/png".

Definition sample_placeholder : string := "Capture active viewport to start creating!".

(** The paths of a system that writes [folder/name], and the text of a
    settings file. *)
Definition sample_folder_prefix (folder : string) : string := folder ++ "/".

Definition sample_documents_prefix : string := "/Users/me/Documents/".

Definition settings_text : bytes := [Byte.x7b; Byte.x7d].

Definition perspective_camera : gmap string string :=
  <["type" := "perspective"]>
    (<["lens_length" := "50.0mm"]>
       (<["lens_type" := "normal"]> (<["field_of_view" := "39.6"]> ∅))).

Definition sample_env (reply : result Response) : Env :=
  {| environ_key := "";
     confirm_reset := true;
     dir_exists := true;
     mkdir_error := None;
     view := Return (viewport_png, perspective_camera);
     import_error := None;
     client_error := None;
     api_reply := reply;
     timestamp := "20251001_120000";
     generation_date := "2025-10-01 12:00:00";
     write_error := None;
     write_leftover := None;
     bitmap_ok := true;
     reload_ok := true;
     settings_saved := Some settings_text;
     usage_saved := Some settings_text |}.

Definition fresh_form : Form := initial_form ∅ "key" "out".

(** A form with a captured reference and an empty history. *)
Definition captured_form : Form :=
  set_viewport_captured true (set_captured_viewport_bytes (Some viewport_png) fresh_form).

(** The same form with one mood-board image chosen. *)
Definition mood_form : Form :=
  set_ref_previews [Some "mood.png"; None; None; None]
    (set_fs (<["mood.png" := image_B]> ∅) captured_form).

(** The same form again, with a prompt typed into the box. *)
Definition typed_form : Form :=
  set_prompt_placeholder_active false
    (set_prompt_tb_Text "  on a marble table " mood_form).

Definition inline_part (img : bytes) : Part := Part_from_bytes img "image/png".

Definition model_turn (ps : list Part) : Candidate :=
  {| content := Some {| role := "model"; parts := Some ps |} |}.

Definition usage_10_20 : UsageMetadata :=
  {| prompt_token_count := Some 10;
     candidates_token_count := Some 20;
     total_token_count := Some 30 |}.

(** One candidate with two inline images. *)
Definition two_images : Response :=
  {| usage_metadata := Some usage_10_20;
     candidates := Some [model_turn [inline_part image_A; inline_part image_B]] |}.

(** Two candidates with one inline image each. *)
Definition two_candidates : Response :=
  {| usage_metadata := Some usage_10_20;
     candidates := Some [model_turn [inline_part image_A];
                         model_turn [inline_part image_B]] |}.

(** A commentary and an image. *)
Definition image_reply : Response :=
  {| usage_metadata := Some usage_10_20;
     candidates := Some [model_turn [Part_from_text "Here is the studio render.";
                                     inline_part image_A]] |}.

(** A reply without any image. *)
Definition text_only : Response :=
  {| usage_metadata := Some usage_10_20;
     candidates := Some [model_turn [Part_from_text "I cannot render this scene."]] |}.

(** A data URI in a text part, and no inline image. *)
Definition data_uri_reply : Response :=
  {| usage_metadata := Some usage_10_20;
     candidates :=
       Some [model_turn [Part_from_text " data:image/png;base64,iVBORwo= "]] |}.

(** An image, no usage metadata. *)
Definition image_without_usage : Response :=
  {| usage_metadata := None;
     candidates := Some [model_turn [inline_part image_A]] |}.

(** An image, and usage metadata without the token counts. *)
Definition uncounted_reply : Response :=
  {| usage_metadata :=
       Some {| prompt_token_count := None;
               candidates_token_count := None;
               total_token_count := None |};
     candidates := Some [model_turn [Part_from_text "Here is the studio render.";
                                     inline_part image_A]] |}.

(** The user answers No to the reset warning. *)
Definition declining (reply : result Response) : Env :=
  {| environ_key := environ_key (sample_env reply);
     confirm_reset := false;
     dir_exists := dir_exists (sample_env reply);
     mkdir_error := mkdir_error (sample_env reply);
     view := view (sample_env reply);
     import_error := import_error (sample_env reply);
     client_error := client_error (sample_env reply);
     api_reply := reply;
     timestamp := timestamp (sample_env reply);
     generation_date := generation_date (sample_env reply);
     write_error := write_error (sample_env reply);
     write_leftover := write_leftover (sample_env reply);
     bitmap_ok := bitmap_ok (sample_env reply);
     reload_ok := reload_ok (sample_env reply);
     settings_saved := settings_saved (sample_env reply);
     usage_saved := usage_saved (sample_env reply) |}.

(** The output file is created, and cannot be written. *)
Definition unwritable (reply : result Response) : Env :=
  {| environ_key := environ_key (sample_env reply);
     confirm_reset := confirm_reset (sample_env reply);
     dir_exists := dir_exists (sample_env reply);
     mkdir_error := mkdir_error (sample_env reply);
     view := view (sample_env reply);
     import_error := import_error (sample_env reply);
     client_error := client_error (sample_env reply);
     api_reply := reply;
     timestamp := timestamp (sample_env reply);
     generation_date := generation_date (sample_env reply);
     write_error := Some "[Errno 28] No space left on device";
     write_leftover := Some [];
     bitmap_ok := bitmap_ok (sample_env reply);
     reload_ok := reload_ok (sample_env reply);
     settings_saved := settings_saved (sample_env reply);
     usage_saved := usage_saved (sample_env reply) |}.

(** There is no active view to capture. *)
Definition without_view (reply : result Response) : Env :=
  {| environ_key := environ_key (sample_env reply);
     confirm_reset := confirm_reset (sample_env reply);
     dir_exists := dir_exists (sample_env reply);
     mkdir_error := mkdir_error (sample_env reply);
     view := Raise "No active view to capture.";
     import_error := import_error (sample_env reply);
     client_error := client_error (sample_env reply);
     api_reply := reply;
     timestamp := timestamp (sample_env reply);
     generation_date := generation_date (sample_env reply);
     write_error := write_error (sample_env reply);
     write_leftover := write_leftover (sample_env reply);
     bitmap_ok := bitmap_ok (sample_env reply);
     reload_ok := reload_ok (sample_env reply);
     settings_saved := settings_saved (sample_env reply);
     usage_saved := usage_saved (sample_env reply) |}.

(** A perspective camera with a 50 mm lens, its viewport, and a document with
    a visible curve, a hidden curve and a mesh. *)
Definition sample_format_1f (x : float) : string := "50.0".

Definition sample_degree_sign : string :=
  String (ascii_of_nat 194) (String (ascii_of_nat 172)
    (String (ascii_of_nat 226) (String (ascii_of_nat 136)
       (String (ascii_of_nat 158) EmptyString)))).

Definition studio_camera : Camera :=
  {| IsPerspectiveProjection := Some true;
     IsParallelProjection := Some false;
     Camera35mmLensLength := Some 50%float;
     CameraAngle := None |}.

Definition studio_viewport : Viewport :=
  {| own := {| IsPerspectiveProjection := None; IsParallelProjection := None;
               Camera35mmLensLength := None; CameraAngle := None |};
     ViewportInfo := Some (Some studio_camera);
     GetViewportInfo := None |}.

Definition sample_doc : Doc :=
  {| Objects := [ {| Id := 1; is_curve := true; Visible := true |};
                  {| Id := 2; is_curve := true; Visible := false |};
                  {| Id := 3; is_curve := false; Visible := true |} ];
     ActiveView := Some studio_viewport;
     DisplayMode := "Wireframe";
     size_Width := 800;
     size_Height := 600 |}.

Definition sample_CaptureToBitmap (doc : Doc) (w h : Z) : option (result bytes) :=
  Some (Return viewport_png).

(** * Properties *)

(** Unfolding of attribute reads through attribute assignments. *)
Ltac attrs :=
  cbn [api_key_tb output_folder_tb prompt_tb_Text prompt_tb_Enabled
       _prompt_placeholder_active _prompt_ever_focused ref_previews
       generate_btn_Enabled iterate_btn_Enabled show_generated_btn_Enabled
       chat_log timer_running Prompt_history _last_generated_image_path
       _captured_viewport_bytes _camera_info _viewport_captured _first_capture
       session_tokens session_cost settings fs api_calls
       set_prompt_tb_Text set_prompt_tb_Enabled
       set_prompt_placeholder_active set_ref_previews
       set_generate_btn_Enabled set_iterate_btn_Enabled set_show_generated_btn_Enabled
       set_chat_log set_timer_running set_Prompt_history set_last_generated_image_path
       set_captured_viewport_bytes set_camera_info set_viewport_captured
       set_first_capture set_session_tokens set_session_cost set_settings set_fs
       set_api_calls _append_chat_log _start_timer _stop_timer save_settings] in *.

(** ** Preconditions of Generate and Iterate *)

Lemma captured_reference_not_captured s :
  _viewport_captured s = false -> captured_reference s = None.
Proof.
  intros H. unfold captured_reference. rewrite H.
  destruct (_captured_viewport_bytes s); reflexivity.
Qed.

(** C4. Generate with [captured] false only appends the message
    "Please capture viewport first!" to the chat log: no request is sent to
    the API, and the reference image, the history, the captured flag, the
    last generated path, the timer and the file system are what they were. *)
Theorem generate_requires_capture (w : Env) (s : Form) :
  _viewport_captured s = false ->
  on_generate w s = _append_chat_log (Txt "Please capture viewport first!") System s
  /\ api_calls (on_generate w s) = api_calls s
  /\ _captured_viewport_bytes (on_generate w s) = _captured_viewport_bytes s
  /\ Prompt_history (on_generate w s) = Prompt_history s
  /\ _viewport_captured (on_generate w s) = false
  /\ _last_generated_image_path (on_generate w s) = _last_generated_image_path s
  /\ timer_running (on_generate w s) = timer_running s
  /\ fs (on_generate w s) = fs s.
Proof.
  intros H. unfold on_generate.
  rewrite (captured_reference_not_captured s H).
  attrs. repeat split; assumption.
Qed.

(** C5. Iterate when no generated result exists (no path remembered, or no
    file at that path) only appends the message "No generated image available
    to iterate with!": the reference image and the rest of the session are
    what they were. *)
Theorem iterate_requires_result (s : Form) :
  last_generated_file s = None ->
  on_iterate s
    = _append_chat_log (Txt "No generated image available to iterate with!") System s
  /\ _captured_viewport_bytes (on_iterate s) = _captured_viewport_bytes s
  /\ Prompt_history (on_iterate s) = Prompt_history s
  /\ _viewport_captured (on_iterate s) = _viewport_captured s
  /\ api_calls (on_iterate s) = api_calls s.
Proof.
  intros H. unfold on_iterate. rewrite H. attrs. repeat split.
Qed.

Lemma iterate_success (s : Form) (file png : bytes) :
  last_generated_file s = Some file ->
  load_png file = Return png ->
  _captured_viewport_bytes (on_iterate s) = Some png
  /\ Prompt_history (on_iterate s) = Prompt_history s
  /\ _viewport_captured (on_iterate s) = true
  /\ api_calls (on_iterate s) = api_calls s
  /\ chat_log (on_iterate s) = chat_log s.
Proof.
  intros Hf Hl. unfold on_iterate. rewrite Hf, Hl. attrs.
  destruct (_prompt_ever_focused s); attrs; repeat split.
Qed.

(** C6. A successful Iterate (a generated file exists and loads) makes the
    PNG bytes of that file the reference image, leaves the history as it was
    and leaves [captured] true; it sends nothing to the API. *)
Theorem iterate_promotes_result (s : Form) (file png : bytes) :
  last_generated_file s = Some file ->
  load_png file = Return png ->
  _captured_viewport_bytes (on_iterate s) = Some png
  /\ Prompt_history (on_iterate s) = Prompt_history s
  /\ _viewport_captured (on_iterate s) = true
  /\ api_calls (on_iterate s) = api_calls s.
Proof.
  intros Hf Hl.
  destruct (iterate_success s file png Hf Hl) as (Hc & Hh & Hv & Ha & _).
  repeat split; assumption.
Qed.


(** ** What the response parser leaves alone *)

Ltac case_matches :=
  repeat match goal with
         | |- context [match ?x with _ => _ end] => destruct x eqn:?
         end.

(** *** Files *)

Lemma settings_file_after_other outcome files path :
  path <> SETTINGS_FILE -> settings_file_after outcome files !! path = files !! path.
Proof.
  intros H. unfold settings_file_after.
  destruct outcome; [apply lookup_insert_ne; congruence|reflexivity].
Qed.

Lemma insert_keeps_files (files : gmap string bytes) key content path :
  is_Some (files !! path) -> is_Some (<[key := content]> files !! path).
Proof.
  intros H. destruct (decide (key = path)) as [->|Hne].
  - rewrite lookup_insert_eq. eexists; reflexivity.
  - rewrite lookup_insert_ne by exact Hne. exact H.
Qed.

Lemma settings_file_after_keeps outcome files path :
  is_Some (files !! path) -> is_Some (settings_file_after outcome files !! path).
Proof.
  intros H. unfold settings_file_after.
  destruct outcome; [apply insert_keeps_files, H|exact H].
Qed.

Lemma same_files_but_refl paths s : same_files_but paths s s.
Proof. intros path _. reflexivity. Qed.

Lemma same_files_but_trans paths s1 s2 s3 :
  same_files_but paths s1 s2 -> same_files_but paths s2 s3 -> same_files_but paths s1 s3.
Proof. intros H1 H2 path Hp. rewrite (H2 path Hp). apply H1, Hp. Qed.

Lemma same_files_but_more paths paths' s s' :
  paths ⊆ paths' -> same_files_but paths s s' -> same_files_but paths' s s'.
Proof. intros Hsub H path Hp. apply H. intros Hin. apply Hp, Hsub, Hin. Qed.

Lemma same_files_same paths s s' : fs s' = fs s -> same_files_but paths s s'.
Proof. intros H path _. rewrite H. reflexivity. Qed.

Lemma no_file_lost_refl s : no_file_lost s s.
Proof. intros path H. exact H. Qed.

Lemma no_file_lost_trans s1 s2 s3 :
  no_file_lost s1 s2 -> no_file_lost s2 s3 -> no_file_lost s1 s3.
Proof. intros H1 H2 path Hp. apply H2, H1, Hp. Qed.

Lemma no_file_lost_same s s' : fs s' = fs s -> no_file_lost s s'.
Proof. intros H path Hp. rewrite H. exact Hp. Qed.

Lemma files_kept_same out s s' : fs s' = fs s -> files_kept out s s'.
Proof. intros H. split; [apply same_files_same, H|apply no_file_lost_same, H]. Qed.

Lemma files_kept_trans out s1 s2 s3 :
  files_kept out s1 s2 -> files_kept out s2 s3 -> files_kept out s1 s3.
Proof.
  intros (H1 & K1) (H2 & K2).
  split; [eapply same_files_but_trans|eapply no_file_lost_trans]; eassumption.
Qed.

Lemma files_kept_settings out outcome s s' :
  fs s' = settings_file_after outcome (fs s) -> files_kept out s s'.
Proof.
  intros H. split; intros path Hp; rewrite H.
  - apply settings_file_after_other. intros ->. apply Hp. right; left.
  - apply settings_file_after_keeps, Hp.
Qed.

Lemma files_kept_written out content s s' :
  fs s' = <[out := content]> (fs s) -> files_kept out s s'.
Proof.
  intros H. split; intros path Hp; rewrite H.
  - apply lookup_insert_ne. intros ->. apply Hp. left.
  - apply insert_keeps_files, Hp.
Qed.

Lemma same_results_files out s s' :
  same_results s s' -> files_kept out s s' /\ same_results_but_files s s'.
Proof.
  intros (Hp & Hs & Hf & Hb & Ht & Hc & Hset).
  split; [apply files_kept_same, Hf|repeat split; assumption].
Qed.

Lemma save_settings_files outcome s :
  same_files_but [SETTINGS_FILE] s (save_settings outcome s)
  /\ no_file_lost s (save_settings outcome s).
Proof.
  split.
  - intros path Hp. attrs. apply settings_file_after_other.
    intros ->. apply Hp. left.
  - intros path Hp. attrs. apply settings_file_after_keeps, Hp.
Qed.

Lemma last_char_app a b :
  last_char (a ++ b) = match last_char b with Some c => Some c | None => last_char a end.
Proof.
  induction a as [|c a IH].
  - change ("" ++ b) with b. destruct (last_char b); reflexivity.
  - change (String c a ++ b) with (String c (a ++ b)). cbn [last_char]. rewrite IH.
    destruct (last_char b); reflexivity.
Qed.

Lemma output_path_not_settings dir vp w : output_path_of dir vp w <> SETTINGS_FILE.
Proof.
  unfold output_path_of, SETTINGS_FILE. intros H. apply (f_equal last_char) in H.
  rewrite !last_char_app in H. cbn in H. discriminate H.
Qed.

Lemma output_path_truthy dir vp w : str_truthy (output_path_of dir vp w) = true.
Proof.
  unfold output_path_of. destruct (folder_prefix dir); [|reflexivity].
  destruct vp; reflexivity.
Qed.

(** Goals about the files of a form that is written out. *)
Ltac files :=
  let path := fresh "path" in
  let Hp := fresh "Hp" in
  intros path Hp; attrs;
  first [ exact Hp
        | reflexivity
        | apply settings_file_after_other; intros ->; apply Hp; left
        | apply settings_file_after_keeps, Hp ].

Lemma track_usage_frame tokens cost show w s :
  let s' := _track_cumulative_usage tokens cost show w s in
  api_calls s' = api_calls s
  /\ Prompt_history s' = Prompt_history s
  /\ (same_files_but [SETTINGS_FILE] s s' /\ no_file_lost s s')
  /\ _last_generated_image_path s' = _last_generated_image_path s
  /\ _captured_viewport_bytes s' = _captured_viewport_bytes s
  /\ session_cost s' = (session_cost s + cost)%float.
Proof.
  unfold _track_cumulative_usage, track_failed.
  case_matches; attrs; repeat split; files.
Qed.

Lemma usage_phase_frame response show s r s' :
  usage_phase response show s = (r, s') ->
  api_calls s' = api_calls s
  /\ Prompt_history s' = Prompt_history s
  /\ fs s' = fs s
  /\ _last_generated_image_path s' = _last_generated_image_path s
  /\ _captured_viewport_bytes s' = _captured_viewport_bytes s
  /\ session_cost s' = session_cost s.
Proof.
  unfold usage_phase. intros H.
  repeat match type of H with
         | context [match ?x with _ => _ end] => destruct x
         end;
    inversion H; subst; attrs; repeat split.
Qed.


(** ** The two walks over the parts *)

Lemma walk_part_img wk part :
  img_bytes (walk_part wk part)
  = match inline_image part with Some img => Some img | None => img_bytes wk end.
Proof.
  unfold walk_part, inline_image.
  destruct (match inline_data part with Some b => Some b | None => inlineData part end)
    as [b|]; [destruct (data b) as [d|]; [destruct d|]|];
    cbn [opt_truthy bytes_truthy]; destruct (text part);
    case_matches; reflexivity.
Qed.

Lemma fold_walk_img ps wk :
  img_bytes (fold_left walk_part ps wk)
  = match last (omap inline_image ps) with Some img => Some img | None => img_bytes wk end.
Proof.
  revert wk. induction ps as [|part ps IH]; intros wk; [reflexivity|].
  cbn [fold_left omap list_omap]. rewrite IH, walk_part_img.
  destruct (inline_image part) as [img|]; [|reflexivity].
  rewrite last_cons. destruct (last (omap inline_image ps)); reflexivity.
Qed.

Lemma inline_images_cons candidate cs :
  inline_images (candidate :: cs)
  = (omap inline_image (parts_of candidate) ++ inline_images cs)%list.
Proof. unfold inline_images, all_parts. cbn [map concat]. apply omap_app. Qed.

Lemma walk_candidates_img cs wk :
  parts_present cs = true ->
  exists wk', walk_candidates cs wk = Return wk'
    /\ img_bytes wk'
       = match last (inline_images cs) with Some img => Some img | None => img_bytes wk end.
Proof.
  revert wk. induction cs as [|candidate cs IH]; intros wk Hp.
  - exists wk. split; reflexivity.
  - cbn [parts_present forallb] in Hp. apply andb_prop in Hp as [Hc Hp].
    rewrite inline_images_cons, last_app. cbn [walk_candidates]. unfold parts_of.
    destruct (content candidate) as [c|].
    + destruct (parts c) as [ps|]; [|discriminate Hc].
      destruct (IH (fold_left walk_part ps wk) Hp) as (wk' & Hw & Hi).
      exists wk'. split; [exact Hw|]. rewrite Hi, fold_walk_img. cbn [default].
      destruct (last (inline_images cs)); reflexivity.
    + destruct (IH wk Hp) as (wk' & Hw & Hi).
      exists wk'. split; [exact Hw|]. rewrite Hi.
      destruct (last (inline_images cs)); reflexivity.
Qed.

Lemma inline_image_truthy part img :
  inline_image part = Some img -> bytes_truthy img = true.
Proof.
  unfold inline_image.
  destruct (match inline_data part with Some b => Some b | None => inlineData part end)
    as [b|]; [|discriminate].
  destruct (data b) as [d|]; cbn [opt_truthy]; [|discriminate].
  destruct (bytes_truthy d) eqn:E; [|discriminate]. intros [= <-]. exact E.
Qed.

Lemma last_inline_truthy cs img :
  last (inline_images cs) = Some img -> bytes_truthy img = true.
Proof.
  intros H. apply last_Some_elem_of in H. unfold inline_images in H.
  apply list_elem_of_omap in H as (part & _ & H). eapply inline_image_truthy, H.
Qed.

Lemma fallback_parts_head ps img :
  fallback_parts ps img
  = match head (omap data_uri ps) with Some d => Some d | None => img end.
Proof.
  induction ps as [|part ps IH]; [reflexivity|].
  cbn [fallback_parts omap list_omap]. unfold data_uri at 1.
  destruct (text part) as [t|]; [|exact IH].
  destruct (str_truthy t && startswith (strip t) "data:image"); [|exact IH].
  destruct (split_comma_1 (strip t)) as [b64|]; [|exact IH].
  destruct (b64decode b64); [reflexivity|exact IH].
Qed.

Lemma usable_truthy img : opt_truthy bytes_truthy img = false -> usable img = None.
Proof. destruct img as [[|b d]|]; [reflexivity|discriminate|reflexivity]. Qed.

Lemma first_usable_uri_cons candidate cs :
  first_usable_uri (candidate :: cs)
  = match usable (head (omap data_uri (parts_of candidate))) with
    | Some img => Some img
    | None => first_usable_uri cs
    end.
Proof.
  unfold first_usable_uri. cbn [omap list_omap].
  destruct (usable (head (omap data_uri (parts_of candidate)))); reflexivity.
Qed.

Lemma fallback_candidates_first cs img :
  parts_present cs = true ->
  opt_truthy bytes_truthy img = false ->
  exists found, fallback_candidates cs img = Return found
    /\ usable found = first_usable_uri cs.
Proof.
  revert img. induction cs as [|candidate cs IH]; intros img Hp Hi.
  - exists img. split; [reflexivity|]. apply usable_truthy, Hi.
  - cbn [parts_present forallb] in Hp. apply andb_prop in Hp as [Hc Hp].
    rewrite first_usable_uri_cons. cbn [fallback_candidates]. unfold parts_of.
    destruct (content candidate) as [c|].
    + destruct (parts c) as [ps|]; [|discriminate Hc]. cbn [default from_option id].
      rewrite fallback_parts_head.
      destruct (head (omap data_uri ps)) as [d|].
      * destruct d as [|b d]; cbn [opt_truthy bytes_truthy usable].
        -- apply (IH (Some []) Hp). reflexivity.
        -- exists (Some (b :: d)). split; reflexivity.
      * rewrite Hi. cbn [usable]. apply (IH img Hp Hi).
    + cbn [omap list_omap head usable]. apply (IH img Hp Hi).
Qed.


(** ** The response parser as a whole *)

Lemma store_reply_history response s :
  Prompt_history (store_reply response s) = (Prompt_history s ++ reply_turn response)%list.
Proof.
  unfold store_reply, reply_turn.
  destruct (candidates response) as [[|candidate cs]|]; attrs;
    rewrite ?app_nil_r; reflexivity.
Qed.

Lemma store_reply_frame response s :
  let s' := store_reply response s in
  api_calls s' = api_calls s
  /\ fs s' = fs s
  /\ _last_generated_image_path s' = _last_generated_image_path s
  /\ _captured_viewport_bytes s' = _captured_viewport_bytes s
  /\ session_cost s' = session_cost s
  /\ chat_log s' = chat_log s.
Proof.
  unfold store_reply.
  destruct (candidates response) as [[|candidate cs]|]; attrs; repeat split.
Qed.

Lemma usage_phase_ok response show s :
  usage_ok response = true ->
  exists cost tokens s1, usage_phase response show s = (Return (cost, tokens), s1).
Proof.
  unfold usage_ok, usage_phase, _calculate_generation_cost. intros H.
  destruct (usage_metadata response) as [u|]; [|eauto].
  destruct (prompt_token_count u) as [i|]; [|discriminate].
  destruct (candidates_token_count u) as [o|]; [|discriminate].
  destruct (truediv i 1000000); [|discriminate].
  destruct (truediv o 1000000); [|discriminate]. eauto.
Qed.

(** On a response it can walk, the parser logs the commentary, stores the
    reply in the history and then either saves the selected image or reports
    that there is none. *)
Lemma process_response_outcome response dir vp su w s :
  parts_present (candidates_of response) = true ->
  usage_ok response = true ->
  exists s3 cost tokens,
    Prompt_history s3 = (Prompt_history s ++ reply_turn response)%list
    /\ fs s3 = fs s
    /\ _last_generated_image_path s3 = _last_generated_image_path s
    /\ api_calls s3 = api_calls s
    /\ _captured_viewport_bytes s3 = _captured_viewport_bytes s
    /\ session_cost s3 = session_cost s
    /\ fst (usage_phase response su s) = Return (cost, tokens)
    /\ _process_response response dir vp su w s
       = match selected_image response with
         | Some img => save_image response dir vp su w cost tokens img s3
         | None => _append_chat_log no_image_error System s3
         end.
Proof.
  intros Hp Hu.
  destruct (usage_phase_ok response su s Hu) as (cost & tokens & s1 & Hus).
  destruct (usage_phase_frame _ _ _ _ _ Hus) as (Ha & Hh & Hf & Hl & Hc & Hs).
  destruct (walk_candidates_img (candidates_of response) initial_walk Hp)
    as (wk & Hw & Hi).
  cbn [img_bytes initial_walk] in Hi.
  unfold _process_response. rewrite Hus, Hw.
  set (s2 := if opt_truthy str_truthy (analysis_text wk)
             then _append_chat_log (Txt (default "" (analysis_text wk))) Nano s1
             else _append_chat_log (Txt "Image generated successfully!") Nano s1).
  assert (Hs2 : api_calls s2 = api_calls s1 /\ Prompt_history s2 = Prompt_history s1
                /\ fs s2 = fs s1
                /\ _last_generated_image_path s2 = _last_generated_image_path s1
                /\ _captured_viewport_bytes s2 = _captured_viewport_bytes s1
                /\ session_cost s2 = session_cost s1).
  { subst s2. destruct (opt_truthy str_truthy (analysis_text wk)); attrs; repeat split. }
  destruct Hs2 as (Ha2 & Hh2 & Hf2 & Hl2 & Hc2 & Hs2).
  destruct (store_reply_frame response s2) as (Ha3 & Hf3 & Hl3 & Hc3 & Hs3 & _).
  exists (store_reply response s2), cost, tokens.
  rewrite store_reply_history.
  repeat split; try congruence.
  unfold selected_image. rewrite Hi.
  destruct (last (inline_images (candidates_of response))) as [img|] eqn:El.
  - pose proof (last_inline_truthy _ _ El) as Ht.
    cbn [opt_truthy]. rewrite Ht. destruct img; [discriminate Ht|reflexivity].
  - cbn [opt_truthy].
    destruct (fallback_candidates_first (candidates_of response) None Hp eq_refl)
      as (found & Hfb & Hfu).
    rewrite Hfb, <- Hfu. destruct found as [[|b d]|]; reflexivity.
Qed.

(** The files once an image is written and its cost possibly tracked. *)
Lemma files_after_image out img s s2 s' :
  out <> SETTINGS_FILE ->
  fs s2 = <[out := img]> (fs s) ->
  same_files_but [SETTINGS_FILE] s2 s' /\ no_file_lost s2 s' ->
  fs s' !! out = Some img
  /\ same_files_but [out; SETTINGS_FILE] s s'
  /\ no_file_lost s s'.
Proof.
  intros Hne H2 (Hsame & Hkeep). split; [|split].
  - rewrite Hsame, H2 by (intros Hin; apply list_elem_of_singleton in Hin; auto).
    apply lookup_insert_eq.
  - intros path Hp. apply not_elem_of_cons in Hp as [Hp1 Hp2].
    rewrite Hsame, H2 by exact Hp2. apply lookup_insert_ne. congruence.
  - intros path Hp. apply Hkeep. rewrite H2. apply insert_keeps_files, Hp.
Qed.

(** What saving an image leaves behind, whatever the tracking of its cost
    does afterwards. *)
Lemma save_image_saves response dir vp su w cost tokens img s :
  write_error w = None ->
  let s' := save_image response dir vp su w cost tokens img s in
  _last_generated_image_path s' = Some (output_path_of dir vp w)
  /\ (fs s' !! output_path_of dir vp w = Some img
      /\ same_files_but [output_path_of dir vp w; SETTINGS_FILE] s s'
      /\ no_file_lost s s')
  /\ Prompt_history s' = Prompt_history s
  /\ api_calls s' = api_calls s
  /\ (vp = false -> _captured_viewport_bytes s' = _captured_viewport_bytes s).
Proof.
  intros Hw. unfold save_image. rewrite Hw.
  set (s1 := set_show_generated_btn_Enabled true
               (set_last_generated_image_path (Some (output_path_of dir vp w))
                  (set_fs (<[output_path_of dir vp w := img]> (fs s)) s))).
  set (s2 := if vp then _ else _).
  assert (H2 : _last_generated_image_path s2 = Some (output_path_of dir vp w)
               /\ fs s2 = <[output_path_of dir vp w := img]> (fs s)
               /\ Prompt_history s2 = Prompt_history s
               /\ api_calls s2 = api_calls s
               /\ (vp = false -> _captured_viewport_bytes s2 = _captured_viewport_bytes s)).
  { subst s2 s1. destruct vp; [|attrs; repeat split].
    destruct (bitmap_ok w); [attrs; repeat split; discriminate|].
    attrs. rewrite lookup_insert_eq.
    destruct (reload_ok w); attrs; repeat split; discriminate. }
  clearbody s2. clear s1.
  destruct H2 as (Hl & Hf & Hh & Ha & Hc).
  assert (Ht : forall t,
             let s' := _track_cumulative_usage t cost su w s2 in
             _last_generated_image_path s' = Some (output_path_of dir vp w)
             /\ (fs s' !! output_path_of dir vp w = Some img
                 /\ same_files_but [output_path_of dir vp w; SETTINGS_FILE] s s'
                 /\ no_file_lost s s')
             /\ Prompt_history s' = Prompt_history s
             /\ api_calls s' = api_calls s
             /\ (vp = false -> _captured_viewport_bytes s' = _captured_viewport_bytes s)).
  { intros t.
    destruct (track_usage_frame t cost su w s2) as (Ha' & Hh' & Hf' & Hl' & Hc' & _).
    cbv zeta. split; [congruence|].
    split; [exact (files_after_image _ _ _ _ _ (output_path_not_settings dir vp w) Hf Hf')|].
    repeat split; try congruence. intros E. rewrite Hc'. auto. }
  destruct (usage_metadata response); [|apply Ht].
  destruct tokens as [t|]; [destruct (0 <? t); apply Ht|].
  unfold process_failed.
  pose proof (files_after_image _ _ s s2
                (_append_chat_log
                   (Txt ("Failed to process response: "
                         ++ "'>' not supported between instances of 'NoneType' and 'int'"))
                   System s2)
                (output_path_not_settings dir vp w) Hf
                (conj (same_files_same _ _ _ eq_refl) (no_file_lost_same _ _ eq_refl)))
    as Hfiles.
  attrs. repeat split; first [assumption | apply Hfiles].
Qed.


Lemma save_image_frame response dir vp su w cost tokens img s :
  let s' := save_image response dir vp su w cost tokens img s in
  api_calls s' = api_calls s /\ Prompt_history s' = Prompt_history s.
Proof.
  unfold save_image, process_failed.
  destruct (write_error w); [attrs; split; reflexivity|].
  set (s2 := if vp then _ else _).
  assert (H2 : api_calls s2 = api_calls s /\ Prompt_history s2 = Prompt_history s).
  { subst s2. case_matches; attrs; split; reflexivity. }
  clearbody s2. destruct H2 as (Ha & Hh).
  assert (Ht : forall t,
             let s' := _track_cumulative_usage t cost su w s2 in
             api_calls s' = api_calls s /\ Prompt_history s' = Prompt_history s).
  { intros t. destruct (track_usage_frame t cost su w s2) as (Ha' & Hh' & _).
    cbv zeta. split; congruence. }
  case_matches; try apply Ht. attrs. split; assumption.
Qed.

(** Whatever the response, the parser sends nothing and only ever extends the
    history, by the reply at most. *)
Lemma process_response_frame response dir vp su w s :
  let s' := _process_response response dir vp su w s in
  api_calls s' = api_calls s
  /\ (Prompt_history s' = Prompt_history s
      \/ Prompt_history s' = (Prompt_history s ++ reply_turn response)%list).
Proof.
  unfold _process_response, process_failed.
  destruct (usage_phase response su s) as [r s1] eqn:Hus.
  destruct (usage_phase_frame _ _ _ _ _ Hus) as (Ha & Hh & _).
  destruct r as [[cost tokens]|e]; [|attrs; split; [|left]; assumption].
  destruct (walk_candidates (candidates_of response) initial_walk) as [wk|e];
    [|attrs; split; [|left]; assumption].
  set (s2 := if opt_truthy str_truthy (analysis_text wk) then _ else _).
  assert (Hs2 : api_calls s2 = api_calls s /\ Prompt_history s2 = Prompt_history s).
  { subst s2. case_matches; attrs; split; assumption. }
  clearbody s2. destruct Hs2 as (Ha2 & Hh2).
  destruct (store_reply_frame response s2) as (Ha3 & _).
  pose proof (store_reply_history response s2) as Hh3.
  rewrite Hh2 in Hh3. rewrite Ha2 in Ha3.
  destruct (if opt_truthy bytes_truthy (img_bytes wk) then _ else _) as [[[|b img]|]|e];
    try (attrs; split; [|right]; assumption).
  destruct (save_image_frame response dir vp su w cost tokens (b :: img)
              (store_reply response s2)) as (Ha4 & Hh4).
  split; [|right]; congruence.
Qed.

Lemma process_response_prefix response dir vp su w s :
  Prompt_history s `prefix_of` Prompt_history (_process_response response dir vp su w s).
Proof.
  destruct (process_response_frame response dir vp su w s) as (_ & [H|H]);
    rewrite H; [reflexivity|apply prefix_app_r; reflexivity].
Qed.

(** ** Generate up to the API call *)

Lemma add_mood_board_app files previews ps :
  add_mood_board files previews ps = (ps ++ mood_board_parts files previews)%list.
Proof.
  revert ps. induction previews as [|preview previews IH]; intros ps.
  - cbn. rewrite app_nil_r. reflexivity.
  - cbn [add_mood_board]. unfold mood_board_parts. cbn [omap list_omap].
    fold (mood_board_parts files previews).
    destruct preview as [file_path|]; [|apply IH].
    destruct (str_truthy file_path) eqn:Et.
    + destruct (read_file_as_part files file_path); [|apply IH].
      rewrite IH, <- app_assoc. reflexivity.
    + unfold read_file_as_part. rewrite Et. apply IH.
Qed.

Lemma strip_empty : strip "" = "".
Proof. reflexivity. Qed.

(** The prompt that Generate reads is the stripped text of the prompt box,
    and nothing while the placeholder is shown. *)
Lemma user_prompt_typed s : user_prompt_of s = typed_prompt s.
Proof.
  unfold user_prompt_of, typed_prompt.
  destruct (_prompt_placeholder_active s); [rewrite andb_false_r; reflexivity|].
  rewrite andb_true_r.
  destruct (prompt_tb_Text s); [rewrite strip_empty|]; reflexivity.
Qed.

(** The form at the moment [on_generate] receives the answer of the API: the
    request turn has joined the history, the whole history has been sent, the
    reference and the captured flag are untouched, and the files are those
    that the saving of the settings left. *)
Lemma generate_reaches_api w s reference :
  captured_reference s = Some reference ->
  reaches_api w s ->
  exists s0,
    Prompt_history s0
    = (Prompt_history s ++ [Some (request_turn (at_request w s) reference)])%list
    /\ api_calls s0 = (api_calls s ++ [Prompt_history s0])%list
    /\ _captured_viewport_bytes s0 = _captured_viewport_bytes s
    /\ _viewport_captured s0 = _viewport_captured s
    /\ _last_generated_image_path s0 = _last_generated_image_path s
    /\ fs s0 = fs (at_request w s)
    /\ on_generate w s
       = match api_reply w with
         | Raise e => api_error e s0
         | Return response =>
             _stop_timer
               (set_iterate_btn_Enabled true
                  (_process_response response (output_folder_tb s) false false w s0))
         end.
Proof.
  intros Hr (Hk & Hd & Hi & Hc).
  unfold on_generate. rewrite Hr.
  unfold api_key_of in *. attrs. rewrite Hk.
  cbn [negb]. rewrite Hd, Hi, Hc.
  unfold request_turn, instruction_text, default_phrase, user_turn, at_request.
  rewrite <- !user_prompt_typed.
  unfold _save_current_settings, user_prompt_of. attrs. fold (user_prompt_of s).
  rewrite !add_mood_board_app.
  destruct (0 <? length (Prompt_history s))%nat eqn:El; attrs;
    match goal with
    | |- context [_process_response _ _ _ _ _ ?x] => exists x
    end; attrs.
  - repeat split; try reflexivity.
    destruct (str_truthy (user_prompt_of s)); reflexivity.
  - apply Nat.ltb_ge in El.
    assert (Prompt_history s = []) as E
        by (destruct (Prompt_history s); [reflexivity|cbn in El; lia]).
    rewrite E. repeat split; try reflexivity.
    destruct (str_truthy (user_prompt_of s)); reflexivity.
Qed.


(** ** Capture up to the API call *)

Lemma update_prompt_state_frame s :
  let s' := _update_prompt_state s in
  api_calls s' = api_calls s
  /\ Prompt_history s' = Prompt_history s
  /\ fs s' = fs s
  /\ output_folder_tb s' = output_folder_tb s
  /\ api_key_tb s' = api_key_tb s
  /\ _captured_viewport_bytes s' = _captured_viewport_bytes s
  /\ _viewport_captured s' = _viewport_captured s
  /\ _last_generated_image_path s' = _last_generated_image_path s
  /\ chat_log s' = chat_log s
  /\ ref_previews s' = ref_previews s.
Proof.
  unfold _update_prompt_state. case_matches; attrs; repeat split; assumption.
Qed.

(** Replaces the form that [_update_prompt_state] returns by a variable that
    is only known through [update_prompt_state_frame]. *)
Ltac prompt_state_frame :=
  match goal with
  | |- context [_update_prompt_state ?x] =>
      let Ha := fresh "Hcalls" in
      let Hh := fresh "Hhistory" in
      let s1 := fresh "s1" in
      destruct (update_prompt_state_frame x) as (Ha & Hh & _);
      set (s1 := _update_prompt_state x) in Ha, Hh |- *; clearbody s1
  end.

(** The form at the moment [_execute_capture_viewport] receives the answer of
    the API: the history is the capture turn alone, and that turn alone has
    been sent. *)
Lemma capture_reaches_api w s png cam :
  reaches_api w s ->
  view w = Return (png, cam) ->
  exists s0,
    Prompt_history s0 = [Some (capture_turn png cam)]
    /\ api_calls s0 = (api_calls s ++ [[Some (capture_turn png cam)]])%list
    /\ fs s0 = fs s
    /\ _captured_viewport_bytes s0 = Some png
    /\ _viewport_captured s0 = true
    /\ _execute_capture_viewport w s
       = match api_reply w with
         | Raise e => capture_failed e s0
         | Return response =>
             _stop_timer
               (set_iterate_btn_Enabled true
                  (set_generate_btn_Enabled true
                     (_process_response response (output_folder_tb s) true false w s0)))
         end.
Proof.
  intros (Hk & Hd & Hi & Hc) Hv.
  unfold _execute_capture_viewport. unfold api_key_of in *. attrs.
  rewrite Hk. cbn [negb]. rewrite Hd, Hv, Hi, Hc.
  set (s1 := _update_prompt_state _).
  destruct (update_prompt_state_frame
              (_append_chat_log (Txt (camera_log_line cam)) System
                 (set_viewport_captured true
                    (set_camera_info (Some cam)
                       (set_captured_viewport_bytes (Some png)
                          (_start_timer
                             (set_Prompt_history [] (set_first_capture false s))))))))
    as (Ha & Hh & Hf & Ho & _ & Hb & Hvc & _).
  fold s1 in Ha, Hh, Hf, Ho, Hb, Hvc. attrs. rewrite Ho. clearbody s1.
  match goal with
  | |- context [_process_response _ _ _ _ _ ?x] => exists x
  end; attrs.
  rewrite Ha, Hf. repeat split; assumption.
Qed.

(** A capture starts from an empty history whatever the history was. *)
Lemma capture_purges w s :
  _execute_capture_viewport w s = _execute_capture_viewport w (set_Prompt_history [] s).
Proof. reflexivity. Qed.


(** ** Response parsing policy *)

(** When the usage metadata lacks a token count, or holds one that cannot
    be divided, the parser fails before it looks at the parts. *)
Lemma usage_phase_fails response show s :
  usage_ok response = false ->
  exists e s1, usage_phase response show s = (Raise e, s1).
Proof.
  unfold usage_ok, usage_phase, _calculate_generation_cost. intros H.
  destruct (usage_metadata response) as [u|]; [|discriminate].
  destruct (prompt_token_count u) as [i|]; [|destruct (candidates_token_count u); eauto].
  destruct (candidates_token_count u) as [o|];
    [|destruct (truediv i 1000000); eauto].
  destruct (truediv i 1000000); [|eauto].
  destruct (truediv o 1000000); [discriminate|eauto].
Qed.

Lemma process_response_usage_fails response dir vp su w s :
  usage_ok response = false ->
  let s' := _process_response response dir vp su w s in
  (exists e, last (chat_log s') = Some (System, Txt ("Failed to process response: " ++ e)))
  /\ _last_generated_image_path s' = _last_generated_image_path s
  /\ fs s' = fs s
  /\ Prompt_history s' = Prompt_history s
  /\ _captured_viewport_bytes s' = _captured_viewport_bytes s
  /\ session_cost s' = session_cost s.
Proof.
  intros Hu. destruct (usage_phase_fails response su s Hu) as (e & s1 & Hus).
  destruct (usage_phase_frame _ _ _ _ _ Hus) as (_ & Hh & Hf & Hl & Hb & Hc).
  cbv zeta. unfold _process_response, process_failed. rewrite Hus. attrs.
  rewrite last_snoc. split; [exists e; reflexivity|]. repeat split; assumption.
Qed.

(** C1 (amended). On a response whose contents carry a list of parts: when
    the usage metadata lacks a token count (or holds one that is too large to
    be divided), the parser fails before it looks at the parts, logs the
    failure and saves nothing.  Otherwise the image it settles on is
    [selected_image]: the LAST inline image part over the parts of ALL
    candidates; when no part carries an inline image, the first usable
    [data:image] URI found in a text part, candidates in order.  That image
    is written to the output file, whose path is remembered; when the writing
    fails, the failure is logged and the remembered path is what it was.
    When there is no image, the message "Error: No image returned by the
    model." ends the chat log and nothing is saved. *)
Theorem response_parsing_policy response dir vp su w s :
  parts_present (candidates_of response) = true ->
  let s' := _process_response response dir vp su w s in
  if usage_ok response then
    match selected_image response with
    | Some img =>
        match write_error w with
        | None =>
            _last_generated_image_path s' = Some (output_path_of dir vp w)
            /\ fs s' !! output_path_of dir vp w = Some img
        | Some e =>
            last (chat_log s') = Some (System, Txt ("Failed to process response: " ++ e))
            /\ _last_generated_image_path s' = _last_generated_image_path s
        end
    | None =>
        last (chat_log s') = Some (System, no_image_error)
        /\ _last_generated_image_path s' = _last_generated_image_path s
        /\ fs s' = fs s
    end
  else
    (exists e,
       last (chat_log s') = Some (System, Txt ("Failed to process response: " ++ e)))
    /\ _last_generated_image_path s' = _last_generated_image_path s
    /\ fs s' = fs s.
Proof.
  intros Hp. cbv zeta. destruct (usage_ok response) eqn:Hu.
  2: { destruct (process_response_usage_fails response dir vp su w s Hu)
         as (He & Hl & Hf & _).
       repeat split; assumption. }
  destruct (process_response_outcome response dir vp su w s Hp Hu)
    as (s3 & cost & tokens & _ & Hf & Hl & _ & _ & _ & _ & Heq).
  rewrite Heq. destruct (selected_image response) as [img|].
  - destruct (write_error w) as [e|] eqn:Hw.
    + unfold save_image, process_failed. rewrite Hw. attrs. rewrite last_snoc.
      split; [reflexivity|exact Hl].
    + destruct (save_image_saves response dir vp su w cost tokens img s3 Hw)
        as (Hl' & (Hf' & _) & _).
      split; [exact Hl'|exact Hf'].
  - attrs. rewrite last_snoc. repeat split; assumption.
Qed.

(** C9. When the parser finds no usable image, the form it reports the error
    on already has the reply in its history: the history after the call is the
    history before it followed by the content of the first candidate, and the
    error message is the last line of the chat log. *)
Theorem no_image_keeps_reply response dir vp su w s candidate rest :
  parts_present (candidates_of response) = true ->
  usage_ok response = true ->
  selected_image response = None ->
  candidates response = Some (candidate :: rest) ->
  exists s3,
    Prompt_history s3 = (Prompt_history s ++ [content candidate])%list
    /\ _process_response response dir vp su w s
       = _append_chat_log no_image_error System s3
    /\ Prompt_history (_process_response response dir vp su w s)
       = (Prompt_history s ++ [content candidate])%list
    /\ last (chat_log (_process_response response dir vp su w s))
       = Some (System, no_image_error).
Proof.
  intros Hp Hu Hn Hc.
  destruct (process_response_outcome response dir vp su w s Hp Hu)
    as (s3 & cost & tokens & Hh & _ & _ & _ & _ & _ & _ & Heq).
  rewrite Hn in Heq. unfold reply_turn in Hh. rewrite Hc in Hh.
  exists s3. rewrite Heq. attrs. rewrite last_snoc. repeat split; assumption.
Qed.


(** ** Cost accounting *)

Lemma million : exact_float 1000000 = 1000000.0%float.
Proof. vm_compute. reflexivity. Qed.

(** On integers of at most 53 bits the division by a million is the division
    of the doubles. *)
Lemma truediv_small a :
  Z.abs a < 2 ^ 53 -> truediv a 1000000 = Return (exact_float a / 1000000.0)%float.
Proof.
  intros H. unfold truediv, small. apply Z.ltb_lt in H. rewrite H, <- million.
  reflexivity.
Qed.

Lemma cost_of_small i o :
  Z.abs i < 2 ^ 53 -> Z.abs o < 2 ^ 53 ->
  exists cost_info,
    _calculate_generation_cost i o None = Return cost_info
    /\ total_cost cost_info = spec_cost (_get_model_pricing None) i o.
Proof.
  intros Hi Ho. unfold _calculate_generation_cost.
  rewrite (truediv_small i Hi), (truediv_small o Ho).
  eexists. split; reflexivity.
Qed.

Lemma active_pricing : model_pricing !! model = Some (_get_model_pricing None).
Proof. vm_compute. reflexivity. Qed.

(** The cost that a saved image adds to the session, when the tracking is
    reached: without usage metadata, or with a total token count. *)
Lemma save_image_tracks response dir vp su w cost tokens img s :
  write_error w = None ->
  usage_metadata response = None \/ (exists t, tokens = Some t) ->
  session_cost (save_image response dir vp su w cost tokens img s)
  = (session_cost s + cost)%float.
Proof.
  intros Hw Hu. unfold save_image. rewrite Hw.
  set (s2 := if vp then _ else _).
  assert (H2 : session_cost s2 = session_cost s).
  { subst s2. case_matches; attrs; reflexivity. }
  clearbody s2.
  assert (Ht : forall t, session_cost (_track_cumulative_usage t cost su w s2)
                         = (session_cost s + cost)%float).
  { intros t. destruct (track_usage_frame t cost su w s2) as (_ & _ & _ & _ & _ & H).
    rewrite H, H2. reflexivity. }
  destruct (usage_metadata response) as [u|]; [|apply Ht].
  destruct Hu as [Hu|(t & ->)]; [discriminate Hu|].
  destruct (0 <? t); apply Ht.
Qed.

(** C8. (1) For token counts of at most 53 bits, the cost computed is the
    formula of the specification, evaluated on doubles, on the price table of
    the active model.  (2) With no tokens at all it is exactly the fixed
    price per image.  (3) A call that saves an image and has usage metadata
    with such counts adds that cost to the session cost.  (4) Without usage
    metadata the cost is the fixed price per image alone, and that is what
    the call adds to the session cost. *)
Theorem cost_accounting :
  (forall i o,
      Z.abs i < 2 ^ 53 -> Z.abs o < 2 ^ 53 ->
      model_pricing !! model = Some (_get_model_pricing None)
      /\ exists cost_info,
           _calculate_generation_cost i o None = Return cost_info
           /\ total_cost cost_info = spec_cost (_get_model_pricing None) i o)
  /\ (exists cost_info,
        _calculate_generation_cost 0 0 None = Return cost_info
        /\ total_cost cost_info = cost_per_image (_get_model_pricing None))
  /\ (forall response dir vp su w s u i o t img,
         usage_metadata response = Some u ->
         prompt_token_count u = Some i ->
         candidates_token_count u = Some o ->
         total_token_count u = Some t ->
         Z.abs i < 2 ^ 53 -> Z.abs o < 2 ^ 53 ->
         parts_present (candidates_of response) = true ->
         selected_image response = Some img ->
         write_error w = None ->
         session_cost (_process_response response dir vp su w s)
         = (session_cost s + spec_cost (_get_model_pricing None) i o)%float)
  /\ (forall response dir vp su w s img,
         usage_metadata response = None ->
         parts_present (candidates_of response) = true ->
         selected_image response = Some img ->
         write_error w = None ->
         fst (usage_phase response su s)
         = Return (cost_per_image (_get_model_pricing None),
                   Some (tokens_per_image (_get_model_pricing None)))
         /\ session_cost (_process_response response dir vp su w s)
            = (session_cost s + cost_per_image (_get_model_pricing None))%float).
Proof.
  split; [intros i o Hi Ho; split; [exact active_pricing|apply cost_of_small; assumption]|].
  split; [eexists; split; vm_compute; reflexivity|].
  split.
  - intros response dir vp su w s u i o t img Hu Hi Ho Ht Hri Hro Hp Hs Hw.
    assert (Hok : usage_ok response = true).
    { unfold usage_ok. rewrite Hu, Hi, Ho.
      rewrite (truediv_small i Hri), (truediv_small o Hro). reflexivity. }
    destruct (process_response_outcome response dir vp su w s Hp Hok)
      as (s3 & cost & tokens & _ & _ & _ & _ & _ & Hc & Hup & Heq).
    rewrite Heq, Hs.
    destruct (cost_of_small i o Hri Hro) as (cost_info & Hcost & Htotal).
    unfold usage_phase in Hup. rewrite Hu, Hi, Ho, Ht, Hcost in Hup.
    cbn [fst] in Hup. injection Hup as <- <-.
    rewrite save_image_tracks by (eauto).
    rewrite Hc, Htotal. reflexivity.
  - intros response dir vp su w s img Hu Hp Hs Hw.
    assert (Hok : usage_ok response = true)
      by (unfold usage_ok; rewrite Hu; reflexivity).
    destruct (process_response_outcome response dir vp su w s Hp Hok)
      as (s3 & cost & tokens & _ & _ & _ & _ & _ & Hc & Hup & Heq).
    rewrite Heq, Hs.
    unfold usage_phase in Hup |- *. rewrite Hu in Hup |- *.
    cbn [fst] in Hup |- *. split; [reflexivity|]. injection Hup as <- <-.
    rewrite save_image_tracks by (auto). rewrite Hc. reflexivity.
Qed.


(** ** Generate: failure of the API call, and the order of the parts *)

(** C2 (amended). When the API call of a Generate raises, the reference
    image, the captured flag and the last generated path are what they were,
    the error is logged as "API error: " followed by its message, and the
    timer is stopped.  Two things have changed.  The history has gained the
    request turn of this invocation.  And the settings were saved before the
    call: the settings file holds what that saving wrote, or is untouched
    when it could not be opened; every other file is what it was, and no
    file has gone. *)
Theorem generate_api_failure w s reference e :
  captured_reference s = Some reference ->
  reaches_api w s ->
  api_reply w = Raise e ->
  let s' := on_generate w s in
  _captured_viewport_bytes s' = _captured_viewport_bytes s
  /\ _viewport_captured s' = _viewport_captured s
  /\ _last_generated_image_path s' = _last_generated_image_path s
  /\ fs s' = settings_file_after (settings_saved w) (fs s)
  /\ same_files_but [SETTINGS_FILE] s s'
  /\ no_file_lost s s'
  /\ Prompt_history s'
     = (Prompt_history s ++ [Some (request_turn (at_request w s) reference)])%list
  /\ last (chat_log s') = Some (System, Txt ("API error: " ++ e))
  /\ timer_running s' = false.
Proof.
  intros Hr Hreach He.
  destruct (generate_reaches_api w s reference Hr Hreach)
    as (s0 & Hh & _ & Hb & Hv & Hl & Hf & Heq).
  cbv zeta. rewrite Heq, He. unfold api_error. attrs.
  rewrite last_snoc. unfold same_files_but, no_file_lost. attrs. rewrite Hf.
  repeat split; try assumption; files.
Qed.

Lemma capture_api_calls w s :
  api_calls (_execute_capture_viewport w s)
  = match capture_request w s with
    | Some turn => (api_calls s ++ [[Some turn]])%list
    | None => api_calls s
    end.
Proof.
  unfold capture_request.
  destruct (str_truthy (api_key_of w s)) eqn:Hk.
  2: { unfold _execute_capture_viewport. unfold api_key_of in *. attrs.
       rewrite Hk. reflexivity. }
  destruct (if dir_exists w then None else mkdir_error w) eqn:Hd.
  { unfold _execute_capture_viewport. unfold api_key_of in *. attrs.
    rewrite Hk, Hd. reflexivity. }
  destruct (view w) as [[png cam]|e] eqn:Hv.
  2: { unfold _execute_capture_viewport. unfold api_key_of in *. attrs.
       rewrite Hk, Hd, Hv. reflexivity. }
  destruct (import_error w) eqn:Hi.
  { unfold _execute_capture_viewport. unfold api_key_of in *. attrs.
    rewrite Hk, Hd, Hv, Hi. attrs.
    prompt_state_frame. attrs. assumption. }
  destruct (client_error w) eqn:Hc.
  { unfold _execute_capture_viewport. unfold api_key_of in *. attrs.
    rewrite Hk, Hd, Hv, Hi, Hc. unfold capture_failed. attrs.
    prompt_state_frame. attrs. assumption. }
  destruct (capture_reaches_api w s png cam (conj Hk (conj Hd (conj Hi Hc))) Hv)
    as (s0 & _ & Ha & _ & _ & _ & Heq).
  rewrite Heq. destruct (api_reply w) as [response|e].
  - attrs.
    destruct (process_response_frame response (output_folder_tb s) true false w s0)
      as (Hp & _).
    rewrite Hp. exact Ha.
  - unfold capture_failed. attrs. exact Ha.
Qed.

(** C7. The request turn that Generate sends holds, in this order, the
    reference image, the instruction text and then the mood-board images,
    one for each preview whose file can be read when the request is built
    (after the settings are saved); it is sent after the turns already in the
    history.  The instruction text is the strict instruction followed by the
    prompt, which is the stripped text of the prompt box unless the
    placeholder is shown, or, when that prompt is empty, by a default phrase:
    "Continue with this image" when the history has turns, "Create an image
    based on this reference." when it has none.  The request of Capture is
    the capture turn alone, a text part and the captured image, and does not
    depend on the mood board. *)
Theorem request_part_order :
  (forall w s reference,
      captured_reference s = Some reference ->
      reaches_api w s ->
      let prompt :=
        if _prompt_placeholder_active s then "" else strip (prompt_tb_Text s) in
      let phrase :=
        if (0 <? length (Prompt_history s))%nat
        then "Continue with this image"
        else "Create an image based on this reference." in
      api_calls (on_generate w s)
      = (api_calls s
         ++ [Prompt_history s
             ++ [Some (user_turn
                         (Part_from_bytes reference "image/png"
                          :: Part_from_text
                               ("Follow the primary reference image strictly. Do not change the camera angle, form, or composition. "
                                ++ (if str_truthy prompt then prompt else phrase))
                          :: mood_board_parts
                               (settings_file_after (settings_saved w) (fs s))
                               (ref_previews s)))]])%list)
  /\ (forall w s,
         api_calls (_execute_capture_viewport w s)
         = match capture_request w s with
           | Some turn => (api_calls s ++ [[Some turn]])%list
           | None => api_calls s
           end)
  /\ (forall w s png_bytes camera_info,
         capture_request w s = Some (capture_turn png_bytes camera_info) ->
         parts (capture_turn png_bytes camera_info)
         = Some [Part_from_text (structured_prompt camera_info);
                 Part_from_bytes png_bytes "image/png"])
  /\ (forall w s previews,
         api_calls (_execute_capture_viewport w (set_ref_previews previews s))
         = api_calls (_execute_capture_viewport w s)).
Proof.
  split; [|split; [|split]].
  - intros w s reference Hr Hreach. cbv zeta.
    destruct (generate_reaches_api w s reference Hr Hreach)
      as (s0 & Hh & Ha & _ & _ & _ & _ & Heq).
    rewrite Heq. rewrite Hh in Ha.
    unfold request_turn, instruction_text, default_phrase, at_request,
      strict_instruction, typed_prompt in Ha.
    attrs.
    destruct (api_reply w) as [response|e].
    + attrs.
      destruct (process_response_frame response (output_folder_tb s) false false w s0)
        as (Hp & _).
      rewrite Hp. exact Ha.
    + unfold api_error. attrs. exact Ha.
  - apply capture_api_calls.
  - reflexivity.
  - intros w s previews. rewrite !capture_api_calls. reflexivity.
Qed.


(** ** The life cycle of the history *)

Lemma capture_history w s :
  Prompt_history (_execute_capture_viewport w s) = []
  \/ exists png cam,
       view w = Return (png, cam)
       /\ (Prompt_history (_execute_capture_viewport w s) = [Some (capture_turn png cam)]
           \/ exists response,
                api_reply w = Return response
                /\ Prompt_history (_execute_capture_viewport w s)
                   = (Some (capture_turn png cam) :: reply_turn response)).
Proof.
  unfold _execute_capture_viewport, capture_failed. unfold api_key_of. attrs.
  destruct (negb _); [left; reflexivity|].
  destruct (if dir_exists w then None else mkdir_error w); [left; reflexivity|].
  destruct (view w) as [[png cam]|e]; [|left; reflexivity].
  destruct (import_error w).
  { left. prompt_state_frame. attrs. assumption. }
  right. exists png, cam. split; [reflexivity|].
  destruct (client_error w); [left; reflexivity|].
  destruct (api_reply w) as [response|e]; [|left; reflexivity].
  attrs.
  match goal with
  | |- context [_process_response ?r ?d ?v ?u ?w ?x] =>
      destruct (process_response_frame r d v u w x) as (_ & [H|H]); rewrite H
  end; attrs.
  - left. reflexivity.
  - right. exists response. split; reflexivity.
Qed.

Lemma generate_history_prefix w s :
  Prompt_history s `prefix_of` Prompt_history (on_generate w s).
Proof.
  destruct (captured_reference s) as [reference|] eqn:Hr.
  2: { unfold on_generate. rewrite Hr. reflexivity. }
  destruct (str_truthy (api_key_of w s)) eqn:Hk.
  2: { unfold on_generate. rewrite Hr, Hk. reflexivity. }
  destruct (if dir_exists w then None else mkdir_error w) eqn:Hd.
  { unfold on_generate. rewrite Hr, Hk, Hd. reflexivity. }
  destruct (import_error w) eqn:Hi.
  { unfold on_generate. rewrite Hr, Hk, Hd, Hi. reflexivity. }
  destruct (client_error w) eqn:Hc.
  { unfold on_generate. rewrite Hr, Hk, Hd, Hi, Hc. reflexivity. }
  destruct (generate_reaches_api w s reference Hr (conj Hk (conj Hd (conj Hi Hc))))
    as (s0 & Hh & _ & _ & _ & _ & _ & Heq).
  rewrite Heq. destruct (api_reply w) as [response|e].
  - attrs. etransitivity; [|apply process_response_prefix].
    rewrite Hh. apply prefix_app_r. reflexivity.
  - unfold api_error. attrs. rewrite Hh. apply prefix_app_r. reflexivity.
Qed.

Lemma iterate_history s : Prompt_history (on_iterate s) = Prompt_history s.
Proof.
  unfold on_iterate. case_matches; attrs; reflexivity.
Qed.

Lemma step_history_prefix s a :
  is_capture a = false -> Prompt_history s `prefix_of` Prompt_history (step s a).
Proof.
  destruct a as [w|w|]; cbn [is_capture step]; intros H.
  - discriminate H.
  - apply generate_history_prefix.
  - rewrite iterate_history. reflexivity.
Qed.

Lemma run_history_prefix actions s i a s1 s2 :
  actions !! i = Some a ->
  (s :: run s actions) !! i = Some s1 ->
  run s actions !! i = Some s2 ->
  is_capture a = false ->
  Prompt_history s1 `prefix_of` Prompt_history s2.
Proof.
  revert s i. induction actions as [|a0 actions IH]; intros s i Ha H1 H2 Hc.
  - destruct i; discriminate Ha.
  - destruct i as [|i]; cbn in Ha, H1, H2.
    + injection Ha as ->. injection H1 as <-. injection H2 as <-.
      apply step_history_prefix, Hc.
    + apply (IH (step s a0) i Ha H1 H2 Hc).
Qed.

(** C3. A capture empties the history before anything else: its outcome is
    the one it has on an empty history, and the history it leaves holds no
    earlier turn (it is empty, or the capture turn, or the capture turn and
    the reply).  Generate only appends to the history and Iterate leaves it as
    it is.  So along any sequence of actions the length of the history never
    decreases across a Generate or an Iterate, and a step that shortens the
    history is a Capture. *)
Theorem history_reset_only_by_capture :
  (forall w s,
      _execute_capture_viewport w s
      = _execute_capture_viewport w (set_Prompt_history [] s))
  /\ (forall w s,
         Prompt_history (_execute_capture_viewport w s) = []
         \/ exists png cam,
              view w = Return (png, cam)
              /\ (Prompt_history (_execute_capture_viewport w s)
                  = [Some (capture_turn png cam)]
                  \/ exists response,
                       api_reply w = Return response
                       /\ Prompt_history (_execute_capture_viewport w s)
                          = Some (capture_turn png cam) :: reply_turn response))
  /\ (forall w s, Prompt_history s `prefix_of` Prompt_history (on_generate w s))
  /\ (forall s, Prompt_history (on_iterate s) = Prompt_history s)
  /\ (forall actions s i a s1 s2,
         actions !! i = Some a ->
         (s :: run s actions) !! i = Some s1 ->
         run s actions !! i = Some s2 ->
         (is_capture a = false ->
          (length (Prompt_history s1) <= length (Prompt_history s2))%nat)
         /\ ((length (Prompt_history s2) < length (Prompt_history s1))%nat ->
             is_capture a = true)).
Proof.
  split; [intros; apply capture_purges|].
  split; [apply capture_history|].
  split; [apply generate_history_prefix|].
  split; [apply iterate_history|].
  intros actions s i a s1 s2 Ha H1 H2.
  assert (Hp : is_capture a = false ->
               (length (Prompt_history s1) <= length (Prompt_history s2))%nat).
  { intros Hc. apply prefix_length.
    apply (run_history_prefix actions s i a s1 s2 Ha H1 H2 Hc). }
  split; [exact Hp|].
  intros Hlt. destruct (is_capture a); [reflexivity|].
  specialize (Hp eq_refl). lia.
Qed.


(** ** Capture followed by Iterate *)

(** C10. A capture whose reply carries an image stores that image as the
    last generated result and enables the Iterate button; an Iterate that
    follows it directly passes the check for a generated result and makes the
    PNG bytes of the reply of the capture the reference image, without any
    message in the chat log and without any request to the API. *)
Theorem capture_permits_iterate w s png cam response img png' :
  reaches_api w s ->
  view w = Return (png, cam) ->
  api_reply w = Return response ->
  parts_present (candidates_of response) = true ->
  usage_ok response = true ->
  selected_image response = Some img ->
  write_error w = None ->
  load_png img = Return png' ->
  let s1 := _execute_capture_viewport w s in
  _last_generated_image_path s1 = Some (output_path_of (output_folder_tb s) true w)
  /\ last_generated_file s1 = Some img
  /\ iterate_btn_Enabled s1 = true
  /\ _captured_viewport_bytes (on_iterate s1) = Some png'
  /\ Prompt_history (on_iterate s1) = Prompt_history s1
  /\ chat_log (on_iterate s1) = chat_log s1
  /\ api_calls (on_iterate s1) = api_calls s1.
Proof.
  intros Hreach Hv Hr Hp Hu Hs Hw Hl.
  destruct (capture_reaches_api w s png cam Hreach Hv) as (s0 & _ & _ & _ & _ & _ & Heq).
  destruct (process_response_outcome response (output_folder_tb s) true false w s0 Hp Hu)
    as (s3 & cost & tokens & _ & _ & _ & _ & _ & _ & _ & Hproc).
  rewrite Hs in Hproc.
  destruct (save_image_saves response (output_folder_tb s) true false w cost tokens
              img s3 Hw) as (Hpath & (Hfs & _) & _).
  rewrite <- Hproc in Hpath, Hfs.
  cbv zeta. rewrite Heq, Hr.
  set (s1 := _stop_timer _).
  assert (Hp1 : _last_generated_image_path s1
                = Some (output_path_of (output_folder_tb s) true w))
    by (subst s1; attrs; exact Hpath).
  assert (Hf1 : last_generated_file s1 = Some img).
  { unfold last_generated_file. rewrite Hp1.
    rewrite output_path_truthy. subst s1. attrs. exact Hfs. }
  assert (Hb1 : iterate_btn_Enabled s1 = true) by (subst s1; reflexivity).
  clearbody s1.
  destruct (iterate_success s1 img png' Hf1 Hl) as (Hc & Hh & _ & Ha & Hlog).
  repeat split; assumption.
Qed.


(** * Further properties of the handlers *)

(** ** What the processing of a response keeps *)

Lemma same_controls_refl s : same_controls s s.
Proof. repeat split. Qed.

Lemma same_controls_trans s1 s2 s3 :
  same_controls s1 s2 -> same_controls s2 s3 -> same_controls s1 s3.
Proof.
  unfold same_controls. intros H1 H2. decompose [and] H1. decompose [and] H2.
  repeat split; etransitivity; eassumption.
Qed.

Lemma same_saved_entries_refl s : same_saved_entries s s.
Proof. repeat split. Qed.

Lemma same_saved_entries_trans s1 s2 s3 :
  same_saved_entries s1 s2 -> same_saved_entries s2 s3 -> same_saved_entries s1 s3.
Proof.
  unfold same_saved_entries. intros H1 H2. decompose [and] H1. decompose [and] H2.
  repeat split; etransitivity; eassumption.
Qed.

Lemma track_usage_keeps tokens cost show w s :
  let s' := _track_cumulative_usage tokens cost show w s in
  same_controls s s'
  /\ same_saved_entries s s'
  /\ session_tokens s' = session_tokens s + tokens
  /\ show_generated_btn_Enabled s' = show_generated_btn_Enabled s.
Proof.
  unfold _track_cumulative_usage, track_failed, same_controls, same_saved_entries.
  case_matches; attrs; rewrite ?lookup_insert_ne by done; repeat split.
Qed.


Lemma same_results_trans s1 s2 s3 :
  same_results s1 s2 -> same_results s2 s3 -> same_results s1 s3.
Proof.
  unfold same_results. intros H1 H2. decompose [and] H1. decompose [and] H2.
  repeat split; etransitivity; eassumption.
Qed.

Lemma append_chat_log_keeps message who s :
  same_controls s (_append_chat_log message who s)
  /\ same_results s (_append_chat_log message who s).
Proof. repeat split. Qed.

Lemma store_reply_keeps response s :
  same_controls s (store_reply response s) /\ same_results s (store_reply response s).
Proof.
  unfold store_reply. destruct (candidates response) as [[|c cs]|]; repeat split.
Qed.

Lemma usage_phase_keeps response show s r s' :
  usage_phase response show s = (r, s') ->
  same_controls s s' /\ same_results s s'.
Proof.
  unfold usage_phase. intros H.
  repeat match type of H with
         | context [match ?x with _ => _ end] => destruct x
         end;
    inversion H; subst; repeat split.
Qed.

Lemma save_image_keeps response dir vp su w cost tokens img s :
  let s' := save_image response dir vp su w cost tokens img s in
  same_controls s s'
  /\ same_saved_entries s s'
  /\ session_tokens s <= session_tokens s'
  /\ files_kept (output_path_of dir vp w) s s'
  /\ ((write_error w <> None /\ same_results_but_files s s')
      \/ (write_error w = None
          /\ _last_generated_image_path s' = Some (output_path_of dir vp w)
          /\ show_generated_btn_Enabled s' = true
          /\ fs s' !! output_path_of dir vp w = Some img
          /\ (_captured_viewport_bytes s' = _captured_viewport_bytes s
              \/ (vp = true /\ _captured_viewport_bytes s' = Some img)))).
Proof.
  unfold save_image, process_failed.
  destruct (write_error w) as [e|].
  { attrs. split; [repeat split|]. split; [repeat split|]. split; [lia|].
    split; [|left; split; [discriminate|repeat split]].
    destruct (write_leftover w) as [content|].
    - eapply files_kept_written. reflexivity.
    - apply files_kept_same. reflexivity. }
  set (s2 := if vp then _ else _).
  assert (H2 : same_controls s s2 /\ same_saved_entries s s2
               /\ session_tokens s2 = session_tokens s
               /\ _last_generated_image_path s2 = Some (output_path_of dir vp w)
               /\ show_generated_btn_Enabled s2 = true
               /\ fs s2 = <[output_path_of dir vp w := img]> (fs s)
               /\ (_captured_viewport_bytes s2 = _captured_viewport_bytes s
                   \/ (vp = true /\ _captured_viewport_bytes s2 = Some img))).
  { subst s2. destruct vp; [|repeat split; left; reflexivity].
    destruct (bitmap_ok w); [repeat split; right; split; reflexivity|].
    attrs. rewrite lookup_insert_eq.
    destruct (reload_ok w); repeat split; auto. }
  clearbody s2. destruct H2 as (Hc & He & Ht & Hp & Hs & Hf & Hb).
  assert (Hk : forall t, 0 <= t ->
             let s' := _track_cumulative_usage t cost su w s2 in
             same_controls s s'
             /\ same_saved_entries s s'
             /\ session_tokens s <= session_tokens s'
             /\ files_kept (output_path_of dir vp w) s s'
             /\ ((None <> @None string /\ same_results_but_files s s')
                 \/ (@None string = None
                     /\ _last_generated_image_path s' = Some (output_path_of dir vp w)
                     /\ show_generated_btn_Enabled s' = true
                     /\ fs s' !! output_path_of dir vp w = Some img
                     /\ (_captured_viewport_bytes s' = _captured_viewport_bytes s
                         \/ (vp = true /\ _captured_viewport_bytes s' = Some img))))).
  { intros t Ht0.
    destruct (track_usage_keeps t cost su w s2) as (Hc' & He' & Ht' & Hs').
    destruct (track_usage_frame t cost su w s2) as (_ & _ & Hf' & Hp' & Hb' & _).
    destruct (files_after_image _ _ _ _ _ (output_path_not_settings dir vp w) Hf Hf')
      as (Hl & Hsame & Hkeep).
    cbv zeta.
    split; [eapply same_controls_trans; eassumption|].
    split; [eapply same_saved_entries_trans; eassumption|].
    split; [lia|]. split; [split; assumption|]. right.
    rewrite Hp', Hs', Hb'. repeat split; assumption. }
  destruct (usage_metadata response); [|apply Hk; lia].
  destruct tokens as [t|].
  - destruct (0 <? t) eqn:E; apply Hk; [apply Z.ltb_lt in E|]; lia.
  - attrs. split; [exact Hc|]. split; [exact He|]. split; [lia|].
    split; [eapply files_kept_written; exact Hf|]. right.
    rewrite Hf, lookup_insert_eq. repeat split; assumption.
Qed.

(** Whatever the response, its processing leaves the controls, the flags, the
    timer and the saved entries alone, never lowers the token counter, writes
    no file but its result and the settings file, and either changes no result
    at all or saves one image, remembers its path and enables the button that
    shows it. *)
Lemma process_response_keeps response dir vp su w s :
  let s' := _process_response response dir vp su w s in
  same_controls s s'
  /\ same_saved_entries s s'
  /\ session_tokens s <= session_tokens s'
  /\ files_kept (output_path_of dir vp w) s s'
  /\ (same_results_but_files s s'
      \/ exists img,
           _last_generated_image_path s' = Some (output_path_of dir vp w)
           /\ show_generated_btn_Enabled s' = true
           /\ fs s' !! output_path_of dir vp w = Some img
           /\ (_captured_viewport_bytes s' = _captured_viewport_bytes s
               \/ (vp = true /\ _captured_viewport_bytes s' = Some img))).
Proof.
  assert (Hlog : forall s0 m who,
             same_controls s s0 /\ same_results s s0 ->
             let s' := _append_chat_log m who s0 in
             same_controls s s' /\ same_saved_entries s s'
             /\ session_tokens s <= session_tokens s'
             /\ files_kept (output_path_of dir vp w) s s'
             /\ (same_results_but_files s s'
                 \/ exists img,
                      _last_generated_image_path s' = Some (output_path_of dir vp w)
                      /\ show_generated_btn_Enabled s' = true
                      /\ fs s' !! output_path_of dir vp w = Some img
                      /\ (_captured_viewport_bytes s' = _captured_viewport_bytes s
                          \/ (vp = true /\ _captured_viewport_bytes s' = Some img)))).
  { intros s0 m who (Hc & Hr). cbv zeta.
    destruct (append_chat_log_keeps m who s0) as (Hc' & Hr').
    pose proof (same_controls_trans _ _ _ Hc Hc') as Hc2.
    pose proof (same_results_trans _ _ _ Hr Hr') as Hr2.
    destruct (same_results_files (output_path_of dir vp w) _ _ Hr2) as (Hfiles & Hbut).
    split; [exact Hc2|]. split.
    - destruct Hr2 as (_ & _ & _ & _ & _ & _ & Hset). unfold same_saved_entries.
      rewrite Hset. repeat split.
    - split; [|split; [exact Hfiles|left; exact Hbut]].
      destruct Hr2 as (_ & _ & _ & _ & Ht & _). lia. }
  unfold _process_response, process_failed.
  destruct (usage_phase response su s) as [r s1] eqn:Hus.
  pose proof (usage_phase_keeps _ _ _ _ _ Hus) as H1.
  destruct r as [[cost tokens]|e]; [|apply Hlog; exact H1].
  destruct (walk_candidates (candidates_of response) initial_walk) as [wk|e];
    [|apply Hlog; exact H1].
  set (s2 := if opt_truthy str_truthy (analysis_text wk) then _ else _).
  assert (H2 : same_controls s s2 /\ same_results s s2).
  { destruct H1 as (Hc & Hr).
    subst s2. destruct (opt_truthy str_truthy (analysis_text wk));
      match goal with
      | |- context [_append_chat_log ?m ?who s1] =>
          destruct (append_chat_log_keeps m who s1) as (Hc' & Hr')
      end;
      split; [eapply same_controls_trans|eapply same_results_trans
             |eapply same_controls_trans|eapply same_results_trans]; eassumption. }
  clearbody s2.
  assert (H3 : same_controls s (store_reply response s2)
               /\ same_results s (store_reply response s2)).
  { destruct H2 as (Hc & Hr). destruct (store_reply_keeps response s2) as (Hc' & Hr').
    split; [eapply same_controls_trans|eapply same_results_trans]; eassumption. }
  destruct (if opt_truthy bytes_truthy (img_bytes wk) then _ else _) as [[[|b img]|]|e];
    try (apply Hlog; exact H3).
  destruct H3 as (Hc & Hr).
  destruct (save_image_keeps response dir vp su w cost tokens (b :: img)
              (store_reply response s2)) as (Hc' & He' & Ht' & Hfiles' & Hcase).
  pose proof Hr as (Hp0 & Hs0 & Hf0 & Hb0 & Ht0 & Hcost0 & Hset0).
  split; [eapply same_controls_trans; eassumption|].
  split.
  { unfold same_saved_entries in *. rewrite <- Hset0. exact He'. }
  split; [lia|].
  split.
  { eapply files_kept_trans; [apply files_kept_same; exact Hf0|exact Hfiles']. }
  destruct Hcase as [(_ & Hr')|(_ & Hp' & Hs' & Hf' & Hb')].
  - left. destruct Hr' as (R1 & R2 & R3 & R4 & R5 & R6).
    repeat split; etransitivity; eassumption.
  - right. exists (b :: img). rewrite Hb0 in Hb'. rewrite Hp', Hs', Hf'.
    repeat split. exact Hb'.
Qed.


(** ** The ways through Generate and through a capture *)

(** Every way through [on_generate]: the capture check fails; the key is
    missing; an error stops it after the prompt is logged; the API call
    raises; or a response is processed. *)
Lemma generate_cases w s :
  (captured_reference s = None
   /\ on_generate w s = _append_chat_log (Txt "Please capture viewport first!") System s)
  \/ (str_truthy (api_key_of w s) = false /\ on_generate w s = s)
  \/ (exists m, on_generate w s
                = _stop_timer (_append_chat_log (Txt m) System (prompt_logged w s)))
  \/ (exists reference e,
        captured_reference s = Some reference
        /\ reaches_api w s
        /\ api_reply w = Raise e
        /\ on_generate w s = api_error e (before_reply w s reference))
  \/ (exists reference response,
        captured_reference s = Some reference
        /\ reaches_api w s
        /\ api_reply w = Return response
        /\ on_generate w s
           = _stop_timer
               (set_iterate_btn_Enabled true
                  (_process_response response (output_folder_tb s) false false w
                     (before_reply w s reference)))).
Proof.
  destruct (captured_reference s) as [reference|] eqn:Hr.
  2: { left. split; [reflexivity|]. unfold on_generate. rewrite Hr. reflexivity. }
  destruct (str_truthy (api_key_of w s)) eqn:Hk.
  2: { right; left. split; [reflexivity|]. unfold on_generate. rewrite Hr, Hk.
       reflexivity. }
  destruct (if dir_exists w then None else mkdir_error w) as [e|] eqn:Hd.
  { right; right; left. exists ("Error: Cannot create output directory: " ++ e).
    unfold on_generate. rewrite Hr, Hk, Hd. reflexivity. }
  destruct (import_error w) as [e|] eqn:Hi.
  { right; right; left. exists ("Error: Failed to import google-genai: " ++ e).
    unfold on_generate. rewrite Hr, Hk, Hd, Hi. reflexivity. }
  destruct (client_error w) as [e|] eqn:Hc.
  { right; right; left. exists ("API error: " ++ e).
    unfold on_generate. rewrite Hr, Hk, Hd, Hi, Hc. reflexivity. }
  assert (Hreach : reaches_api w s) by (repeat split; assumption).
  assert (Heq : on_generate w s
                = match api_reply w with
                  | Raise e => api_error e (before_reply w s reference)
                  | Return response =>
                      _stop_timer
                        (set_iterate_btn_Enabled true
                           (_process_response response (output_folder_tb s) false false
                              w (before_reply w s reference)))
                  end).
  { unfold on_generate, before_reply, prompt_logged. rewrite Hr, Hk.
    cbn [negb]. rewrite Hd, Hi, Hc.
    unfold request_turn, instruction_text, default_phrase, user_turn, at_request.
    rewrite <- !user_prompt_typed.
    unfold _save_current_settings, user_prompt_of. attrs. fold (user_prompt_of s).
    rewrite !add_mood_board_app.
    destruct (0 <? length (Prompt_history s))%nat eqn:El; attrs.
    - destruct (str_truthy (user_prompt_of s)); reflexivity.
    - apply Nat.ltb_ge in El.
      assert (Prompt_history s = []) as E
          by (destruct (Prompt_history s); [reflexivity|cbn in El; lia]).
      rewrite E. destruct (str_truthy (user_prompt_of s)); reflexivity. }
  right; right; right. destruct (api_reply w) as [response|e] eqn:Ha.
  - right. exists reference, response. repeat split; assumption.
  - left. exists reference, e. repeat split; assumption.
Qed.

(** Every way through [_execute_capture_viewport]: an error before the view
    is stored; an import error after it; an error of the client or of the API
    call once the request is built; or a response is processed. *)
Lemma capture_cases w s :
  (exists m, (forall png cam, view w <> Return (png, cam)
                              \/ str_truthy (api_key_of w s) = false
                              \/ (if dir_exists w then None else mkdir_error w) <> None)
             /\ _execute_capture_viewport w s
                = _stop_timer (_append_chat_log (Txt m) System (capture_started s)))
  \/ (exists png cam m,
        view w = Return (png, cam)
        /\ _execute_capture_viewport w s
           = _stop_timer (_append_chat_log (Txt m) System (view_stored png cam s)))
  \/ (exists png cam e,
        view w = Return (png, cam)
        /\ _execute_capture_viewport w s = capture_failed e (request_built png cam s))
  \/ (exists png cam e,
        view w = Return (png, cam)
        /\ reaches_api w s
        /\ api_reply w = Raise e
        /\ _execute_capture_viewport w s = capture_failed e (request_sent png cam s))
  \/ (exists png cam response,
        view w = Return (png, cam)
        /\ reaches_api w s
        /\ api_reply w = Return response
        /\ _execute_capture_viewport w s
           = _stop_timer
               (set_iterate_btn_Enabled true
                  (set_generate_btn_Enabled true
                     (_process_response response (output_folder_tb s) true false w
                        (request_sent png cam s))))).
Proof.
  assert (Hkey : forall s0, api_key_of w (capture_started s0) = api_key_of w s0)
    by reflexivity.
  destruct (str_truthy (api_key_of w s)) eqn:Hk.
  2: { left.
       exists "Error: Please enter your Google API key or set GEMINI_API_KEY environment variable.".
       split; [intros; right; left; reflexivity|].
       unfold _execute_capture_viewport. fold (capture_started s).
       cbv zeta. rewrite Hkey, Hk. reflexivity. }
  destruct (if dir_exists w then None else mkdir_error w) as [e|] eqn:Hd.
  { left. exists ("Error: Cannot create output directory: " ++ e).
    split; [intros; right; right; discriminate|].
    unfold _execute_capture_viewport. fold (capture_started s).
    cbv zeta. rewrite Hkey, Hk, Hd. reflexivity. }
  destruct (view w) as [[png cam]|e] eqn:Hv.
  2: { left. exists ("Failed to capture and process viewport: " ++ e).
       split; [intros; left; discriminate|].
       unfold _execute_capture_viewport, capture_failed. fold (capture_started s).
       cbv zeta. rewrite Hkey, Hk, Hd, Hv. reflexivity. }
  right.
  destruct (import_error w) as [e|] eqn:Hi.
  { left. exists png, cam, ("Error: Failed to import google-genai: " ++ e).
    split; [reflexivity|].
    unfold _execute_capture_viewport, view_stored. fold (capture_started s).
    cbv zeta. rewrite Hkey, Hk, Hd, Hv, Hi. reflexivity. }
  right.
  assert (Hout : output_folder_tb (request_sent png cam s) = output_folder_tb s).
  { unfold request_sent, request_built, view_stored. attrs.
    match goal with
    | |- context [_update_prompt_state ?x] =>
        destruct (update_prompt_state_frame x) as (_ & _ & _ & Ho & _)
    end.
    exact Ho. }
  destruct (client_error w) as [e|] eqn:Hc.
  { left. exists png, cam, e. split; [reflexivity|].
    unfold _execute_capture_viewport, request_built, view_stored.
    fold (capture_started s).
    cbv zeta. rewrite Hkey, Hk, Hd, Hv, Hi, Hc. reflexivity. }
  right.
  assert (Hreach : reaches_api w s) by (repeat split; assumption).
  assert (Hcalls : api_calls (request_built png cam s) = api_calls s).
  { unfold request_built, view_stored. attrs. prompt_state_frame. attrs. assumption. }
  destruct (api_reply w) as [response|e] eqn:Ha.
  - right. exists png, cam, response. do 3 (split; [first [reflexivity|assumption]|]).
    rewrite <- Hout.
    unfold _execute_capture_viewport, request_sent. rewrite <- Hcalls.
    unfold request_built, view_stored. fold (capture_started s).
    cbv zeta. rewrite Hkey, Hk, Hd, Hv, Hi, Hc, Ha. reflexivity.
  - left. exists png, cam, e. do 3 (split; [first [reflexivity|assumption]|]).
    unfold _execute_capture_viewport, request_sent. rewrite <- Hcalls.
    unfold request_built, view_stored. fold (capture_started s).
    cbv zeta. rewrite Hkey, Hk, Hd, Hv, Hi, Hc, Ha. reflexivity.
Qed.


Lemma update_prompt_state_keeps s :
  let s' := _update_prompt_state s in
  same_results s s'
  /\ api_key_tb s' = api_key_tb s
  /\ output_folder_tb s' = output_folder_tb s
  /\ _prompt_ever_focused s' = _prompt_ever_focused s
  /\ ref_previews s' = ref_previews s
  /\ generate_btn_Enabled s' = generate_btn_Enabled s
  /\ iterate_btn_Enabled s' = iterate_btn_Enabled s
  /\ timer_running s' = timer_running s
  /\ _camera_info s' = _camera_info s
  /\ _viewport_captured s' = _viewport_captured s
  /\ _first_capture s' = _first_capture s
  /\ api_calls s' = api_calls s
  /\ Prompt_history s' = Prompt_history s
  /\ chat_log s' = chat_log s.
Proof.
  unfold _update_prompt_state, same_results.
  case_matches; attrs; repeat split; assumption.
Qed.

(** What a Generate does to the form, whichever way it takes. *)
Lemma generate_summary w s :
  let s' := on_generate w s in
  (_captured_viewport_bytes s' = _captured_viewport_bytes s
   /\ _viewport_captured s' = _viewport_captured s
   /\ _camera_info s' = _camera_info s
   /\ ref_previews s' = ref_previews s
   /\ _first_capture s' = _first_capture s
   /\ generate_btn_Enabled s' = generate_btn_Enabled s
   /\ prompt_tb_Text s' = prompt_tb_Text s
   /\ prompt_tb_Enabled s' = prompt_tb_Enabled s
   /\ _prompt_placeholder_active s' = _prompt_placeholder_active s
   /\ _prompt_ever_focused s' = _prompt_ever_focused s
   /\ api_key_tb s' = api_key_tb s
   /\ output_folder_tb s' = output_folder_tb s)
  /\ (timer_running s' = timer_running s \/ timer_running s' = false)
  /\ session_tokens s <= session_tokens s'
  /\ ((_last_generated_image_path s' = _last_generated_image_path s
       /\ show_generated_btn_Enabled s' = show_generated_btn_Enabled s
       /\ files_kept (output_path_of (output_folder_tb s) false w) s s')
      \/ exists img,
           _last_generated_image_path s'
           = Some (output_path_of (output_folder_tb s) false w)
           /\ show_generated_btn_Enabled s' = true
           /\ fs s' !! output_path_of (output_folder_tb s) false w = Some img
           /\ files_kept (output_path_of (output_folder_tb s) false w) s s')
  /\ (iterate_btn_Enabled s' = iterate_btn_Enabled s \/ iterate_btn_Enabled s' = true).
Proof.
  cbv zeta.
  assert (Hsaved : forall s1,
             fs s1 = settings_file_after (settings_saved w) (fs s) ->
             files_kept (output_path_of (output_folder_tb s) false w) s s1)
    by (intros s1 H1; eapply files_kept_settings; exact H1).
  destruct (generate_cases w s)
    as [(_ & ->)|[(_ & ->)|[(m & ->)|[(reference & e & _ & _ & _ & ->)
       |(reference & response & _ & _ & _ & ->)]]]].
  - attrs. split; [repeat split|]. split; [left; reflexivity|]. split; [lia|].
    split; [left|left; reflexivity].
    split; [reflexivity|]. split; [reflexivity|]. apply files_kept_same. reflexivity.
  - split; [repeat split|]. split; [left; reflexivity|]. split; [lia|].
    split; [left|left; reflexivity].
    split; [reflexivity|]. split; [reflexivity|]. apply files_kept_same. reflexivity.
  - split; [repeat split|]. split; [right; reflexivity|].
    split; [unfold api_error, before_reply, prompt_logged, _save_current_settings;
            attrs; lia|].
    split; [left|left; reflexivity].
    split; [reflexivity|]. split; [reflexivity|]. apply Hsaved. reflexivity.
  - split; [repeat split|]. split; [right; reflexivity|].
    split; [unfold api_error, before_reply, prompt_logged, _save_current_settings;
            attrs; lia|].
    split; [left|left; reflexivity].
    split; [reflexivity|]. split; [reflexivity|]. apply Hsaved. reflexivity.
  - destruct (process_response_keeps response (output_folder_tb s) false false w
                (before_reply w s reference)) as (Hc & _ & Ht & Hfiles & Hres).
    destruct Hc as (H1 & H2 & H3 & H4 & H5 & H6 & H7 & H8 & H9 & H10 & H11 & H12
                    & H13 & H14).
    pose proof (Hsaved (before_reply w s reference) eq_refl) as Hfiles0.
    pose proof (files_kept_trans _ _ _ _ Hfiles0 Hfiles) as Hkept.
    set (s' := _process_response response (output_folder_tb s) false false w
                 (before_reply w s reference)) in *.
    clearbody s'. unfold same_results_but_files in Hres.
    unfold before_reply, prompt_logged, _save_current_settings in *. attrs.
    assert (Hb : _captured_viewport_bytes s' = _captured_viewport_bytes s).
    { destruct Hres as [(_ & _ & Hb & _)|(img & _ & _ & _ & [Hb|(Hvp & _)])];
        [exact Hb|exact Hb|discriminate Hvp]. }
    split; [repeat split; assumption|].
    split; [right; reflexivity|].
    split; [exact Ht|].
    split; [|right; reflexivity].
    destruct Hres as [(Hp & Hs & _)|(img & Hp & Hs & Hf & _)].
    + left. split; [exact Hp|]. split; [exact Hs|exact Hkept].
    + right. exists img. split; [exact Hp|]. split; [exact Hs|].
      split; [exact Hf|exact Hkept].
Qed.


(** Replaces the form that [_update_prompt_state] returns by a variable that
    is only known through [update_prompt_state_keeps]. *)
Ltac prompt_state_keeps :=
  match goal with
  | |- context [_update_prompt_state ?x] =>
      let H := fresh "Hkeeps" in
      let s1 := fresh "s1" in
      pose proof (update_prompt_state_keeps x) as H;
      unfold same_results in H; cbv zeta in H;
      set (s1 := _update_prompt_state x) in H |- *; clearbody s1; attrs;
      decompose [and] H; clear H
  end.

Ltac fin := first [reflexivity | assumption | congruence | lia].

Ltac some_bytes :=
  first [ eexists; reflexivity
        | match goal with
          | H : _captured_viewport_bytes ?x = Some _ |- is_Some (_captured_viewport_bytes ?x) =>
              rewrite H; eexists; reflexivity
          end ].

Ltac unchanged_files :=
  left; split; [fin|]; split; [fin|]; apply files_kept_same; attrs; fin.

(** What a capture does to the form, whichever way it takes. *)
Lemma capture_summary w s :
  let s' := _execute_capture_viewport w s in
  timer_running s' = false
  /\ _first_capture s' = false
  /\ (ref_previews s' = ref_previews s
      /\ _prompt_ever_focused s' = _prompt_ever_focused s
      /\ api_key_tb s' = api_key_tb s
      /\ output_folder_tb s' = output_folder_tb s)
  /\ session_tokens s <= session_tokens s'
  /\ ((_last_generated_image_path s' = _last_generated_image_path s
       /\ show_generated_btn_Enabled s' = show_generated_btn_Enabled s
       /\ files_kept (output_path_of (output_folder_tb s) true w) s s')
      \/ exists img,
           _last_generated_image_path s'
           = Some (output_path_of (output_folder_tb s) true w)
           /\ show_generated_btn_Enabled s' = true
           /\ fs s' !! output_path_of (output_folder_tb s) true w = Some img
           /\ files_kept (output_path_of (output_folder_tb s) true w) s s')
  /\ ((_viewport_captured s' = _viewport_captured s
       /\ _captured_viewport_bytes s' = _captured_viewport_bytes s)
      \/ (_viewport_captured s' = true /\ is_Some (_captured_viewport_bytes s')))
  /\ (generate_btn_Enabled s' = generate_btn_Enabled s
      \/ (generate_btn_Enabled s' = true /\ _viewport_captured s' = true))
  /\ (iterate_btn_Enabled s' = iterate_btn_Enabled s \/ iterate_btn_Enabled s' = true).
Proof.
  cbv zeta.
  destruct (capture_cases w s)
    as [(m & _ & ->)|[(png & cam & m & _ & ->)|[(png & cam & e & _ & ->)
       |[(png & cam & e & _ & _ & _ & ->)|(png & cam & response & _ & _ & _ & ->)]]]].
  - unfold capture_started. attrs.
    do 3 (split; [repeat split|]). split; [lia|].
    split; [unchanged_files|]. split; [left; repeat split|].
    split; left; reflexivity.
  - unfold view_stored, capture_started. prompt_state_keeps.
    do 2 (split; [fin|]). split; [repeat split; fin|]. split; [fin|].
    split; [unchanged_files|].
    split; [right; split; [fin|some_bytes]|].
    split; left; fin.
  - unfold capture_failed, request_built, view_stored, capture_started.
    prompt_state_keeps.
    do 2 (split; [fin|]). split; [repeat split; fin|]. split; [fin|].
    split; [unchanged_files|].
    split; [right; split; [fin|some_bytes]|].
    split; left; fin.
  - unfold capture_failed, request_sent, request_built, view_stored, capture_started.
    prompt_state_keeps.
    do 2 (split; [fin|]). split; [repeat split; fin|]. split; [fin|].
    split; [unchanged_files|].
    split; [right; split; [fin|some_bytes]|].
    split; left; fin.
  - destruct (process_response_keeps response (output_folder_tb s) true false w
                (request_sent png cam s)) as (Hc & _ & Ht & Hfiles & Hres).
    destruct Hc as (K1 & K2 & K3 & K4 & K5 & K6 & K7 & K8 & K9 & K10 & K11 & K12
                    & K13 & K14).
    assert (Hfs0 : fs (request_sent png cam s) = fs s).
    { unfold request_sent, request_built, view_stored, capture_started.
      prompt_state_keeps. fin. }
    pose proof (files_kept_trans _ _ _ _ (files_kept_same _ _ _ Hfs0) Hfiles) as Hkept.
    clear Hfiles Hfs0.
    unfold same_results_but_files in Hres.
    set (s2 := _process_response response (output_folder_tb s) true false w
                 (request_sent png cam s)) in *.
    clearbody s2.
    unfold request_sent, request_built, view_stored, capture_started in *.
    attrs.
    match goal with
    | H : context [_update_prompt_state ?x] |- _ =>
        let Hk := fresh "Hkeeps" in
        pose proof (update_prompt_state_keeps x) as Hk;
        unfold same_results in Hk; cbv zeta in Hk;
        set (s1 := _update_prompt_state x) in *; clearbody s1; attrs;
        decompose [and] Hk; clear Hk
    end.
    split; [reflexivity|]. split; [congruence|].
    split; [repeat split; congruence|]. split; [lia|].
    split.
    { destruct Hres as [(Hp & Hs & _)|(img & Hp & Hs & Hf & _)].
      - left. split; [congruence|]. split; [congruence|exact Hkept].
      - right. exists img. split; [exact Hp|]. split; [exact Hs|].
        split; [exact Hf|exact Hkept]. }
    split.
    { right. split; [congruence|].
      destruct Hres as [(_ & _ & Hb & _)|(img & _ & _ & _ & [Hb|(_ & Hb)])];
        rewrite Hb; some_bytes. }
    split; [right; split; [reflexivity|congruence]|right; reflexivity].
Qed.


(** ** What holds between any two events *)

Lemma play_app s events1 events2 :
  play s (events1 ++ events2) = play (play s events1) events2.
Proof. apply fold_left_app. Qed.

Lemma play_invariant (P : Form -> Prop) :
  (forall s e, P s -> P (handle s e)) ->
  forall events s, P s -> P (play s events).
Proof.
  intros Hstep events. induction events as [|e events IH]; intros s Hs; [exact Hs|].
  cbn [play fold_left]. apply IH, Hstep, Hs.
Qed.

(** What an Iterate does to the form, whichever way it takes. *)
Lemma iterate_summary s :
  let s' := on_iterate s in
  (_last_generated_image_path s' = _last_generated_image_path s
   /\ show_generated_btn_Enabled s' = show_generated_btn_Enabled s
   /\ fs s' = fs s
   /\ timer_running s' = timer_running s
   /\ ref_previews s' = ref_previews s
   /\ generate_btn_Enabled s' = generate_btn_Enabled s
   /\ session_tokens s' = session_tokens s
   /\ _prompt_ever_focused s' = _prompt_ever_focused s
   /\ api_calls s' = api_calls s
   /\ _first_capture s' = _first_capture s)
  /\ ((_viewport_captured s' = _viewport_captured s
       /\ _captured_viewport_bytes s' = _captured_viewport_bytes s)
      \/ (_viewport_captured s' = true /\ is_Some (_captured_viewport_bytes s'))).
Proof.
  unfold on_iterate. case_matches; attrs;
    (split; [repeat split|]); first [left; split; reflexivity | right; split; some_bytes].
Qed.

(** The events that are no action leave everything alone but the prompt box
    and the mood board. *)
Lemma gui_event_summary s e :
  (forall a, e <> Act a) ->
  let s' := handle s e in
  _last_generated_image_path s' = _last_generated_image_path s
  /\ show_generated_btn_Enabled s' = show_generated_btn_Enabled s
  /\ fs s' = fs s
  /\ timer_running s' = timer_running s
  /\ generate_btn_Enabled s' = generate_btn_Enabled s
  /\ session_tokens s' = session_tokens s
  /\ api_calls s' = api_calls s
  /\ _viewport_captured s' = _viewport_captured s
  /\ _captured_viewport_bytes s' = _captured_viewport_bytes s
  /\ Prompt_history s' = Prompt_history s
  /\ _first_capture s' = _first_capture s
  /\ length (ref_previews s') = length (ref_previews s)
  /\ (_prompt_ever_focused s = true -> _prompt_ever_focused s' = true).
Proof.
  intros Hne. destruct e as [a| | |t|index chosen bitmap_error|index|bitmap_error];
    [destruct (Hne a eq_refl)|..]; cbn [handle];
    unfold on_prompt_focus, on_prompt_blur, _select_reference_image,
      _load_reference_preview, _clear_reference_image, on_show_generated;
    try match goal with
        | |- context [ref_previews s !! ?i] => destruct (ref_previews s !! i) eqn:?
        end;
    case_matches; attrs; repeat split;
    try (intros; first [assumption | reflexivity]);
    rewrite length_insert; reflexivity.
Qed.

Lemma capture_handler_cases w s :
  on_capture_viewport w s = s
  \/ on_capture_viewport w s = _execute_capture_viewport w s.
Proof.
  unfold on_capture_viewport. case_matches; auto.
Qed.

Ltac event_cases s e :=
  let w := fresh "w" in
  destruct e as [[w|w|]| | | | | |];
  [ destruct (capture_handler_cases w s) as [Heq|Heq]; cbn [handle step];
    rewrite Heq; clear Heq;
    [|pose proof (capture_summary w s) as Hsum; cbv zeta in Hsum]
  | cbn [handle step]; pose proof (generate_summary w s) as Hsum; cbv zeta in Hsum
  | cbn [handle step]; pose proof (iterate_summary s) as Hsum; cbv zeta in Hsum
  | match goal with
    | |- context [handle s ?ev] =>
        pose proof (gui_event_summary s ev ltac:(discriminate)) as Hsum;
        cbv zeta in Hsum
    end ..].

Lemma reference_when_captured_step s e :
  reference_when_captured s -> reference_when_captured (handle s e).
Proof.
  unfold reference_when_captured. intros Hs. event_cases s e; try exact Hs;
    [ destruct Hsum as (_ & _ & _ & _ & _ & [(Hv & Hb)|(_ & Hb)] & _);
        [rewrite Hv, Hb; exact Hs|intros _; exact Hb]
    | destruct Hsum as ((Hb & Hv & _) & _); rewrite Hv, Hb; exact Hs
    | destruct Hsum as (_ & [(Hv & Hb)|(_ & Hb)]);
        [rewrite Hv, Hb; exact Hs|intros _; exact Hb]
    | destruct Hsum as (_ & _ & _ & _ & _ & _ & _ & Hv & Hb & _);
        rewrite Hv, Hb; exact Hs .. ].
Qed.



Lemma session_tokens_step s e : session_tokens s <= session_tokens (handle s e).
Proof.
  event_cases s e; lia.
Qed.

Lemma show_button_step s e :
  show_button_follows_result s -> show_button_follows_result (handle s e).
Proof.
  unfold show_button_follows_result. intros Hs.
  assert (Hsaved : forall p, true = true <-> is_Some (Some p : option string))
    by (intros p; split; [eexists; reflexivity|reflexivity]).
  event_cases s e; try exact Hs;
    [ destruct Hsum as (_ & _ & _ & _ & [(Hp & Hb & _)|(img & Hp & Hb & _)] & _);
        rewrite Hp, Hb; [exact Hs|apply Hsaved]
    | destruct Hsum as (_ & _ & _ & [(Hp & Hb & _)|(img & Hp & Hb & _)] & _);
        rewrite Hp, Hb; [exact Hs|apply Hsaved]
    | destruct Hsum as ((Hp & Hb & _) & _); rewrite Hp, Hb; exact Hs
    | destruct Hsum as (Hp & Hb & _); rewrite Hp, Hb; exact Hs .. ].
Qed.

Lemma generate_button_step s e :
  generate_button_needs_capture s -> generate_button_needs_capture (handle s e).
Proof.
  unfold generate_button_needs_capture. intros Hs.
  event_cases s e; try exact Hs;
    [ destruct Hsum as (_ & _ & _ & _ & _ & Hcap & [Hg|(_ & Hv)] & _);
        [|intros _; exact Hv];
        rewrite Hg; intros Hon;
        destruct Hcap as [(Hv & _)|(Hv & _)]; [rewrite Hv; exact (Hs Hon)|exact Hv]
    | destruct Hsum as ((_ & Hv & _ & _ & _ & Hg & _) & _); rewrite Hv, Hg; exact Hs
    | destruct Hsum as ((_ & _ & _ & _ & _ & Hg & _) & [(Hv & _)|(Hv & _)]);
        rewrite Hg, Hv; [exact Hs|reflexivity]
    | destruct Hsum as (_ & _ & _ & _ & Hg & _ & _ & Hv & _);
        rewrite Hg, Hv; exact Hs .. ].
Qed.

Lemma last_generated_file_same s s' :
  _last_generated_image_path s' = _last_generated_image_path s ->
  fs s' = fs s ->
  last_generated_file s' = last_generated_file s.
Proof. unfold last_generated_file. intros -> ->. reflexivity. Qed.

Lemma last_generated_file_saved s' dir vp w img :
  _last_generated_image_path s' = Some (output_path_of dir vp w) ->
  fs s' !! output_path_of dir vp w = Some img ->
  last_generated_file s' = Some img.
Proof.
  unfold last_generated_file. intros -> Hf. rewrite output_path_truthy. exact Hf.
Qed.

Lemma result_file_kept out s s' :
  result_file_present s ->
  _last_generated_image_path s' = _last_generated_image_path s ->
  files_kept out s s' ->
  result_file_present s'.
Proof.
  unfold result_file_present, last_generated_file. intros Hs Hp (_ & Hkeep).
  rewrite Hp. intros Hsome. specialize (Hs Hsome).
  destruct (_last_generated_image_path s) as [path|]; [|exact Hs].
  destruct (str_truthy path); [|exact Hs]. apply Hkeep, Hs.
Qed.

Lemma result_file_step s e :
  result_file_present s -> result_file_present (handle s e).
Proof.
  intros Hs.
  event_cases s e; try exact Hs;
    [ destruct Hsum as (_ & _ & _ & _ & [(Hp & _ & Hf)|(img & Hp & _ & Hf & _)] & _);
        [exact (result_file_kept _ _ _ Hs Hp Hf)
        |unfold result_file_present;
         rewrite (last_generated_file_saved _ _ _ _ _ Hp Hf); intros _; eexists;
           reflexivity]
    | destruct Hsum as (_ & _ & _ & [(Hp & _ & Hf)|(img & Hp & _ & Hf & _)] & _);
        [exact (result_file_kept _ _ _ Hs Hp Hf)
        |unfold result_file_present;
         rewrite (last_generated_file_saved _ _ _ _ _ Hp Hf); intros _; eexists;
           reflexivity]
    | destruct Hsum as ((Hp & _ & Hf & _) & _); unfold result_file_present in *;
        rewrite (last_generated_file_same _ _ Hp Hf), Hp; exact Hs
    | destruct Hsum as (Hp & _ & Hf & _); unfold result_file_present in *;
        rewrite (last_generated_file_same _ _ Hp Hf), Hp; exact Hs .. ].
Qed.

Lemma mood_slots_step s e :
  length (ref_previews (handle s e)) = length (ref_previews s).
Proof.
  event_cases s e; try reflexivity;
    [ destruct Hsum as (_ & _ & (H & _) & _); rewrite H; reflexivity
    | destruct Hsum as ((_ & _ & _ & H & _) & _); rewrite H; reflexivity
    | destruct Hsum as ((_ & _ & _ & _ & H & _) & _); rewrite H; reflexivity
    | destruct Hsum as (_ & _ & _ & _ & _ & _ & _ & _ & _ & _ & _ & H & _);
        exact H .. ].
Qed.

Lemma ever_focused_step s e :
  _prompt_ever_focused s = true -> _prompt_ever_focused (handle s e) = true.
Proof.
  intros Hs. event_cases s e; try exact Hs;
    [ destruct Hsum as (_ & _ & (_ & H & _) & _); rewrite H; exact Hs
    | destruct Hsum as ((_ & _ & _ & _ & _ & _ & _ & _ & _ & H & _) & _);
        rewrite H; exact Hs
    | destruct Hsum as ((_ & _ & _ & _ & _ & _ & _ & H & _) & _); rewrite H; exact Hs
    | destruct Hsum as (_ & _ & _ & _ & _ & _ & _ & _ & _ & _ & _ & _ & H);
        exact (H Hs) .. ].
Qed.


Lemma update_prompt_state_focused s :
  _prompt_ever_focused s = true ->
  _prompt_placeholder_active (_update_prompt_state s) = _prompt_placeholder_active s
  /\ prompt_tb_Text (_update_prompt_state s) = prompt_tb_Text s.
Proof.
  unfold _update_prompt_state. intros H.
  destruct (_viewport_captured s); attrs; rewrite H; cbn [negb andb]; split; reflexivity.
Qed.

(** Once the prompt box has been focused a capture leaves its text alone. *)
Lemma capture_keeps_typed_prompt w s :
  _prompt_ever_focused s = true ->
  _prompt_placeholder_active (_execute_capture_viewport w s) = _prompt_placeholder_active s
  /\ prompt_tb_Text (_execute_capture_viewport w s) = prompt_tb_Text s.
Proof.
  intros He.
  assert (Hview : forall png cam,
             _prompt_placeholder_active (view_stored png cam s)
             = _prompt_placeholder_active s
             /\ prompt_tb_Text (view_stored png cam s) = prompt_tb_Text s).
  { intros png cam. unfold view_stored, capture_started.
    match goal with
    | |- context [_update_prompt_state ?x] =>
        destruct (update_prompt_state_focused x) as (Ha & Hb); [exact He|]
    end.
    rewrite Ha, Hb. split; reflexivity. }
  destruct (capture_cases w s)
    as [(m & _ & ->)|[(png & cam & m & _ & ->)|[(png & cam & e & _ & ->)
       |[(png & cam & e & _ & _ & _ & ->)|(png & cam & response & _ & _ & _ & ->)]]]].
  - split; reflexivity.
  - exact (Hview png cam).
  - exact (Hview png cam).
  - exact (Hview png cam).
  - destruct (process_response_keeps response (output_folder_tb s) true false w
                (request_sent png cam s)) as ((_ & _ & Ht & _ & Hp & _) & _).
    attrs. rewrite Ht, Hp. exact (Hview png cam).
Qed.

Lemma focused_without_placeholder_step s e :
  focused_without_placeholder s -> focused_without_placeholder (handle s e).
Proof.
  unfold focused_without_placeholder. intros Hs.
  destruct e as [[w|w|]| | |t|index chosen bitmap_error|index|bitmap_error];
    cbn [handle step].
  - destruct (capture_handler_cases w s) as [->| ->]; [exact Hs|].
    destruct (capture_summary w s) as (_ & _ & (_ & He & _) & _).
    rewrite He. intros Hf.
    destruct (capture_keeps_typed_prompt w s Hf) as (Hp & _).
    rewrite Hp. exact (Hs Hf).
  - destruct (generate_summary w s)
      as ((_ & _ & _ & _ & _ & _ & _ & _ & Hp & He & _) & _).
    rewrite Hp, He. exact Hs.
  - unfold on_iterate. case_matches; attrs; try exact Hs; try (intros _; reflexivity).
    intros He. rewrite He in *. discriminate.
  - unfold on_prompt_focus. case_matches; attrs; [intros _; reflexivity|exact Hs].
  - unfold on_prompt_blur. case_matches; attrs; [|exact Hs].
    intros He. rewrite He in *. discriminate.
  - destruct (prompt_tb_Enabled s); exact Hs.
  - unfold _select_reference_image, _load_reference_preview. case_matches; exact Hs.
  - unfold _clear_reference_image.
    destruct (ref_previews s !! index); exact Hs.
  - unfold on_show_generated. case_matches; exact Hs.
Qed.

Lemma initial_form_facts loaded api_key output_folder :
  let s := initial_form loaded api_key output_folder in
  _viewport_captured s = false
  /\ generate_btn_Enabled s = false
  /\ show_generated_btn_Enabled s = false
  /\ _last_generated_image_path s = None
  /\ _prompt_ever_focused s = false
  /\ timer_running s = false
  /\ ref_previews s = [None; None; None; None].
Proof. repeat split. Qed.

(** ** The invariants of the form *)

(** X1. The reference image is present whenever the captured flag is set:
    this holds of the form that [__init__] builds, and every handler (capture,
    Generate, Iterate, the focus handlers of the prompt box, the edits of the
    prompt and of the mood board) keeps it. *)
Theorem reference_present_when_captured :
  (forall loaded api_key output_folder,
     reference_when_captured (initial_form loaded api_key output_folder))
  /\ (forall s events,
        reference_when_captured s -> reference_when_captured (play s events)).
Proof.
  split.
  - intros loaded k f. unfold reference_when_captured.
    destruct (initial_form_facts loaded k f) as (H & _). rewrite H. discriminate.
  - intros s events. apply play_invariant. exact reference_when_captured_step.
Qed.


(** X3. The token counter of the session never goes down, whatever the
    events and whatever the replies say about token counts. *)
Theorem session_tokens_never_decrease s events :
  session_tokens s <= session_tokens (play s events).
Proof.
  revert s. induction events as [|e events IH]; intros s; [cbn; lia|].
  cbn [play fold_left]. fold (play (handle s e) events).
  pose proof (session_tokens_step s e). pose proof (IH (handle s e)). lia.
Qed.

(** X4. The button that shows the last generated image is enabled exactly
    when a generated image is remembered. *)
Theorem show_button_tracks_result :
  (forall loaded api_key output_folder,
     show_button_follows_result (initial_form loaded api_key output_folder))
  /\ (forall s events,
        show_button_follows_result s -> show_button_follows_result (play s events)).
Proof.
  split.
  - intros loaded k f. unfold show_button_follows_result.
    destruct (initial_form_facts loaded k f) as (_ & _ & H1 & H2 & _).
    rewrite H1, H2. split; [discriminate|intros [x Hx]; discriminate].
  - intros s events. apply play_invariant. exact show_button_step.
Qed.

(** X5. The Generate button is enabled only when a viewport has been
    captured. *)
Theorem generate_button_only_after_capture :
  (forall loaded api_key output_folder,
     generate_button_needs_capture (initial_form loaded api_key output_folder))
  /\ (forall s events,
        generate_button_needs_capture s -> generate_button_needs_capture (play s events)).
Proof.
  split.
  - intros loaded k f. unfold generate_button_needs_capture.
    destruct (initial_form_facts loaded k f) as (_ & H & _). rewrite H. discriminate.
  - intros s events. apply play_invariant. exact generate_button_step.
Qed.

(** X6. A remembered result is a file that is there: whenever
    [_last_generated_image_path] is set, the path is not empty and the file
    holds an image, so that the check of [on_iterate] passes.  (Files are
    written by the handlers only.) *)
Theorem remembered_result_is_on_disk :
  (forall loaded api_key output_folder,
     result_file_present (initial_form loaded api_key output_folder))
  /\ (forall s events, result_file_present s -> result_file_present (play s events)).
Proof.
  split.
  - intros loaded k f. unfold result_file_present.
    destruct (initial_form_facts loaded k f) as (_ & _ & _ & H & _). rewrite H.
    intros [x Hx]; discriminate.
  - intros s events. apply play_invariant. exact result_file_step.
Qed.

(** X7. Once the prompt box has been focused, this is never forgotten, the
    placeholder never comes back, [on_prompt_blur] changes nothing, and a
    capture leaves the text of the box alone. *)
Theorem placeholder_gone_after_focus :
  (forall loaded api_key output_folder,
     focused_without_placeholder (initial_form loaded api_key output_folder))
  /\ (forall s events,
        focused_without_placeholder s -> focused_without_placeholder (play s events))
  /\ (forall s events,
        _prompt_ever_focused s = true -> _prompt_ever_focused (play s events) = true)
  /\ (forall s, _prompt_ever_focused s = true -> on_prompt_blur s = s)
  /\ (forall w s, _prompt_ever_focused s = true ->
        prompt_tb_Text (on_capture_viewport w s) = prompt_tb_Text s).
Proof.
  split.
  { intros loaded k f. unfold focused_without_placeholder.
    destruct (initial_form_facts loaded k f) as (_ & _ & _ & _ & H & _). rewrite H.
    discriminate. }
  split.
  { intros s events. apply play_invariant. exact focused_without_placeholder_step. }
  split.
  { intros s events.
    apply (play_invariant (fun s => _prompt_ever_focused s = true)).
    exact ever_focused_step. }
  split.
  { intros s H. unfold on_prompt_blur. rewrite H. reflexivity. }
  intros w s H. destruct (capture_handler_cases w s) as [->| ->]; [reflexivity|].
  exact (proj2 (capture_keeps_typed_prompt w s H)).
Qed.


(** ** The mood board *)

Lemma mood_board_parts_length files previews :
  (length (mood_board_parts files previews) <= length previews)%nat.
Proof.
  unfold mood_board_parts. induction previews as [|p previews IH]; [cbn; lia|].
  cbn [omap list_omap length].
  destruct (match p with Some file_path => read_file_as_part files file_path | None => None end);
    cbn [length]; lia.
Qed.

Lemma mood_board_parts_app files l1 l2 :
  mood_board_parts files (l1 ++ l2)
  = (mood_board_parts files l1 ++ mood_board_parts files l2)%list.
Proof. unfold mood_board_parts. apply omap_app. Qed.

(** X8. The mood board keeps its slots: no event changes their number, so
    that from the four slots of [__init__] on, the request turn of a Generate
    has at least the reference image and the instruction, and at most four
    mood-board images after them. *)
Theorem mood_board_keeps_four_slots :
  (forall s events, length (ref_previews (play s events)) = length (ref_previews s))
  /\ (forall loaded api_key output_folder events reference,
        let s := play (initial_form loaded api_key output_folder) events in
        length (ref_previews s) = 4%nat
        /\ exists ps, parts (request_turn s reference) = Some ps
                      /\ (2 <= length ps <= 6)%nat).
Proof.
  assert (Hlen : forall events s,
             length (ref_previews (play s events)) = length (ref_previews s)).
  { induction events as [|e events IH]; intros s; [reflexivity|].
    cbn [play fold_left]. fold (play (handle s e) events).
    rewrite IH. apply mood_slots_step. }
  split; [intros s events; apply Hlen|].
  intros loaded k f events reference. cbv zeta.
  pose proof (Hlen events (initial_form loaded k f)) as H.
  change (length (ref_previews (initial_form loaded k f))) with 4%nat in H.
  split; [exact H|].
  eexists. split; [reflexivity|]. cbn [length].
  match goal with
  | |- context [mood_board_parts ?files ?previews] =>
      pose proof (mood_board_parts_length files previews)
  end.
  lia.
Qed.

(** X9. Choosing an image for a slot of the mood board and clearing the
    slot.  When the file can be read, the image joins the mood-board parts of
    the next request at the place of its slot; clearing the slot afterwards
    is clearing it at once, and gives back the form when the slot was empty.
    A file that cannot be shown leaves the mood board as it was, and so does
    a dialog that is cancelled. *)
Theorem mood_board_select_and_clear s index old file_path part :
  ref_previews s !! index = Some old ->
  read_file_as_part (fs s) file_path = Some part ->
  let s' := _select_reference_image (Some file_path) None index s in
  mood_board_parts (fs s') (ref_previews s')
  = (mood_board_parts (fs s) (take index (ref_previews s))
     ++ part :: mood_board_parts (fs s) (drop (S index) (ref_previews s)))%list
  /\ _clear_reference_image index s' = _clear_reference_image index s
  /\ (old = None -> _clear_reference_image index s' = Return s)
  /\ (forall e, ref_previews (_select_reference_image (Some file_path) (Some e) index s)
                = ref_previews s)
  /\ _select_reference_image None None index s = s.
Proof.
  intros Hold Hpart. cbv zeta.
  assert (Hlt : (index < length (ref_previews s))%nat)
    by (apply lookup_lt_is_Some; eexists; exact Hold).
  assert (Hfile : str_truthy file_path && bool_decide (is_Some (fs s !! file_path)) = true).
  { unfold read_file_as_part in Hpart.
    destruct (str_truthy file_path); [|discriminate].
    destruct (fs s !! file_path) eqn:E; [|discriminate].
    cbn [andb]. apply bool_decide_eq_true. eexists; reflexivity. }
  unfold _select_reference_image, _load_reference_preview. rewrite Hfile, Hold. attrs.
  split.
  { rewrite (insert_take_drop (ref_previews s) index (Some file_path) Hlt).
    rewrite mood_board_parts_app.
    unfold mood_board_parts at 2. cbn [omap list_omap]. rewrite Hpart. reflexivity. }
  assert (Hclear : _clear_reference_image index
                     (set_ref_previews (<[index := Some file_path]> (ref_previews s)) s)
                   = _clear_reference_image index s).
  { unfold _clear_reference_image. attrs.
    rewrite list_lookup_insert_eq by exact Hlt. rewrite Hold.
    rewrite list_insert_insert_eq. reflexivity. }
  split; [exact Hclear|].
  split.
  { intros ->. rewrite Hclear. unfold _clear_reference_image. rewrite Hold.
    rewrite (list_insert_id _ _ _ Hold). reflexivity. }
  split; reflexivity.
Qed.

(** ** Requests *)

(** X10. When the API is called.  A Generate without a usable reference, or
    one that does not get as far as the call (no key, no output directory, no
    SDK, no client), sends nothing; a click on Capture without a key changes
    nothing at all; an event sends at most one request; and only Capture and
    Generate ever send one. *)
Theorem no_request_without_key_or_reference :
  (forall w s,
     captured_reference s = None \/ ~ reaches_api w s ->
     api_calls (on_generate w s) = api_calls s)
  /\ (forall w s, str_truthy (api_key_of w s) = false -> on_capture_viewport w s = s)
  /\ (forall s e,
        api_calls (handle s e) = api_calls s
        \/ exists request, api_calls (handle s e) = (api_calls s ++ [request])%list)
  /\ (forall s e, is_request_action e = false -> api_calls (handle s e) = api_calls s).
Proof.
  assert (Hgen : forall w s,
             api_calls (on_generate w s) = api_calls s
             \/ (captured_reference s <> None /\ reaches_api w s
                 /\ exists request,
                      api_calls (on_generate w s) = (api_calls s ++ [request])%list)).
  { intros w s.
    destruct (generate_cases w s)
      as [(_ & ->)|[(_ & ->)|[(m & ->)|[(reference & e & Hr & Hreach & _ & ->)
         |(reference & response & Hr & Hreach & _ & ->)]]]].
    - left; reflexivity.
    - left; reflexivity.
    - left; reflexivity.
    - right. split; [congruence|]. split; [exact Hreach|].
      eexists. unfold api_error, before_reply. attrs. reflexivity.
    - right. split; [congruence|]. split; [exact Hreach|].
      destruct (process_response_frame response (output_folder_tb s) false false w
                  (before_reply w s reference)) as (Hc & _).
      eexists. attrs. rewrite Hc. unfold before_reply. attrs. reflexivity. }
  assert (Hcap : forall w s,
             api_calls (on_capture_viewport w s) = api_calls s
             \/ exists request,
                  api_calls (on_capture_viewport w s) = (api_calls s ++ [request])%list).
  { intros w s. destruct (capture_handler_cases w s) as [->| ->]; [left; reflexivity|].
    rewrite capture_api_calls. destruct (capture_request w s);
      [right; eexists; reflexivity|left; reflexivity]. }
  split.
  { intros w s Hno. destruct (Hgen w s) as [H|(Hr & Hreach & _)]; [exact H|].
    destruct Hno as [Hno|Hno]; [destruct (Hr Hno)|destruct (Hno Hreach)]. }
  split.
  { intros w s Hk. unfold on_capture_viewport. rewrite Hk. reflexivity. }
  assert (Hquiet : forall s e, is_request_action e = false ->
                               api_calls (handle s e) = api_calls s).
  { intros s e He.
    destruct e as [[w|w|]| | |t|index chosen bitmap_error|index|bitmap_error];
      try discriminate He.
    - destruct (iterate_summary s) as ((_ & _ & _ & _ & _ & _ & _ & _ & H & _) & _).
      exact H.
    - exact (proj1 (proj2 (proj2 (proj2 (proj2 (proj2 (proj2
               (gui_event_summary s Focus ltac:(discriminate))))))))).
    - exact (proj1 (proj2 (proj2 (proj2 (proj2 (proj2 (proj2
               (gui_event_summary s Blur ltac:(discriminate))))))))).
    - exact (proj1 (proj2 (proj2 (proj2 (proj2 (proj2 (proj2
               (gui_event_summary s (Typed t) ltac:(discriminate))))))))).
    - exact (proj1 (proj2 (proj2 (proj2 (proj2 (proj2 (proj2
               (gui_event_summary s (ChooseMood index chosen bitmap_error)
                  ltac:(discriminate))))))))).
    - exact (proj1 (proj2 (proj2 (proj2 (proj2 (proj2 (proj2
               (gui_event_summary s (ClearMood index) ltac:(discriminate))))))))).
    - exact (proj1 (proj2 (proj2 (proj2 (proj2 (proj2 (proj2
               (gui_event_summary s (ShowGenerated bitmap_error) ltac:(discriminate))))))))). }
  split; [|exact Hquiet].
  intros s e. destruct (is_request_action e) eqn:He; [|left; apply Hquiet; exact He].
  destruct e as [[w|w|]| | |t|index chosen bitmap_error|index|bitmap_error];
    try discriminate He;
    cbn [handle step].
  - apply Hcap.
  - destruct (Hgen w s) as [H|(_ & _ & H)]; [left; exact H|right; exact H].
Qed.

(** X11. The reset warning.  Every executed capture clears [_first_capture],
    nothing sets it again, and from then on a click on Capture that is
    answered with No leaves the form, its history included, as it was. *)
Theorem capture_asks_before_reset :
  (forall w s, _first_capture (_execute_capture_viewport w s) = false)
  /\ (forall s events, _first_capture s = false -> _first_capture (play s events) = false)
  /\ (forall w s,
        _first_capture s = false -> confirm_reset w = false ->
        on_capture_viewport w s = s).
Proof.
  split; [intros w s; exact (proj1 (proj2 (capture_summary w s)))|].
  split.
  - intros s events. apply (play_invariant (fun s => _first_capture s = false)).
    clear s events. intros s e Hs.
    event_cases s e; try exact Hs;
      [ destruct Hsum as (_ & H & _); exact H
      | destruct Hsum as ((_ & _ & _ & _ & H & _) & _); rewrite H; exact Hs
      | destruct Hsum as ((_ & _ & _ & _ & _ & _ & _ & _ & _ & H) & _);
          rewrite H; exact Hs
      | destruct Hsum as (_ & _ & _ & _ & _ & _ & _ & _ & _ & _ & H & _);
          rewrite H; exact Hs .. ].
  - intros w s Hf Hc. unfold on_capture_viewport. rewrite Hf, Hc.
    destruct (str_truthy (api_key_of w s)); reflexivity.
Qed.


(** ** The commentary and the failures of the response parser *)

Lemma walk_part_text wk part :
  analysis_text (walk_part wk part)
  = match long_text part with Some t => Some t | None => analysis_text wk end.
Proof.
  unfold walk_part, long_text.
  destruct (text part) as [t|];
    [destruct (str_truthy t && str_truthy (strip t)
               && (10 <? String.length (strip t))%nat)|];
    case_matches; reflexivity.
Qed.

Lemma fold_walk_text ps wk :
  analysis_text (fold_left walk_part ps wk)
  = match last (omap long_text ps) with Some t => Some t | None => analysis_text wk end.
Proof.
  revert wk. induction ps as [|part ps IH]; intros wk; [reflexivity|].
  cbn [fold_left omap list_omap]. rewrite IH, walk_part_text.
  destruct (long_text part) as [t|]; [|reflexivity].
  rewrite last_cons. destruct (last (omap long_text ps)); reflexivity.
Qed.

Lemma walk_candidates_text cs wk wk' :
  walk_candidates cs wk = Return wk' ->
  analysis_text wk'
  = match last (omap long_text (all_parts cs)) with
    | Some t => Some t
    | None => analysis_text wk
    end.
Proof.
  revert wk. induction cs as [|candidate cs IH]; intros wk Hw.
  - cbn in Hw. injection Hw as <-. reflexivity.
  - unfold all_parts. cbn [map concat]. fold (all_parts cs).
    rewrite omap_app, last_app. cbn [walk_candidates] in Hw. unfold parts_of.
    destruct (content candidate) as [c|].
    + destruct (parts c) as [ps|]; [|discriminate Hw].
      rewrite (IH _ Hw), fold_walk_text. cbn [default from_option id].
      destruct (last (omap long_text (all_parts cs))); reflexivity.
    + rewrite (IH _ Hw). cbn [omap list_omap last].
      destruct (last (omap long_text (all_parts cs))); reflexivity.
Qed.

Lemma long_text_truthy part t : long_text part = Some t -> str_truthy t = true.
Proof.
  unfold long_text. destruct (text part) as [t0|]; [|discriminate].
  destruct (str_truthy t0); [|discriminate].
  destruct (str_truthy (strip t0)) eqn:E; [|discriminate].
  cbn [andb]. destruct (10 <? String.length (strip t0))%nat; [|discriminate].
  intros [= <-]. exact E.
Qed.

(** The line the parser logs for a walk that ends in [wk]. *)
Lemma commentary_logged response wk s :
  walk_candidates (candidates_of response) initial_walk = Return wk ->
  (if opt_truthy str_truthy (analysis_text wk)
   then _append_chat_log (Txt (default "" (analysis_text wk))) Nano s
   else _append_chat_log (Txt "Image generated successfully!") Nano s)
  = set_chat_log (chat_log s ++ [commentary_line response]) s.
Proof.
  intros Hw. rewrite (walk_candidates_text _ _ _ Hw).
  unfold commentary_line, commentary. cbn [analysis_text initial_walk].
  destruct (last (omap long_text (all_parts (candidates_of response)))) as [t|] eqn:El.
  - apply last_Some_elem_of in El. apply list_elem_of_omap in El as (part & _ & El).
    cbn [opt_truthy]. rewrite (long_text_truthy _ _ El). reflexivity.
  - reflexivity.
Qed.

Lemma usage_phase_quiet response s :
  usage_ok response = true ->
  exists cost tokens, usage_phase response false s = (Return (cost, tokens), s).
Proof.
  unfold usage_ok, usage_phase, _calculate_generation_cost. intros H.
  destruct (usage_metadata response) as [u|]; [|eauto].
  destruct (prompt_token_count u) as [i|]; [|discriminate].
  destruct (candidates_token_count u) as [o|]; [|discriminate].
  destruct (truediv i 1000000); [|discriminate].
  destruct (truediv o 1000000); [|discriminate]. eauto.
Qed.

(** The parser as its two callers use it, without the usage lines: the form
    on which the image is saved, or its absence reported, differs from the
    form it was given by the commentary in the log and the reply in the
    history. *)
Lemma process_response_commentary response dir vp w s :
  parts_present (candidates_of response) = true ->
  usage_ok response = true ->
  exists s3 cost tokens,
    usage_phase response false s = (Return (cost, tokens), s)
    /\ chat_log s3 = (chat_log s ++ [commentary_line response])%list
    /\ Prompt_history s3 = (Prompt_history s ++ reply_turn response)%list
    /\ same_controls s s3
    /\ same_results s s3
    /\ _process_response response dir vp false w s
       = match selected_image response with
         | Some img => save_image response dir vp false w cost tokens img s3
         | None => _append_chat_log no_image_error System s3
         end.
Proof.
  intros Hp Hu.
  destruct (usage_phase_quiet response s Hu) as (cost & tokens & Hus).
  destruct (walk_candidates_img (candidates_of response) initial_walk Hp)
    as (wk & Hw & Hi).
  cbn [img_bytes initial_walk] in Hi.
  unfold _process_response. rewrite Hus, Hw, (commentary_logged response wk s Hw).
  set (s2 := set_chat_log (chat_log s ++ [commentary_line response]) s).
  exists (store_reply response s2), cost, tokens.
  destruct (store_reply_frame response s2) as (_ & _ & _ & _ & _ & Hlog).
  destruct (store_reply_keeps response s2) as (Hc & Hr).
  rewrite store_reply_history.
  split; [reflexivity|].
  split; [rewrite Hlog; reflexivity|]. split; [reflexivity|].
  split; [exact Hc|]. split; [exact Hr|].
  unfold selected_image. rewrite Hi.
  destruct (last (inline_images (candidates_of response))) as [img|] eqn:El.
  - pose proof (last_inline_truthy _ _ El) as Ht.
    cbn [opt_truthy]. rewrite Ht. destruct img; [discriminate Ht|reflexivity].
  - cbn [opt_truthy].
    destruct (fallback_candidates_first (candidates_of response) None Hp eq_refl)
      as (found & Hfb & Hfu).
    rewrite Hfb, <- Hfu. destruct found as [[|b d]|]; reflexivity.
Qed.

Lemma track_usage_log tokens cost w s :
  exists rest,
    chat_log (_track_cumulative_usage tokens cost false w s) = (chat_log s ++ rest)%list.
Proof.
  unfold _track_cumulative_usage, track_failed. case_matches; attrs;
    first [exists []; rewrite app_nil_r; reflexivity | eexists; reflexivity].
Qed.

Lemma save_image_log response dir vp w cost tokens img s :
  exists rest,
    chat_log (save_image response dir vp false w cost tokens img s)
    = (chat_log s ++ rest)%list.
Proof.
  unfold save_image, process_failed.
  destruct (write_error w); [eexists; reflexivity|].
  set (s2 := if vp then _ else _).
  assert (H2 : chat_log s2 = chat_log s).
  { subst s2. case_matches; reflexivity. }
  clearbody s2. rewrite <- H2.
  destruct (usage_metadata response); [destruct tokens as [t|]; [destruct (0 <? t)|]|];
    first [apply track_usage_log | eexists; reflexivity].
Qed.

Lemma usage_phase_fails_quiet response s :
  usage_ok response = false ->
  exists e, usage_phase response false s = (Raise e, s).
Proof.
  unfold usage_ok, usage_phase, _calculate_generation_cost. intros H.
  destruct (usage_metadata response) as [u|]; [|discriminate].
  destruct (prompt_token_count u) as [i|]; [|destruct (candidates_token_count u); eauto].
  destruct (candidates_token_count u) as [o|];
    [|destruct (truediv i 1000000); eauto].
  destruct (truediv i 1000000); [|eauto].
  destruct (truediv o 1000000); [discriminate|eauto].
Qed.

(** X12. The commentary.  On a response whose parts can be walked, when
    the usage metadata is absent or carries token counts that can be divided,
    the handlers log as commentary the last text of more than ten characters
    (stripped) over all parts of all candidates, and the line "Image generated
    successfully!" when there is none; this line is logged before the image
    is looked for, so that a reply without any image logs it as well,
    followed by the error.  When the usage metadata lacks a token count, or
    holds one too large to be divided, the parser fails before the walk: no
    commentary is logged, only "Failed to process response: " and the
    error. *)
Theorem commentary_policy response dir vp w s :
  parts_present (candidates_of response) = true ->
  let s' := _process_response response dir vp false w s in
  (if usage_ok response then
     (exists rest, chat_log s' = (chat_log s ++ commentary_line response :: rest)%list)
     /\ (selected_image response = None ->
         chat_log s'
         = (chat_log s ++ [commentary_line response; (System, no_image_error)])%list)
   else
     exists e,
       chat_log s'
       = (chat_log s ++ [(System, Txt ("Failed to process response: " ++ e))])%list)
  /\ (commentary response = None ->
      commentary_line response = (Nano, Txt "Image generated successfully!"))
  /\ (forall t, commentary response = Some t ->
        commentary_line response = (Nano, Txt t)
        /\ (10 < String.length t)%nat
        /\ exists part text_content,
             part ∈ all_parts (candidates_of response)
             /\ text part = Some text_content /\ t = strip text_content).
Proof.
  intros Hp. cbv zeta.
  split.
  { destruct (usage_ok response) eqn:Hu.
    2: { destruct (usage_phase_fails_quiet response s Hu) as (e & Hus).
         exists e. unfold _process_response, process_failed. rewrite Hus. reflexivity. }
    destruct (process_response_commentary response dir vp w s Hp Hu)
      as (s3 & cost & tokens & Hus3 & Hlog & _ & _ & _ & Heq).
    split.
    - rewrite Heq. destruct (selected_image response) as [img|].
      + destruct (save_image_log response dir vp w cost tokens img s3) as (rest & Hr).
        exists rest. rewrite Hr, Hlog, <- app_assoc. reflexivity.
      + exists [(System, no_image_error)]. attrs. rewrite Hlog, <- app_assoc.
        reflexivity.
    - intros Hnone. rewrite Heq, Hnone. attrs. rewrite Hlog, <- app_assoc.
      reflexivity. }
  split.
  { intros Hnone. unfold commentary_line. rewrite Hnone. reflexivity. }
  intros t Ht. split; [unfold commentary_line; rewrite Ht; reflexivity|].
  unfold commentary in Ht. apply last_Some_elem_of in Ht.
  apply list_elem_of_omap in Ht as (part & Hin & Hl).
  unfold long_text in Hl. destruct (text part) as [t0|] eqn:Et; [|discriminate].
  destruct (str_truthy t0 && str_truthy (strip t0)); [|discriminate].
  cbn [andb] in Hl. destruct (10 <? String.length (strip t0))%nat eqn:E; [|discriminate].
  injection Hl as <-. split; [apply Nat.ltb_lt; exact E|].
  exists part, t0. repeat split; assumption.
Qed.

(** X13. When the file of the image cannot be written (the usage
    metadata being absent or carrying its token counts), the reply has
    already joined the history and the commentary the log; the error is
    logged as "Failed to process response: " followed by its message, and the
    remembered path, the reference image, the buttons, the counters of the
    session and the settings are what they were: the cost of the call is not
    tracked.  The files are what they were but for the output file: when it
    could be opened before the writing failed it has been created or
    truncated and holds what was written of it; when it could not be opened
    no file has changed. *)
Theorem write_failure_keeps_reply response dir vp w s img e :
  parts_present (candidates_of response) = true ->
  usage_ok response = true ->
  selected_image response = Some img ->
  write_error w = Some e ->
  let s' := _process_response response dir vp false w s in
  Prompt_history s' = (Prompt_history s ++ reply_turn response)%list
  /\ chat_log s'
     = (chat_log s ++ [commentary_line response;
                       (System, Txt ("Failed to process response: " ++ e))])%list
  /\ same_results_but_files s s'
  /\ fs s' = match write_leftover w with
             | Some content => <[output_path_of dir vp w := content]> (fs s)
             | None => fs s
             end
  /\ same_files_but [output_path_of dir vp w] s s'
  /\ same_controls s s'.
Proof.
  intros Hp Hu Hsel Hw. cbv zeta.
  destruct (process_response_commentary response dir vp w s Hp Hu)
    as (s3 & cost & tokens & Hus3 & Hlog & Hh & Hc & Hr & Heq).
  rewrite Heq, Hsel. unfold save_image. rewrite Hw. unfold process_failed.
  destruct Hr as (R1 & R2 & R3 & R4 & R5 & R6 & R7).
  split; [exact Hh|].
  split; [attrs; rewrite Hlog, <- app_assoc; reflexivity|].
  split; [repeat split; assumption|].
  assert (Hfs : fs (_append_chat_log (Txt ("Failed to process response: " ++ e)) System
                      (set_fs match write_leftover w with
                              | Some content => <[output_path_of dir vp w := content]> (fs s3)
                              | None => fs s3
                              end s3))
                = match write_leftover w with
                  | Some content => <[output_path_of dir vp w := content]> (fs s)
                  | None => fs s
                  end)
    by (attrs; rewrite R3; reflexivity).
  split; [exact Hfs|]. split; [|exact Hc].
  intros path Hpath. rewrite Hfs. destruct (write_leftover w); [|reflexivity].
  apply lookup_insert_ne. intros E. apply Hpath. rewrite <- E. left.
Qed.


(** ** The exits of a capture *)

Lemma update_prompt_state_enables s :
  _viewport_captured s = true -> prompt_tb_Enabled (_update_prompt_state s) = true.
Proof.
  unfold _update_prompt_state. intros ->. case_matches; reflexivity.
Qed.

(** A capture that gets as far as the API call, in terms of the form
    [request_sent] on which the answer arrives. *)
Lemma capture_with_reply w s png cam :
  reaches_api w s ->
  view w = Return (png, cam) ->
  _execute_capture_viewport w s
  = match api_reply w with
    | Raise e => capture_failed e (request_sent png cam s)
    | Return response =>
        _stop_timer
          (set_iterate_btn_Enabled true
             (set_generate_btn_Enabled true
                (_process_response response (output_folder_tb s) true false w
                   (request_sent png cam s))))
    end.
Proof.
  intros (Hk & Hd & Hi & Hc) Hv.
  assert (Hkey : api_key_of w (capture_started s) = api_key_of w s) by reflexivity.
  assert (Hout : output_folder_tb (request_sent png cam s) = output_folder_tb s).
  { unfold request_sent, request_built, view_stored. attrs.
    match goal with
    | |- context [_update_prompt_state ?x] =>
        destruct (update_prompt_state_frame x) as (_ & _ & _ & Ho & _)
    end.
    exact Ho. }
  assert (Hcalls : api_calls (request_built png cam s) = api_calls s).
  { unfold request_built, view_stored. attrs. prompt_state_frame. attrs. assumption. }
  destruct (api_reply w) as [response|e] eqn:Ha.
  - rewrite <- Hout.
    unfold _execute_capture_viewport, request_sent. rewrite <- Hcalls.
    unfold request_built, view_stored. fold (capture_started s).
    cbv zeta. rewrite Hkey, Hk, Hd, Hv, Hi, Hc, Ha. reflexivity.
  - unfold _execute_capture_viewport, request_sent. rewrite <- Hcalls.
    unfold request_built, view_stored. fold (capture_started s).
    cbv zeta. rewrite Hkey, Hk, Hd, Hv, Hi, Hc, Ha. reflexivity.
Qed.

(** The form on which the answer of the API arrives during a capture. *)
Lemma request_sent_facts png cam s :
  let s0 := request_sent png cam s in
  (_captured_viewport_bytes s0 = Some png
   /\ _viewport_captured s0 = true
   /\ _camera_info s0 = Some cam
   /\ Prompt_history s0 = [Some (capture_turn png cam)]
   /\ prompt_tb_Enabled s0 = true)
  /\ (generate_btn_Enabled s0 = generate_btn_Enabled s
      /\ iterate_btn_Enabled s0 = iterate_btn_Enabled s
      /\ _last_generated_image_path s0 = _last_generated_image_path s
      /\ show_generated_btn_Enabled s0 = show_generated_btn_Enabled s
      /\ fs s0 = fs s
      /\ session_tokens s0 = session_tokens s
      /\ session_cost s0 = session_cost s
      /\ settings s0 = settings s).
Proof.
  cbv zeta. unfold request_sent, request_built, view_stored, capture_started. attrs.
  match goal with
  | |- context [_update_prompt_state ?x] =>
      pose proof (update_prompt_state_enables x eq_refl) as Hen;
      pose proof (update_prompt_state_keeps x) as Hk;
      unfold same_results in Hk; cbv zeta in Hk;
      set (s1 := _update_prompt_state x) in *; clearbody s1; attrs;
      decompose [and] Hk; clear Hk
  end.
  split; repeat split; fin.
Qed.

Lemma save_image_reference response dir su w cost tokens img s :
  write_error w = None ->
  _captured_viewport_bytes (save_image response dir true su w cost tokens img s)
  = if bitmap_ok w || reload_ok w then Some img else _captured_viewport_bytes s.
Proof.
  intros Hw. unfold save_image, process_failed. rewrite Hw.
  set (s2 := if bitmap_ok w then _ else _).
  assert (H2 : _captured_viewport_bytes s2
               = if bitmap_ok w || reload_ok w then Some img
                 else _captured_viewport_bytes s).
  { subst s2. destruct (bitmap_ok w); [reflexivity|]. attrs.
    rewrite lookup_insert_eq. destruct (reload_ok w); reflexivity. }
  clearbody s2. rewrite <- H2.
  destruct (usage_metadata response); [destruct tokens as [t|]; [destruct (0 <? t)|]|];
    first [exact (proj1 (proj2 (proj2 (proj2 (proj2
                   (track_usage_frame _ cost su w s2))))))
          | reflexivity].
Qed.

(** X14. A capture that cannot take the picture.  When
    [capture_active_view_shaded] raises, the reference image, the captured
    flag, the camera information, the results and the buttons are what they
    were, nothing is sent, the error is logged and the timer stopped; but the
    history has already been purged and [_first_capture] cleared. *)
Theorem capture_failure_purges_history w s e :
  str_truthy (api_key_of w s) = true ->
  (if dir_exists w then None else mkdir_error w) = None ->
  view w = Raise e ->
  let s' := _execute_capture_viewport w s in
  Prompt_history s' = []
  /\ _first_capture s' = false
  /\ _captured_viewport_bytes s' = _captured_viewport_bytes s
  /\ _viewport_captured s' = _viewport_captured s
  /\ _camera_info s' = _camera_info s
  /\ same_results s s'
  /\ generate_btn_Enabled s' = generate_btn_Enabled s
  /\ iterate_btn_Enabled s' = iterate_btn_Enabled s
  /\ api_calls s' = api_calls s
  /\ chat_log s'
     = (chat_log s ++ [(System, Txt ("Failed to capture and process viewport: " ++ e))])%list
  /\ timer_running s' = false.
Proof.
  intros Hk Hd Hv. cbv zeta.
  assert (Hkey : api_key_of w (capture_started s) = api_key_of w s) by reflexivity.
  unfold _execute_capture_viewport, capture_failed. fold (capture_started s).
  cbv zeta. rewrite Hkey, Hk, Hd, Hv. unfold capture_started. attrs.
  repeat split.
Qed.

(** X15. A capture whose API call raises.  The picture taken stays as the
    reference image with the captured flag, the camera information is stored
    and the prompt box enabled; the history is the request turn alone; the
    Generate and Iterate buttons, the results and the counters are what they
    were; the error is logged and the timer stopped.  When the picture is not
    empty [on_generate] will accept it as reference. *)
Theorem capture_api_failure w s png cam e :
  reaches_api w s ->
  view w = Return (png, cam) ->
  api_reply w = Raise e ->
  let s' := _execute_capture_viewport w s in
  _captured_viewport_bytes s' = Some png
  /\ _viewport_captured s' = true
  /\ _camera_info s' = Some cam
  /\ Prompt_history s' = [Some (capture_turn png cam)]
  /\ prompt_tb_Enabled s' = true
  /\ generate_btn_Enabled s' = generate_btn_Enabled s
  /\ iterate_btn_Enabled s' = iterate_btn_Enabled s
  /\ _last_generated_image_path s' = _last_generated_image_path s
  /\ fs s' = fs s
  /\ session_tokens s' = session_tokens s
  /\ session_cost s' = session_cost s
  /\ last (chat_log s')
     = Some (System, Txt ("Failed to capture and process viewport: " ++ e))
  /\ timer_running s' = false
  /\ (bytes_truthy png = true -> captured_reference s' = Some png).
Proof.
  intros Hreach Hv Ha. cbv zeta.
  rewrite (capture_with_reply w s png cam Hreach Hv), Ha.
  destruct (request_sent_facts png cam s)
    as ((Hb & Hc & Hcam & Hh & Hen) & (Hg & Hi & Hp & _ & Hf & Ht & Hco & _)).
  set (s0 := request_sent png cam s) in *. clearbody s0.
  unfold capture_failed, captured_reference. attrs. rewrite last_snoc, Hb, Hc.
  repeat split; try assumption. intros ->. reflexivity.
Qed.

(** X16. A capture that is answered by a reply whose parts can be walked.
    In every case the captured flag is set, the camera information stored,
    the Generate and Iterate buttons enabled and the timer stopped.  When the
    usage metadata is absent or carries token counts that can be divided, the
    history is the request turn followed by the reply, and: if the reply
    carries an image and its file is written, the reference becomes that
    image provided it can be shown as a bitmap (directly, or read back from
    the file), and stays the picture of the viewport otherwise; if the file
    cannot be written, the reference is the picture of the viewport, the
    failure is the last line of the log and no new result is remembered; if
    the reply carries no image, the reference is the picture of the viewport,
    the error is the last line of the log, no new result is remembered and no
    file is written.  When the usage metadata lacks a token count (or holds
    one too large to be divided), the parser fails at once: the history is
    the request turn alone, the reference is the picture of the viewport, the
    failure is the last line of the log, and the remembered result and the
    files are what they were. *)
Theorem capture_reference_after_reply w s png cam response :
  reaches_api w s ->
  view w = Return (png, cam) ->
  api_reply w = Return response ->
  parts_present (candidates_of response) = true ->
  let s' := _execute_capture_viewport w s in
  (_viewport_captured s' = true
   /\ _camera_info s' = Some cam
   /\ generate_btn_Enabled s' = true
   /\ iterate_btn_Enabled s' = true
   /\ timer_running s' = false)
  /\ (if usage_ok response then
        Prompt_history s' = Some (capture_turn png cam) :: reply_turn response
        /\ match selected_image response, write_error w with
           | Some img, None =>
               _captured_viewport_bytes s'
               = Some (if bitmap_ok w || reload_ok w then img else png)
           | Some img, Some e =>
               _captured_viewport_bytes s' = Some png
               /\ last (chat_log s')
                  = Some (System, Txt ("Failed to process response: " ++ e))
               /\ _last_generated_image_path s' = _last_generated_image_path s
           | None, _ =>
               _captured_viewport_bytes s' = Some png
               /\ last (chat_log s') = Some (System, no_image_error)
               /\ _last_generated_image_path s' = _last_generated_image_path s
               /\ fs s' = fs s
           end
      else
        Prompt_history s' = [Some (capture_turn png cam)]
        /\ _captured_viewport_bytes s' = Some png
        /\ (exists e,
              last (chat_log s')
              = Some (System, Txt ("Failed to process response: " ++ e)))
        /\ _last_generated_image_path s' = _last_generated_image_path s
        /\ fs s' = fs s).
Proof.
  intros Hreach Hv Ha Hp. cbv zeta.
  rewrite (capture_with_reply w s png cam Hreach Hv), Ha.
  destruct (request_sent_facts png cam s)
    as ((Hb & Hc & Hcam & Hh & _) & (_ & _ & Hpath & _ & Hf & _)).
  set (s0 := request_sent png cam s) in *. clearbody s0.
  destruct (process_response_keeps response (output_folder_tb s) true false w s0)
    as ((_ & _ & _ & _ & _ & _ & _ & _ & _ & _ & Kcam & Kcap & _) & _).
  attrs. rewrite Kcam, Kcap.
  split; [repeat split; assumption|].
  destruct (usage_ok response) eqn:Hu.
  2: { destruct (process_response_usage_fails response (output_folder_tb s) true false
                   w s0 Hu) as (He & Hl' & Hf' & Hh' & Hb' & _).
       rewrite Hh', Hh, Hb', Hb, Hl', Hpath, Hf', Hf. repeat split. exact He. }
  destruct (process_response_commentary response (output_folder_tb s) true w s0 Hp Hu)
    as (s3 & cost & tokens & Hus3 & _ & Hh3 & _ & Hr3 & Heq).
  destruct Hr3 as (Hp3 & _ & Hf3 & Hb3 & _).
  split.
  { rewrite Heq. destruct (selected_image response) as [img|].
    - rewrite (proj2 (save_image_frame _ _ _ _ _ _ _ _ _)), Hh3, Hh. reflexivity.
    - attrs. rewrite Hh3, Hh. reflexivity. }
  rewrite Heq. destruct (selected_image response) as [img|].
  - destruct (write_error w) as [e|] eqn:Hw.
    + unfold save_image, process_failed. rewrite Hw. attrs. rewrite last_snoc.
      repeat split; congruence.
    + rewrite (save_image_reference _ _ _ _ _ _ _ _ Hw), Hb3, Hb.
      destruct (bitmap_ok w || reload_ok w); reflexivity.
  - assert (Hnone : _captured_viewport_bytes (_append_chat_log no_image_error System s3)
                    = Some png
                    /\ last (chat_log (_append_chat_log no_image_error System s3))
                       = Some (System, no_image_error)
                    /\ _last_generated_image_path (_append_chat_log no_image_error System s3)
                       = _last_generated_image_path s
                    /\ fs (_append_chat_log no_image_error System s3) = fs s).
    { attrs. rewrite last_snoc. repeat split; congruence. }
    destruct (write_error w); exact Hnone.
Qed.

(** ** The settings *)

(** X17. What is stored in the settings, and when.  A Generate that passes
    its two checks stores the text of the key box, the output folder and the
    prompt (nothing for the prompt while the placeholder is shown), whatever
    happens afterwards; a capture leaves these three entries alone. *)
Theorem generate_saves_settings :
  (forall w s reference,
     captured_reference s = Some reference ->
     str_truthy (api_key_of w s) = true ->
     let s' := on_generate w s in
     settings s' !! "api_key" = Some (JStr (api_key_tb s))
     /\ settings s' !! "output_folder" = Some (JStr (output_folder_tb s))
     /\ settings s' !! "prompt"
        = Some (JStr (if _prompt_placeholder_active s then "" else prompt_tb_Text s)))
  /\ (forall w s, same_saved_entries s (on_capture_viewport w s)).
Proof.
  split.
  - intros w s reference Hr Hk. cbv zeta.
    assert (Hsaved : settings (prompt_logged w s) !! "api_key" = Some (JStr (api_key_tb s))
                     /\ settings (prompt_logged w s) !! "output_folder"
                        = Some (JStr (output_folder_tb s))
                     /\ settings (prompt_logged w s) !! "prompt"
                        = Some (JStr (if _prompt_placeholder_active s then ""
                                      else prompt_tb_Text s))).
    { unfold prompt_logged, _save_current_settings. attrs.
      rewrite lookup_insert_eq. rewrite !lookup_insert_ne by done.
      rewrite !lookup_insert_eq. rewrite lookup_insert_ne by done.
      rewrite lookup_insert_eq. repeat split. }
    destruct (generate_cases w s)
      as [(Hn & _)|[(Hn & _)|[(m & ->)|[(reference' & e & _ & _ & _ & ->)
         |(reference' & response & _ & _ & _ & ->)]]]]; [congruence|congruence|..].
    + exact Hsaved.
    + exact Hsaved.
    + destruct (process_response_keeps response (output_folder_tb s) false false w
                  (before_reply w s reference')) as (_ & (H1 & H2 & H3) & _).
      attrs. rewrite H1, H2, H3. exact Hsaved.
  - intros w s. destruct (capture_handler_cases w s) as [->| ->];
      [apply same_saved_entries_refl|].
    destruct (capture_cases w s)
      as [(m & _ & ->)|[(png & cam & m & _ & ->)|[(png & cam & e & _ & ->)
         |[(png & cam & e & _ & _ & _ & ->)|(png & cam & response & _ & _ & _ & ->)]]]].
    + repeat split.
    + unfold view_stored, capture_started, same_saved_entries. prompt_state_keeps.
      repeat split; congruence.
    + unfold capture_failed, request_built, view_stored, capture_started,
        same_saved_entries.
      prompt_state_keeps. repeat split; congruence.
    + destruct (request_sent_facts png cam s) as (_ & (_ & _ & _ & _ & _ & _ & _ & Hs)).
      unfold capture_failed, same_saved_entries. attrs. rewrite Hs. repeat split.
    + destruct (request_sent_facts png cam s) as (_ & (_ & _ & _ & _ & _ & _ & _ & Hs)).
      destruct (process_response_keeps response (output_folder_tb s) true false w
                  (request_sent png cam s)) as (_ & (H1 & H2 & H3) & _).
      unfold same_saved_entries. attrs. rewrite H1, H2, H3, Hs. repeat split.
Qed.


(** ** Usage *)

Lemma save_image_tokens response dir vp su w cost tokens img s :
  write_error w = None ->
  session_tokens (save_image response dir vp su w cost tokens img s)
  = session_tokens s
    + match usage_metadata response, tokens with
      | Some _, Some t => Z.max t 0
      | _, _ => 0
      end.
Proof.
  intros Hw. unfold save_image, process_failed. rewrite Hw.
  set (s2 := if vp then _ else _).
  assert (H2 : session_tokens s2 = session_tokens s).
  { subst s2. case_matches; reflexivity. }
  clearbody s2. rewrite <- H2.
  destruct (usage_metadata response);
    [destruct tokens as [t|]; [destruct (0 <? t) eqn:E|]|];
    try rewrite (proj1 (proj2 (proj2 (track_usage_keeps _ cost su w s2))));
    attrs; lia.
Qed.

(** X18. What a reply adds to the counters of the session.  With an image
    that is saved, the token counter grows by the total token count of the
    usage metadata when that is positive, and by nothing otherwise: not when
    the count is zero, negative or absent, and not when there is no usage
    metadata, although 1290 tokens are then estimated for the image.  Without
    an image nothing is counted at all: tokens, cost and settings are what
    they were. *)
Theorem usage_counted_only_with_image response dir vp w s :
  parts_present (candidates_of response) = true ->
  usage_ok response = true ->
  let s' := _process_response response dir vp false w s in
  (forall img,
     selected_image response = Some img -> write_error w = None ->
     session_tokens s'
     = session_tokens s
       + match usage_metadata response with
         | Some u => match total_token_count u with Some t => Z.max t 0 | None => 0 end
         | None => 0
         end)
  /\ (selected_image response = None ->
      session_tokens s' = session_tokens s
      /\ session_cost s' = session_cost s
      /\ settings s' = settings s).
Proof.
  intros Hp Hu. cbv zeta.
  destruct (process_response_commentary response dir vp w s Hp Hu)
    as (s3 & cost & tokens & Hus3 & _ & _ & _ & Hr & Heq).
  destruct Hr as (_ & _ & _ & _ & Ht & Hc & Hs).
  split.
  - intros img Hsel Hw. rewrite Heq, Hsel, (save_image_tokens _ _ _ _ _ _ _ _ _ Hw), Ht.
    f_equal. unfold usage_phase in Hus3.
    destruct (usage_metadata response) as [u|]; [|reflexivity].
    destruct (prompt_token_count u) as [i|]; [|discriminate].
    destruct (candidates_token_count u);
      [|destruct (truediv i 1000000); discriminate].
    destruct (_calculate_generation_cost _ _ None); [|discriminate].
    injection Hus3 as _ <-. reflexivity.
  - intros Hnone. rewrite Heq, Hnone. attrs. repeat split; assumption.
Qed.

(** X19. The totals kept in the settings.  [_track_cumulative_usage] always
    adds to the counters of the session.  With numbers under
    "total_tokens_used" and "total_cost" (or nothing, which counts as 0) it
    adds to both and stores the date; with a text under "total_tokens_used"
    it logs the failure and leaves the settings alone; with a text under
    "total_cost" only, the token total has already been updated when the
    failure is logged. *)
Theorem lifetime_totals tokens cost show w s :
  let s' := _track_cumulative_usage tokens cost show w s in
  session_tokens s' = session_tokens s + tokens
  /\ session_cost s' = (session_cost s + cost)%float
  /\ (forall a f,
        default (JInt 0) (settings s !! "total_tokens_used") = JInt a ->
        default (JFloat 0.0) (settings s !! "total_cost") = JFloat f ->
        settings s' !! "total_tokens_used" = Some (JInt (a + tokens))
        /\ settings s' !! "total_cost" = Some (JFloat (f + cost)%float)
        /\ settings s' !! "last_generation_date" = Some (JStr (generation_date w)))
  /\ (forall t,
        settings s !! "total_tokens_used" = Some (JStr t) ->
        settings s' = settings s
        /\ exists e, last (chat_log s') = Some (System, Txt ("Failed to track usage: " ++ e)))
  /\ (forall a t,
        settings s !! "total_tokens_used" = Some (JInt a) ->
        settings s !! "total_cost" = Some (JStr t) ->
        settings s' = <["total_tokens_used" := JInt (a + tokens)]> (settings s)
        /\ exists e, last (chat_log s') = Some (System, Txt ("Failed to track usage: " ++ e))).
Proof.
  cbv zeta.
  split; [exact (proj1 (proj2 (proj2 (track_usage_keeps tokens cost show w s))))|].
  split; [exact (proj2 (proj2 (proj2 (proj2 (proj2
                   (track_usage_frame tokens cost show w s))))))|].
  unfold _track_cumulative_usage, track_failed. attrs.
  split.
  { intros a f Ha Hf. rewrite Ha, Hf. cbn [add_int add_float].
    destruct show; attrs;
      rewrite lookup_insert_eq; rewrite !lookup_insert_ne by done;
      rewrite !lookup_insert_eq; rewrite lookup_insert_ne by done;
      rewrite lookup_insert_eq; repeat split. }
  split.
  { intros t Ht. rewrite Ht. cbn [default from_option id add_int]. attrs.
    split; [reflexivity|]. eexists. rewrite last_snoc. reflexivity. }
  intros a t Ha Ht. rewrite Ha, Ht. cbn [default from_option id add_int add_float]. attrs.
  split; [reflexivity|]. eexists. rewrite last_snoc. reflexivity.
Qed.


(** ** File names, data URIs, and the Iterate button *)

Lemma append_cancel_l (a b c : string) : a ++ b = a ++ c -> b = c.
Proof.
  induction a as [|ch a IH]; [intros H; exact H|].
  cbn. intros H. injection H as H. exact (IH H).
Qed.

Lemma output_paths_differ dir w1 w2 :
  output_path_of dir true w1 <> output_path_of dir false w2.
Proof.
  unfold output_path_of. intros H. apply append_cancel_l in H. discriminate H.
Qed.

Lemma files_kept_elsewhere out path s s' :
  files_kept out s s' -> path <> out -> path <> SETTINGS_FILE ->
  fs s' !! path = fs s !! path.
Proof.
  intros (Hsame & _) H1 H2. apply Hsame.
  intros Hin. apply elem_of_cons in Hin as [Hin|Hin]; [exact (H1 Hin)|].
  apply list_elem_of_singleton in Hin. exact (H2 Hin).
Qed.

(** X20. The file name tells a result of a capture from a result of
    Generate: whatever [pathlib] puts before the file name for the output
    folder, the two never share a path in one folder, so that a Generate
    leaves every capture result as it is, and a capture every Generate
    result. *)
Theorem capture_and_generate_results_apart :
  (forall dir w1 w2, output_path_of dir true w1 <> output_path_of dir false w2)
  /\ (forall w s w1,
        fs (on_generate w s) !! output_path_of (output_folder_tb s) true w1
        = fs s !! output_path_of (output_folder_tb s) true w1)
  /\ (forall w s w1,
        fs (on_capture_viewport w s) !! output_path_of (output_folder_tb s) false w1
        = fs s !! output_path_of (output_folder_tb s) false w1).
Proof.
  split; [exact output_paths_differ|]. split.
  - intros w s w1.
    destruct (generate_summary w s)
      as (_ & _ & _ & [(_ & _ & Hkept)|(img & _ & _ & _ & Hkept)] & _);
      apply (files_kept_elsewhere _ _ _ _ Hkept);
      first [apply output_paths_differ | apply output_path_not_settings].
  - intros w s w1. destruct (capture_handler_cases w s) as [->| ->]; [reflexivity|].
    destruct (capture_summary w s)
      as (_ & _ & _ & _ & [(_ & _ & Hkept)|(img & _ & _ & _ & Hkept)] & _);
      apply (files_kept_elsewhere _ _ _ _ Hkept);
      first [ intros H; exact (output_paths_differ _ _ _ (eq_sym H))
            | apply output_path_not_settings ].
Qed.

Lemma split_comma_app mid rest :
  split_comma_1 mid = None -> split_comma_1 (mid ++ "," ++ rest) = Some rest.
Proof.
  induction mid as [|c mid IH]; [reflexivity|].
  change (String c mid ++ "," ++ rest) with (String c (mid ++ "," ++ rest)).
  cbn [split_comma_1]. destruct (Ascii.eqb c ","); [discriminate|exact IH].
Qed.

Lemma startswith_app p s : startswith (p ++ s) p = true.
Proof.
  unfold startswith. induction p as [|a p IH]; [destruct s; reflexivity|].
  change (String a p ++ s) with (String a (p ++ s)). cbn [String.prefix].
  destruct (ascii_dec a a) as [_|Hne]; [exact IH|destruct (Hne eq_refl)].
Qed.

(** X21. The data URI of the fallback.  A text part that, stripped, reads
    [data:image], anything without a comma, a comma, and a payload, yields
    the decoded payload when it decodes, and the loop over the parts stops
    there; when the payload does not decode, the part is skipped and the loop
    goes on with the parts after it. *)
Theorem data_uri_decodes part rest img text_content mid payload :
  text part = Some text_content ->
  strip text_content = "data:image" ++ mid ++ "," ++ payload ->
  split_comma_1 mid = None ->
  fallback_parts (part :: rest) img
  = match b64decode payload with
    | Return d => Some d
    | Raise _ => fallback_parts rest img
    end.
Proof.
  intros Ht Hs Hmid. cbn [fallback_parts]. rewrite Ht, Hs.
  assert (Htruthy : str_truthy text_content = true).
  { destruct text_content; [discriminate Hs|reflexivity]. }
  rewrite Htruthy.
  rewrite startswith_app. cbn [andb].
  change (split_comma_1 ("data:image" ++ mid ++ "," ++ payload))
    with (split_comma_1 (mid ++ "," ++ payload)).
  rewrite (split_comma_app mid payload Hmid). reflexivity.
Qed.

(** X22. The Iterate button.  An Iterate that succeeds disables its button
    and doing it again changes nothing more; a Generate that receives a reply
    enables the button whatever the reply holds, with or without an image. *)
Theorem iterate_button_policy :
  (forall s file png,
     last_generated_file s = Some file ->
     load_png file = Return png ->
     iterate_btn_Enabled (on_iterate s) = false
     /\ on_iterate (on_iterate s) = on_iterate s)
  /\ (forall w s reference response,
        captured_reference s = Some reference ->
        reaches_api w s ->
        api_reply w = Return response ->
        iterate_btn_Enabled (on_generate w s) = true).
Proof.
  split.
  - intros s file png Hf Hl.
    assert (Hfirst : on_iterate s
                     = set_viewport_captured true
                         (set_iterate_btn_Enabled false
                            (if negb (_prompt_ever_focused s)
                             then set_prompt_placeholder_active true
                                    (set_prompt_tb_Text _prompt_placeholder_text
                                       (set_captured_viewport_bytes (Some png) s))
                             else set_prompt_placeholder_active false
                                    (set_prompt_tb_Text ""
                                       (set_captured_viewport_bytes (Some png) s))))).
    { unfold on_iterate. rewrite Hf, Hl. reflexivity. }
    rewrite Hfirst. split; [reflexivity|].
    unfold on_iterate at 1.
    assert (Hfile : forall s0, _last_generated_image_path s0 = _last_generated_image_path s ->
                               fs s0 = fs s -> last_generated_file s0 = Some file).
    { intros s0 Hp Hfs. rewrite (last_generated_file_same s s0 Hp Hfs). exact Hf. }
    destruct (_prompt_ever_focused s) eqn:He; cbn [negb];
      (rewrite Hfile by reflexivity); rewrite Hl; attrs; rewrite He; reflexivity.
  - intros w s reference response Hr Hreach Ha.
    destruct (generate_reaches_api w s reference Hr Hreach) as (s0 & _ & _ & _ & _ & _ & _ & Heq).
    rewrite Heq, Ha. reflexivity.
Qed.


(** ** The camera *)

Ltac lookups :=
  repeat first [rewrite lookup_insert_eq | rewrite lookup_insert_ne by done].

Lemma extract_camera_info_with_info viewport info :
  ViewportInfo viewport = Some (Some info) ->
  extract_camera_info viewport
  = let type :=
      if default false (IsPerspectiveProjection info) then "perspective"
      else if default false (IsParallelProjection info) then "parallel"
      else "unknown" in
    let camera_info : gmap string string := <["type" := type]> ∅ in
    let camera_info :=
      match Camera35mmLensLength info with
      | Some lens_length =>
          if String.eqb type "perspective"
          then <["lens_type" := lens_type_of lens_length]>
                 (<["lens_length" := format_1f lens_length ++ "mm"]> camera_info)
          else <["lens_type" := "orthographic"]>
                 (<["lens_length" := "N/A (parallel projection)"]> camera_info)
      | None =>
          <["lens_type" := "orthographic"]>
            (<["lens_length" := "N/A (parallel projection)"]> camera_info)
      end in
    match CameraAngle info with
    | Some fov_radians => <["field_of_view" := field_of_view_of fov_radians]> camera_info
    | None => camera_info
    end.
Proof. unfold extract_camera_info. intros ->. reflexivity. Qed.

Lemma extract_camera_info_non_empty viewport : extract_camera_info viewport <> ∅.
Proof.
  unfold extract_camera_info.
  destruct (match ViewportInfo viewport with
            | Some v => v
            | None => match GetViewportInfo viewport with Some v => v | None => None end
            end) as [info|].
  - cbv zeta. case_matches; apply insert_non_empty.
  - cbv zeta. destruct (bool_decide _) eqn:E.
    + apply insert_non_empty.
    + apply bool_decide_eq_false in E. exact E.
Qed.

Lemma mm_not_na (F : string) : F ++ "mm" <> "N/A (parallel projection)".
Proof.
  intros H.
  do 23 (destruct F as [|? F]; [discriminate H|]; injection H as _ H).
  destruct F as [|? F]; [discriminate H|]; injection H as _ H.
  destruct F as [|? F]; [discriminate H|]; injection H as _ H.
  destruct F as [|? F]; discriminate H.
Qed.

Lemma lens_length_not_na (F : string) :
  bool_decide (Some (F ++ "mm") = Some "N/A (parallel projection)") = false.
Proof. apply bool_decide_eq_false. intros [= H]. exact (mm_not_na F H). Qed.

(** X23. From the camera of the viewport to the words of the request.  A
    viewport that gives its [ViewportInfo] is described to the model as
    follows.  A parallel projection: the log says orthographic, and the
    request says that the shot has no perspective distortion, whatever lens
    and angle the camera reports.  A perspective projection with a lens
    length: lens length, lens type and, when the camera has an angle, the field
    of view.  Neither of the two: no camera sentence in the request at all.
    In no case is the information empty. *)
Theorem camera_description viewport info :
  ViewportInfo viewport = Some (Some info) ->
  let camera_info := extract_camera_info viewport in
  camera_info <> ∅
  /\ (default false (IsPerspectiveProjection info) = false ->
      default false (IsParallelProjection info) = true ->
      camera_log_line camera_info = "Camera: orthographic"
      /\ _format_camera_info_for_prompt camera_info
         = "Camera settings: Shot with orthographic projection (no perspective distortion). ")
  /\ (default false (IsPerspectiveProjection info) = false ->
      default false (IsParallelProjection info) = false ->
      _format_camera_info_for_prompt camera_info = "")
  /\ (forall lens_length,
        default false (IsPerspectiveProjection info) = true ->
        Camera35mmLensLength info = Some lens_length ->
        CameraAngle info = None ->
        camera_log_line camera_info
        = "Camera: perspective, " ++ (format_1f lens_length ++ "mm") ++ " "
          ++ lens_type_of lens_length
        /\ _format_camera_info_for_prompt camera_info
           = "Camera settings: "
             ++ join ", " ["Shot with a " ++ (format_1f lens_length ++ "mm") ++ " "
                           ++ lens_type_of lens_length]
             ++ ". ")
  /\ (forall lens_length fov_radians,
        default false (IsPerspectiveProjection info) = true ->
        Camera35mmLensLength info = Some lens_length ->
        CameraAngle info = Some fov_radians ->
        str_truthy (field_of_view_of fov_radians) = true ->
        _format_camera_info_for_prompt camera_info
        = "Camera settings: "
          ++ join ", " ["Shot with a " ++ (format_1f lens_length ++ "mm") ++ " "
                        ++ lens_type_of lens_length;
                        "field of view " ++ field_of_view_of fov_radians]
          ++ ". ").
Proof.
  intros Hinfo. cbv zeta.
  split; [apply extract_camera_info_non_empty|].
  rewrite (extract_camera_info_with_info viewport info Hinfo). cbv zeta.
  assert (Hne : forall ci : gmap string string,
             ci <> ∅ -> bool_decide (ci = ∅) = false)
    by (intros ci H; apply bool_decide_eq_false; exact H).
  split.
  { intros Hp Hq. rewrite Hp, Hq.
    unfold camera_log_line, _format_camera_info_for_prompt.
    destruct (Camera35mmLensLength info); destruct (CameraAngle info);
      cbn [String.eqb Ascii.eqb Bool.eqb];
      (rewrite Hne by apply insert_non_empty); lookups; split; reflexivity. }
  split.
  { intros Hp Hq. rewrite Hp, Hq.
    unfold _format_camera_info_for_prompt.
    destruct (Camera35mmLensLength info); destruct (CameraAngle info);
      cbn [String.eqb Ascii.eqb Bool.eqb];
      (rewrite Hne by apply insert_non_empty); lookups; reflexivity. }
  split.
  { intros lens_length Hp Hl Ha. rewrite Hp, Hl, Ha.
    unfold camera_log_line, _format_camera_info_for_prompt, get.
    cbn [String.eqb Ascii.eqb Bool.eqb].
    (rewrite Hne by apply insert_non_empty). lookups.
    rewrite lens_length_not_na, lookup_empty. split; reflexivity. }
  intros lens_length fov_radians Hp Hl Ha Hfov. rewrite Hp, Hl, Ha.
  unfold _format_camera_info_for_prompt, get.
  cbn [String.eqb Ascii.eqb Bool.eqb].
  (rewrite Hne by apply insert_non_empty). lookups.
  cbn [opt_truthy]. rewrite Hfov. lookups. reflexivity.
Qed.


(** ** Taking the picture *)

Lemma restore_curves_cons orig obj l :
  Forall (fun p : Z * bool => p.1 <> Id obj) orig ->
  restore_curves orig (obj :: l) = obj :: restore_curves orig l.
Proof.
  unfold restore_curves. revert l.
  induction orig as [|[obj_id was_visible] orig IH]; intros l Hall; [reflexivity|].
  apply Forall_cons in Hall as [Hne Hall]. cbn [fst] in Hne.
  cbn [fold_left restore_one].
  destruct (Id obj =? obj_id) eqn:E; [apply Z.eqb_eq in E; congruence|].
  apply IH, Hall.
Qed.

Lemma hide_curves_spec objs :
  hide_curves objs
  = (map (fun obj => (Id obj, Visible obj)) (filter (fun obj => is_curve obj = true) objs),
     map (fun obj => if is_curve obj then with_visible false obj else obj) objs).
Proof.
  induction objs as [|obj objs IH]; [reflexivity|].
  cbn [hide_curves]. rewrite IH. rewrite filter_cons. cbn [map].
  destruct obj as [id curve visible]. cbn [is_curve Visible Id].
  destruct curve; [|rewrite decide_False by discriminate; reflexivity].
  rewrite decide_True by reflexivity. destruct visible; reflexivity.
Qed.

Lemma hide_then_restore objs :
  NoDup (map Id objs) ->
  restore_curves (hide_curves objs).1 (hide_curves objs).2 = objs.
Proof.
  rewrite hide_curves_spec. cbn [fst snd].
  induction objs as [|obj objs IH]; [reflexivity|].
  cbn [map]. intros Hnd. apply NoDup_cons in Hnd as [Hnotin Hnd].
  assert (Hall : Forall (fun p : Z * bool => p.1 <> Id obj)
                   (map (fun obj => (Id obj, Visible obj))
                      (filter (fun obj => is_curve obj = true) objs))).
  { apply Forall_forall. intros p Hp.
    apply list_elem_of_fmap in Hp as (o & -> & Ho). cbn [fst].
    apply list_elem_of_filter in Ho as [_ Ho].
    intros Heq. apply Hnotin. rewrite <- Heq. apply list_elem_of_fmap. exists o.
    split; [reflexivity|exact Ho]. }
  rewrite filter_cons. destruct obj as [id curve visible]. cbn [is_curve].
  destruct curve.
  - rewrite decide_True by reflexivity. cbn [map Id Visible].
    unfold restore_curves at 1. cbn [fold_left restore_one with_visible Id Visible].
    rewrite Z.eqb_refl. fold (restore_curves
      (map (fun obj => (Id obj, Visible obj)) (filter (fun obj => is_curve obj = true) objs))).
    destruct visible; cbn [Bool.eqb with_visible Id is_curve Visible];
      rewrite (restore_curves_cons _ _ _ Hall), (IH Hnd); reflexivity.
  - rewrite decide_False by discriminate.
    rewrite (restore_curves_cons _ _ _ Hall), (IH Hnd). reflexivity.
Qed.

(** X24. Taking the picture leaves the document as it was.  Whatever the
    outcome of [capture_active_view_shaded] (a picture, or any of its four
    errors), every object has the visibility it had and the viewport the
    display mode it had, provided no two objects share an id. *)
Theorem capture_restores_document shaded CaptureToBitmap width height doc :
  NoDup (map Id (Objects doc)) ->
  (capture_active_view_shaded shaded CaptureToBitmap width height doc).2 = doc.
Proof.
  intros Hnd. unfold capture_active_view_shaded.
  destruct (ActiveView doc) as [vp|] eqn:Ev; [|reflexivity].
  destruct shaded as [shaded_dm|]; [|reflexivity].
  pose proof (hide_then_restore (Objects doc) Hnd) as Hrestore.
  destruct (hide_curves (Objects doc)) as [orig hidden]. cbn [fst snd] in *.
  rewrite Hrestore, <- Ev. destruct doc; reflexivity.
Qed.

(** X25. What is photographed.  With an active view and the Shaded mode,
    the picture is taken of the document with every curve hidden, the other
    objects untouched and the display mode Shaded, at the size asked for (the
    size of the view when none or 0 is asked) and at least 64 in either
    direction; the fallback to 1024 is never taken.  The outcome is the PNG of
    that picture with the camera information of the viewport, or the error
    of the capture or of the conversion. *)
Theorem capture_shoots_without_curves shaded_dm CaptureToBitmap width height doc vp :
  ActiveView doc = Some vp ->
  let asked requested view_extent :=
    match requested with
    | Some r => if r =? 0 then view_extent else r
    | None => view_extent
    end in
  let shooting :=
    {| Objects := map (fun obj => if is_curve obj then with_visible false obj else obj)
                    (Objects doc);
       ActiveView := ActiveView doc; DisplayMode := shaded_dm;
       size_Width := size_Width doc; size_Height := size_Height doc |} in
  (capture_active_view_shaded (Some shaded_dm) CaptureToBitmap width height doc).1
  = match CaptureToBitmap shooting (Z.max (asked width (size_Width doc)) 64)
            (Z.max (asked height (size_Height doc)) 64) with
    | None => Raise "Capture returned None."
    | Some (Return png_bytes) => Return (png_bytes, extract_camera_info vp)
    | Some (Raise e) => Raise ("Failed to convert bitmap to PNG bytes: " ++ e)
    end
  /\ Forall (fun obj => is_curve obj = true -> Visible obj = false) (Objects shooting)
  /\ (forall requested view_extent,
        capture_extent requested view_extent = Z.max (asked requested view_extent) 64
        /\ 64 <= capture_extent requested view_extent).
Proof.
  intros Hv. cbv zeta.
  assert (Hext : forall requested view_extent,
             capture_extent requested view_extent
             = Z.max (match requested with
                      | Some r => if r =? 0 then view_extent else r
                      | None => view_extent
                      end) 64).
  { intros requested view_extent. unfold capture_extent. cbv zeta.
    destruct (Z.max _ 64 <? 64) eqn:E; [apply Z.ltb_lt in E; lia|reflexivity]. }
  split.
  { unfold capture_active_view_shaded. rewrite Hv, hide_curves_spec, !Hext.
    destruct (CaptureToBitmap _ _ _) as [[png|e]|]; reflexivity. }
  split.
  { cbn [Objects]. apply Forall_forall. intros obj Hin.
    apply list_elem_of_fmap in Hin as (o & -> & _).
    destruct (is_curve o) eqn:E; [reflexivity|congruence]. }
  intros requested view_extent. rewrite Hext. split; [reflexivity|lia].
Qed.


(** ** Showing the result, and typing a prompt *)

(** X26. Whenever the button that shows the last generated image is
    enabled, the image is there: from the form of [__init__] on, whatever
    the events, [on_show_generated] behind an enabled button finds the file
    and never reports that there is none; it logs a failure only when the
    image cannot be loaded for the viewer. *)
Theorem enabled_show_button_finds_image loaded api_key output_folder events :
  let s := play (initial_form loaded api_key output_folder) events in
  show_generated_btn_Enabled s = true ->
  is_Some (last_generated_file s)
  /\ on_show_generated None s = s
  /\ (forall e, on_show_generated (Some e) s
                = _append_chat_log (Txt ("Failed to show image: " ++ e)) System s).
Proof.
  cbv zeta. intros Hon.
  assert (Hinv : show_button_follows_result
                   (play (initial_form loaded api_key output_folder) events)
                 /\ result_file_present
                      (play (initial_form loaded api_key output_folder) events)).
  { apply (play_invariant
             (fun s => show_button_follows_result s /\ result_file_present s)).
    - intros s e (H1 & H2). split; [apply show_button_step|apply result_file_step];
        assumption.
    - destruct (initial_form_facts loaded api_key output_folder)
        as (_ & _ & H1 & H2 & _).
      unfold show_button_follows_result, result_file_present. rewrite H1, H2.
      split; [split; [discriminate|intros [x Hx]; discriminate]
             |intros [x Hx]; discriminate]. }
  destruct Hinv as (Hshow & Hfile).
  destruct (Hfile (proj1 Hshow Hon)) as (file & Hf).
  unfold on_show_generated. rewrite Hf.
  split; [eexists; reflexivity|]. split; [reflexivity|]. intros e. reflexivity.
Qed.

(** X27. What is typed is what is sent.  In an enabled prompt box, focus
    followed by typing leaves the typed text, stripped, as the prompt of the
    next Generate: its instruction is the strict instruction followed by that
    text, or by the default phrase when the text is blank.  The placeholder is
    gone whether or not it was shown before. *)
Theorem typed_prompt_is_sent s t :
  prompt_tb_Enabled s = true ->
  let s1 := handle (handle s Focus) (Typed t) in
  _prompt_placeholder_active s1 = false
  /\ user_prompt_of s1 = strip t
  /\ instruction_text s1
     = strict_instruction ++ (if str_truthy (strip t) then strip t else default_phrase s).
Proof.
  intros Hen. cbv zeta. cbn [handle]. unfold on_prompt_focus. rewrite Hen.
  unfold instruction_text, default_phrase, user_prompt_of, typed_prompt.
  destruct (_prompt_placeholder_active s) eqn:Hp; cbn [andb];
    unfold set_prompt_ever_focused; attrs; rewrite ?Hen; attrs;
    rewrite ?Hp; (destruct t as [|c t]; [split; [reflexivity|split; reflexivity]|]);
    cbn [str_truthy andb negb]; repeat split.
Qed.

End Handlers.

(** * The statements on the scenarios *)

Local Abbreviation process :=
  (_process_response sample_b64decode sample_folder_prefix sample_documents_prefix).
Local Abbreviation generate :=
  (on_generate sample_b64decode sample_guess_type sample_folder_prefix
      sample_documents_prefix).
Local Abbreviation iterate := (on_iterate sample_load_png sample_placeholder).
Local Abbreviation capture :=
  (_execute_capture_viewport sample_b64decode sample_placeholder sample_folder_prefix
      sample_documents_prefix).
Local Abbreviation fresh := (fresh_form sample_placeholder).
Local Abbreviation captured := (captured_form sample_placeholder).
Local Abbreviation answering r := (sample_env (Return r)).

(** ** Response parsing *)

(** C1, as stated, fails: with two inline images in one candidate, or one in
    each of two candidates, the file saved is the second image, not the
    first. *)
Lemma first_inline_image_does_not_win :
  inline_images (candidates_of two_images) = [image_A; image_B]
  /\ last_generated_file (process two_images "out" false false (answering two_images) captured)
     = Some image_B
  /\ inline_images (candidates_of two_candidates) = [image_A; image_B]
  /\ last_generated_file
       (process two_candidates "out" false false (answering two_candidates) captured)
     = Some image_B
  /\ image_A <> image_B.
Proof.
  repeat split; try (vm_compute; reflexivity). discriminate.
Qed.

(** The policy on two inline images: the second one is saved. *)
Lemma response_parsing_policy_witness :
  parts_present (candidates_of two_images) = true
  /\ usage_ok two_images = true
  /\ write_error (answering two_images) = None
  /\ selected_image sample_b64decode two_images = Some image_B
  /\ fs (process two_images "out" false false (answering two_images) captured)
     !! output_path_of sample_folder_prefix "out" false (answering two_images)
     = Some image_B.
Proof.
  split; [reflexivity|]. split; [reflexivity|]. split; [reflexivity|].
  split; [reflexivity|].
  exact (proj2 (response_parsing_policy sample_b64decode sample_folder_prefix
      sample_documents_prefix two_images "out" false false
                  (answering two_images) captured eq_refl)).
Defined.

(** The fallback: a data URI in a text part is decoded when no part carries an
    inline image. *)
Example data_uri_fallback :
  selected_image sample_b64decode data_uri_reply = Some image_A
  /\ last_generated_file
       (process data_uri_reply "out" false false (answering data_uri_reply) captured)
     = Some image_A.
Proof. split; vm_compute; reflexivity. Qed.

(** A reply of text only: the reply is in the history, the error in the log. *)
Lemma no_image_keeps_reply_witness :
  parts_present (candidates_of text_only) = true
  /\ usage_ok text_only = true
  /\ selected_image sample_b64decode text_only = None
  /\ Prompt_history (process text_only "out" false false (answering text_only) captured)
     = [Some {| role := "model";
                parts := Some [Part_from_text "I cannot render this scene."] |}]
  /\ last (chat_log (process text_only "out" false false (answering text_only) captured))
     = Some (System, no_image_error).
Proof.
  split; [reflexivity|]. split; [reflexivity|]. split; [reflexivity|].
  destruct (no_image_keeps_reply sample_b64decode sample_folder_prefix
      sample_documents_prefix text_only "out" false false
              (answering text_only) captured
              (model_turn [Part_from_text "I cannot render this scene."]) []
              eq_refl eq_refl eq_refl eq_refl) as (s3 & _ & _ & Hh & Hl).
  split; [exact Hh|exact Hl].
Defined.

(** ** Preconditions *)

(** Generate on the form as [__init__] leaves it. *)
Lemma generate_requires_capture_witness :
  _viewport_captured fresh = false
  /\ generate (answering image_reply) fresh
     = _append_chat_log (Txt "Please capture viewport first!") System fresh
  /\ api_calls (generate (answering image_reply) fresh) = []
  /\ _captured_viewport_bytes (generate (answering image_reply) fresh) = None.
Proof.
  split; [reflexivity|].
  destruct (generate_requires_capture sample_b64decode sample_guess_type
      sample_folder_prefix sample_documents_prefix
              (answering image_reply) fresh eq_refl) as (H1 & H2 & H3 & _).
  repeat split; assumption.
Defined.

(** Iterate on a captured form that has no generated result. *)
Lemma iterate_requires_result_witness :
  last_generated_file captured = None
  /\ iterate captured
     = _append_chat_log (Txt "No generated image available to iterate with!") System
         captured
  /\ _captured_viewport_bytes (iterate captured) = Some viewport_png.
Proof.
  split; [reflexivity|].
  destruct (iterate_requires_result sample_load_png sample_placeholder captured eq_refl)
    as (H1 & H2 & _).
  split; assumption.
Defined.

(** Iterate after a Generate that returned an image. *)
Lemma iterate_promotes_result_witness :
  last_generated_file (generate (answering image_reply) captured) = Some image_A
  /\ sample_load_png image_A = Return image_A
  /\ _captured_viewport_bytes (iterate (generate (answering image_reply) captured))
     = Some image_A
  /\ Prompt_history (iterate (generate (answering image_reply) captured))
     = Prompt_history (generate (answering image_reply) captured)
  /\ _viewport_captured (iterate (generate (answering image_reply) captured)) = true.
Proof.
  assert (H : last_generated_file (generate (answering image_reply) captured)
              = Some image_A) by (vm_compute; reflexivity).
  split; [exact H|]. split; [reflexivity|].
  destruct (iterate_promotes_result sample_load_png sample_placeholder
              (generate (answering image_reply) captured) image_A image_A H eq_refl)
    as (H1 & H2 & H3 & _).
  repeat split; assumption.
Defined.

(** ** Generate *)

Local Abbreviation failing := (sample_env (Raise "503 UNAVAILABLE")).

(** C2, as stated, fails: after a Generate whose API call raises, the history
    is no longer what it was; nor is the settings file. *)
Lemma api_failure_changes_history :
  captured_reference captured = Some viewport_png
  /\ reaches_api failing captured
  /\ api_reply failing = Raise "503 UNAVAILABLE"
  /\ Prompt_history captured = []
  /\ Prompt_history (generate failing captured) <> Prompt_history captured
  /\ fs captured !! "/Users/me/Documents/RhinoGeminiSettings.json" = None
  /\ fs (generate failing captured) !! "/Users/me/Documents/RhinoGeminiSettings.json"
     = Some [Byte.x7b; Byte.x7d].
Proof.
  split; [reflexivity|]. split; [repeat split|]. split; [reflexivity|].
  split; [reflexivity|]. split; [vm_compute; discriminate|].
  split; vm_compute; reflexivity.
Qed.

(** A Generate whose API call raises, on a captured form. *)
Lemma generate_api_failure_witness :
  captured_reference captured = Some viewport_png
  /\ reaches_api failing captured
  /\ api_reply failing = Raise "503 UNAVAILABLE"
  /\ _captured_viewport_bytes (generate failing captured) = Some viewport_png
  /\ _viewport_captured (generate failing captured) = true
  /\ fs (generate failing captured)
     = <["/Users/me/Documents/RhinoGeminiSettings.json" := [Byte.x7b; Byte.x7d]]>
         (fs captured)
  /\ Prompt_history (generate failing captured)
     = [Some (user_turn
                [Part_from_bytes viewport_png "image/png";
                 Part_from_text
                   "Follow the primary reference image strictly. Do not change the camera angle, form, or composition. Create an image based on this reference."])]
  /\ last (chat_log (generate failing captured))
     = Some (System, Txt "API error: 503 UNAVAILABLE")
  /\ timer_running (generate failing captured) = false.
Proof.
  assert (Hreach : reaches_api failing captured) by (repeat split).
  split; [reflexivity|]. split; [exact Hreach|]. split; [reflexivity|].
  destruct (generate_api_failure sample_b64decode sample_guess_type sample_folder_prefix
      sample_documents_prefix failing captured
              viewport_png "503 UNAVAILABLE" eq_refl Hreach eq_refl)
    as (H1 & H2 & _ & H4 & _ & _ & H5 & H6 & H7).
  split; [exact H1|]. split; [exact H2|]. split; [exact H4|].
  split; [exact H5|]. split; [exact H6|exact H7].
Defined.

Local Abbreviation typed := (typed_form sample_placeholder).

(** The request of a Generate with a typed prompt and one mood-board image. *)
Lemma request_part_order_witness :
  captured_reference typed = Some viewport_png
  /\ reaches_api (answering image_reply) typed
  /\ prompt_tb_Text typed = "  on a marble table "
  /\ _prompt_placeholder_active typed = false
  /\ api_calls (generate (answering image_reply) typed)
     = [[Some (user_turn
                 [Part_from_bytes viewport_png "image/png";
                  Part_from_text
                    "Follow the primary reference image strictly. Do not change the camera angle, form, or composition. on a marble table";
                  Part_from_bytes image_B "image/png"])]].
Proof.
  assert (Hreach : reaches_api (answering image_reply) typed) by (repeat split).
  split; [reflexivity|]. split; [exact Hreach|]. split; [reflexivity|].
  split; [reflexivity|].
  exact (proj1 (request_part_order sample_b64decode sample_guess_type sample_placeholder
      sample_folder_prefix sample_documents_prefix)
           (answering image_reply) typed viewport_png eq_refl Hreach).
Defined.

(** The same request while the placeholder is shown: the default phrase. *)
Example request_with_placeholder :
  _prompt_placeholder_active (mood_form sample_placeholder) = true
  /\ api_calls (generate (answering image_reply) (mood_form sample_placeholder))
     = [[Some (user_turn
                 [Part_from_bytes viewport_png "image/png";
                  Part_from_text
                    "Follow the primary reference image strictly. Do not change the camera angle, form, or composition. Create an image based on this reference.";
                  Part_from_bytes image_B "image/png"])]].
Proof. split; vm_compute; reflexivity. Qed.

(** ** The history along a session *)

Local Abbreviation session :=
  [Capture (answering image_reply); Generate (answering image_reply);
   Generate (answering text_only); Iterate; Capture (answering image_reply)].

Local Abbreviation lengths_of l := (map (fun s : Form => length (Prompt_history s)) l).

(** Capture, two Generates, Iterate, Capture: the history holds 2, 4, 6, 6 and
    again 2 entries. *)
Example session_history_lengths :
  lengths_of (run sample_b64decode sample_load_png sample_guess_type sample_placeholder
      sample_folder_prefix sample_documents_prefix
                fresh session)
  = [2; 4; 6; 6; 2]%nat.
Proof. vm_compute. reflexivity. Qed.

(** The second step of the session, a Generate, does not shorten the history. *)
Lemma history_reset_only_by_capture_witness :
  let states := run sample_b64decode sample_load_png sample_guess_type sample_placeholder
      sample_folder_prefix sample_documents_prefix
                  fresh session in
  let s1 := capture (answering image_reply) fresh in
  let s2 := generate (answering image_reply) s1 in
  session !! 1%nat = Some (Generate (answering image_reply))
  /\ (fresh :: states) !! 1%nat = Some s1
  /\ states !! 1%nat = Some s2
  /\ is_capture (Generate (answering image_reply)) = false
  /\ (length (Prompt_history s1) <= length (Prompt_history s2))%nat.
Proof.
  cbv zeta.
  split; [reflexivity|]. split; [reflexivity|]. split; [reflexivity|].
  split; [reflexivity|].
  exact (proj1 (proj2 (proj2 (proj2 (proj2
           (history_reset_only_by_capture sample_b64decode sample_load_png
               sample_guess_type sample_placeholder sample_folder_prefix
               sample_documents_prefix))))
           session fresh 1%nat (Generate (answering image_reply)) _ _
           eq_refl eq_refl eq_refl) eq_refl).
Defined.

(** ** Cost *)

(** The cost of ten input and twenty output tokens. *)
Lemma cost_accounting_witness :
  Z.abs 10 < 2 ^ 53
  /\ Z.abs 20 < 2 ^ 53
  /\ exists cost_info,
       _calculate_generation_cost 10 20 None = Return cost_info
       /\ total_cost cost_info = spec_cost (_get_model_pricing None) 10 20.
Proof.
  assert (H10 : Z.abs 10 < 2 ^ 53) by reflexivity.
  assert (H20 : Z.abs 20 < 2 ^ 53) by reflexivity.
  split; [exact H10|]. split; [exact H20|].
  exact (proj2 (proj1 (cost_accounting sample_b64decode sample_folder_prefix
      sample_documents_prefix) 10 20 H10 H20)).
Defined.

(** The bound of 53 bits cannot be dropped: for 2^53 + 1 tokens the quotient
    that the code computes is not the quotient of the doubles. *)
Example cost_beyond_53_bits :
  truediv (2 ^ 53 + 1) 1000000 = Return 9007199254.740993%float
  /\ (exact_float (2 ^ 53 + 1) / 1000000.0)%float = 9007199254.740992%float
  /\ 9007199254.740993%float <> 9007199254.740992%float.
Proof.
  split; [vm_compute; reflexivity|]. split; [vm_compute; reflexivity|].
  intros H. apply (f_equal Prim2SF) in H. vm_compute in H. discriminate H.
Qed.

(** The session cost after a reply with usage metadata and after one
    without. *)
Example session_cost_after_generate :
  session_cost (generate (answering image_reply) captured)
  = (0.0 + ((10 / 1000000) * 0.30 + (20 / 1000000) * 2.50 + 0.039))%float
  /\ session_cost (generate (answering image_without_usage) captured)
     = (0.0 + 0.039)%float.
Proof. split; vm_compute; reflexivity. Qed.

(** ** Capture, then Iterate *)

(** Capture on the initial form, then Iterate. *)
Lemma capture_permits_iterate_witness :
  reaches_api (answering image_reply) fresh
  /\ view (answering image_reply) = Return (viewport_png, perspective_camera)
  /\ api_reply (answering image_reply) = Return image_reply
  /\ parts_present (candidates_of image_reply) = true
  /\ usage_ok image_reply = true
  /\ selected_image sample_b64decode image_reply = Some image_A
  /\ write_error (answering image_reply) = None
  /\ sample_load_png image_A = Return image_A
  /\ last_generated_file (capture (answering image_reply) fresh) = Some image_A
  /\ iterate_btn_Enabled (capture (answering image_reply) fresh) = true
  /\ _captured_viewport_bytes (iterate (capture (answering image_reply) fresh))
     = Some image_A
  /\ chat_log (iterate (capture (answering image_reply) fresh))
     = chat_log (capture (answering image_reply) fresh).
Proof.
  assert (Hreach : reaches_api (answering image_reply) fresh) by (repeat split).
  split; [exact Hreach|]. do 7 (split; [reflexivity|]).
  destruct (capture_permits_iterate sample_b64decode sample_load_png sample_placeholder
      sample_folder_prefix sample_documents_prefix
              (answering image_reply) fresh viewport_png perspective_camera image_reply
              image_A image_A Hreach eq_refl eq_refl eq_refl eq_refl eq_refl eq_refl
              eq_refl) as (_ & H2 & H3 & H4 & _ & H6 & _).
  repeat split; assumption.
Defined.

(** * The further statements on the scenarios *)

Local Abbreviation playing :=
  (play sample_b64decode sample_load_png sample_guess_type sample_placeholder
      sample_folder_prefix sample_documents_prefix).
Local Abbreviation handling :=
  (handle sample_b64decode sample_load_png sample_guess_type sample_placeholder
      sample_folder_prefix sample_documents_prefix).
Local Abbreviation click_capture := (on_capture_viewport sample_b64decode
    sample_placeholder sample_folder_prefix sample_documents_prefix).

(** Capture, focus, a typed prompt, Generate, Iterate. *)
Local Abbreviation clicks :=
  [Act (Capture (answering image_reply)); Focus; Typed "make it red";
   Act (Generate (answering image_reply)); Act Iterate].

(** ** Invariants *)

Lemma reference_present_when_captured_witness :
  reference_when_captured captured
  /\ reference_when_captured (playing captured clicks).
Proof.
  assert (H : reference_when_captured captured) by (intros _; eexists; reflexivity).
  split; [exact H|].
  exact (proj2 (reference_present_when_captured sample_b64decode sample_load_png
      sample_guess_type sample_placeholder sample_folder_prefix sample_documents_prefix)
      captured clicks H).
Defined.


Lemma show_button_tracks_result_witness :
  show_button_follows_result fresh
  /\ show_button_follows_result (playing fresh clicks).
Proof.
  assert (H : show_button_follows_result fresh).
  { split; [discriminate|intros [x Hx]; discriminate]. }
  split; [exact H|].
  exact (proj2 (show_button_tracks_result sample_b64decode sample_load_png
      sample_guess_type sample_placeholder sample_folder_prefix sample_documents_prefix)
      fresh clicks H).
Defined.

Lemma generate_button_only_after_capture_witness :
  generate_button_needs_capture fresh
  /\ generate_button_needs_capture (playing fresh clicks).
Proof.
  assert (H : generate_button_needs_capture fresh) by discriminate.
  split; [exact H|].
  exact (proj2 (generate_button_only_after_capture sample_b64decode sample_load_png
      sample_guess_type sample_placeholder sample_folder_prefix sample_documents_prefix)
      fresh clicks H).
Defined.

Lemma remembered_result_is_on_disk_witness :
  result_file_present fresh /\ result_file_present (playing fresh clicks).
Proof.
  assert (H : result_file_present fresh) by (intros [x Hx]; discriminate).
  split; [exact H|].
  exact (proj2 (remembered_result_is_on_disk sample_b64decode sample_load_png
      sample_guess_type sample_placeholder sample_folder_prefix sample_documents_prefix)
      fresh clicks H).
Defined.

Lemma placeholder_gone_after_focus_witness :
  focused_without_placeholder fresh
  /\ focused_without_placeholder (playing fresh clicks).
Proof.
  assert (H : focused_without_placeholder fresh) by discriminate.
  split; [exact H|].
  exact (proj1 (proj2 (placeholder_gone_after_focus sample_b64decode sample_load_png
      sample_guess_type sample_placeholder sample_folder_prefix sample_documents_prefix))
      fresh clicks H).
Defined.

Lemma capture_asks_before_reset_witness :
  let s := playing fresh clicks in
  _first_capture s = false
  /\ confirm_reset (declining (Return image_reply)) = false
  /\ click_capture (declining (Return image_reply)) s = s.
Proof.
  cbv zeta. split; [reflexivity|]. split; [reflexivity|].
  exact (proj2 (proj2 (capture_asks_before_reset sample_b64decode sample_load_png
      sample_guess_type sample_placeholder sample_folder_prefix sample_documents_prefix))
           (declining (Return image_reply)) (playing fresh clicks) eq_refl eq_refl).
Defined.

Lemma enabled_show_button_finds_image_witness :
  let s := playing fresh [Act (Capture (answering image_reply))] in
  show_generated_btn_Enabled s = true
  /\ on_show_generated None s = s.
Proof.
  cbv zeta. split; [reflexivity|].
  exact (proj1 (proj2 (enabled_show_button_finds_image sample_b64decode sample_load_png
      sample_guess_type sample_placeholder sample_folder_prefix sample_documents_prefix ∅
      "key" "out"
                         [Act (Capture (answering image_reply))] eq_refl))).
Defined.

(** ** The prompt box and the mood board *)

Lemma typed_prompt_is_sent_witness :
  let s := capture (answering image_reply) fresh in
  prompt_tb_Enabled s = true
  /\ user_prompt_of (handling (handling s Focus) (Typed " make it red ")) = "make it red".
Proof.
  cbv zeta. split; [reflexivity|].
  exact (proj1 (proj2 (typed_prompt_is_sent sample_b64decode sample_load_png
      sample_guess_type sample_placeholder sample_folder_prefix sample_documents_prefix
                         (capture (answering image_reply) fresh) " make it red "
                         eq_refl))).
Defined.

Lemma mood_board_select_and_clear_witness :
  let s := mood_form sample_placeholder in
  ref_previews s !! 1%nat = Some None
  /\ read_file_as_part sample_guess_type (fs s) "mood.png"
     = Some (Part_from_bytes image_B "image/png")
  /\ _clear_reference_image 1
       (_select_reference_image (Some "mood.png") None 1 s)
     = Return s.
Proof.
  cbv zeta. split; [reflexivity|]. split; [reflexivity|].
  exact (proj1 (proj2 (proj2
           (mood_board_select_and_clear sample_guess_type (mood_form sample_placeholder)
              1 None "mood.png" (Part_from_bytes image_B "image/png")
              eq_refl eq_refl))) eq_refl).
Defined.

(** ** Requests and settings *)

Lemma no_request_without_key_or_reference_witness :
  let s := initial_form sample_placeholder ∅ "" "out" in
  str_truthy (api_key_of (answering image_reply) s) = false
  /\ click_capture (answering image_reply) s = s.
Proof.
  cbv zeta. split; [reflexivity|].
  exact (proj1 (proj2 (no_request_without_key_or_reference sample_b64decode
      sample_load_png sample_guess_type sample_placeholder sample_folder_prefix
      sample_documents_prefix))
           (answering image_reply) (initial_form sample_placeholder ∅ "" "out") eq_refl).
Defined.

Lemma generate_saves_settings_witness :
  captured_reference captured = Some viewport_png
  /\ str_truthy (api_key_of (answering image_reply) captured) = true
  /\ settings (generate (answering image_reply) captured) !! "api_key" = Some (JStr "key").
Proof.
  split; [reflexivity|]. split; [reflexivity|].
  exact (proj1 (proj1 (generate_saves_settings sample_b64decode sample_guess_type
      sample_placeholder sample_folder_prefix sample_documents_prefix)
                  (answering image_reply) captured viewport_png eq_refl eq_refl)).
Defined.

Lemma lifetime_totals_witness :
  default (JInt 0) (settings fresh !! "total_tokens_used") = JInt 0
  /\ default (JFloat 0.0) (settings fresh !! "total_cost") = JFloat 0.0
  /\ settings (_track_cumulative_usage sample_documents_prefix 30 0.039 false (answering
      image_reply) fresh)
     !! "total_tokens_used"
     = Some (JInt (0 + 30)).
Proof.
  split; [reflexivity|]. split; [reflexivity|].
  exact (proj1 (proj1 (proj2 (proj2
           (lifetime_totals sample_documents_prefix 30 0.039 false (answering image_reply)
               fresh)))
           0 0.0%float eq_refl eq_refl)).
Defined.

(** ** The response parser *)

Lemma commentary_policy_witness :
  parts_present (candidates_of text_only) = true
  /\ usage_ok text_only = true
  /\ selected_image sample_b64decode text_only = None
  /\ chat_log (process text_only "out" false false (answering text_only) captured)
     = [(Nano, Txt "I cannot render this scene."); (System, no_image_error)].
Proof.
  split; [reflexivity|]. split; [reflexivity|]. split; [reflexivity|].
  exact (proj2 (proj1 (commentary_policy sample_b64decode sample_folder_prefix
      sample_documents_prefix text_only "out" false
                         (answering text_only) captured eq_refl)) eq_refl).
Defined.

(** Usage metadata without its counts: the image of the reply is not saved
    and its commentary is not logged. *)
Example uncounted_reply_fails :
  parts_present (candidates_of uncounted_reply) = true
  /\ usage_ok uncounted_reply = false
  /\ selected_image sample_b64decode uncounted_reply = Some image_A
  /\ chat_log (process uncounted_reply "out" false false (answering uncounted_reply)
                 captured)
     = [(System,
         Txt "Failed to process response: unsupported operand type(s) for /: 'NoneType' and 'int'")]
  /\ fs (process uncounted_reply "out" false false (answering uncounted_reply) captured)
     = fs captured
  /\ _last_generated_image_path
       (process uncounted_reply "out" false false (answering uncounted_reply) captured)
     = None.
Proof. repeat split; vm_compute; reflexivity. Qed.

Lemma write_failure_keeps_reply_witness :
  parts_present (candidates_of image_reply) = true
  /\ usage_ok image_reply = true
  /\ selected_image sample_b64decode image_reply = Some image_A
  /\ write_error (unwritable (Return image_reply))
     = Some "[Errno 28] No space left on device"
  /\ Prompt_history
       (process image_reply "out" false false (unwritable (Return image_reply)) captured)
     = reply_turn image_reply
  /\ fs (process image_reply "out" false false (unwritable (Return image_reply)) captured)
     = <[output_path_of sample_folder_prefix "out" false (unwritable (Return image_reply))
         := []]> (fs captured).
Proof.
  split; [reflexivity|]. split; [reflexivity|]. split; [reflexivity|].
  split; [reflexivity|].
  pose proof (write_failure_keeps_reply sample_b64decode sample_folder_prefix
      sample_documents_prefix image_reply "out" false
                (unwritable (Return image_reply)) captured image_A
                "[Errno 28] No space left on device" eq_refl eq_refl eq_refl eq_refl)
    as (Hh & _ & _ & Hf & _).
  split; [exact Hh|exact Hf].
Defined.

Lemma usage_counted_only_with_image_witness :
  parts_present (candidates_of image_reply) = true
  /\ usage_ok image_reply = true
  /\ selected_image sample_b64decode image_reply = Some image_A
  /\ write_error (answering image_reply) = None
  /\ session_tokens (process image_reply "out" false false (answering image_reply) captured)
     = 0 + 30.
Proof.
  split; [reflexivity|]. split; [reflexivity|]. split; [reflexivity|].
  split; [reflexivity|].
  exact (proj1 (usage_counted_only_with_image sample_b64decode sample_folder_prefix
      sample_documents_prefix image_reply "out" false
                  (answering image_reply) captured eq_refl eq_refl)
           image_A eq_refl eq_refl).
Defined.

Lemma data_uri_decodes_witness :
  text (Part_from_text " data:image/png;base64,iVBORwo= ")
  = Some " data:image/png;base64,iVBORwo= "
  /\ strip " data:image/png;base64,iVBORwo= "
     = "data:image" ++ "/png;base64" ++ "," ++ "iVBORwo="
  /\ split_comma_1 "/png;base64" = None
  /\ fallback_parts sample_b64decode
       [Part_from_text " data:image/png;base64,iVBORwo= "] None
     = Some image_A.
Proof.
  split; [reflexivity|]. split; [reflexivity|]. split; [reflexivity|].
  exact (data_uri_decodes sample_b64decode
           (Part_from_text " data:image/png;base64,iVBORwo= ") [] None
           " data:image/png;base64,iVBORwo= " "/png;base64" "iVBORwo="
           eq_refl eq_refl eq_refl).
Defined.

(** ** Capture *)

Lemma capture_failure_purges_history_witness :
  let s := generate (answering image_reply) captured in
  let w := without_view (Return image_reply) in
  str_truthy (api_key_of w s) = true
  /\ (if dir_exists w then None else mkdir_error w) = None
  /\ view w = Raise "No active view to capture."
  /\ length (Prompt_history s) = 2%nat
  /\ Prompt_history (capture w s) = [].
Proof.
  cbv zeta. split; [reflexivity|]. split; [reflexivity|]. split; [reflexivity|].
  split; [reflexivity|].
  exact (proj1 (capture_failure_purges_history sample_b64decode sample_placeholder
      sample_folder_prefix sample_documents_prefix
                  (without_view (Return image_reply))
                  (generate (answering image_reply) captured)
                  "No active view to capture." eq_refl eq_refl eq_refl)).
Defined.

Lemma capture_api_failure_witness :
  reaches_api failing fresh
  /\ view failing = Return (viewport_png, perspective_camera)
  /\ api_reply failing = Raise "503 UNAVAILABLE"
  /\ _captured_viewport_bytes (capture failing fresh) = Some viewport_png.
Proof.
  assert (Hreach : reaches_api failing fresh) by (repeat split).
  split; [exact Hreach|]. split; [reflexivity|]. split; [reflexivity|].
  exact (proj1 (capture_api_failure sample_b64decode sample_placeholder
      sample_folder_prefix sample_documents_prefix failing fresh
                  viewport_png perspective_camera "503 UNAVAILABLE"
                  Hreach eq_refl eq_refl)).
Defined.

Lemma capture_reference_after_reply_witness :
  reaches_api (answering image_reply) fresh
  /\ view (answering image_reply) = Return (viewport_png, perspective_camera)
  /\ api_reply (answering image_reply) = Return image_reply
  /\ parts_present (candidates_of image_reply) = true
  /\ usage_ok image_reply = true
  /\ write_error (answering image_reply) = None
  /\ _captured_viewport_bytes (capture (answering image_reply) fresh) = Some image_A
  /\ usage_ok uncounted_reply = false
  /\ Prompt_history (capture (answering uncounted_reply) fresh)
     = [Some (capture_turn viewport_png perspective_camera)].
Proof.
  assert (Hreach : reaches_api (answering image_reply) fresh) by (repeat split).
  assert (Hreach' : reaches_api (answering uncounted_reply) fresh) by (repeat split).
  split; [exact Hreach|]. do 5 (split; [reflexivity|]).
  split.
  - exact (proj2 (proj2 (capture_reference_after_reply sample_b64decode sample_placeholder
      sample_folder_prefix sample_documents_prefix
                           (answering image_reply) fresh viewport_png
                           perspective_camera image_reply
                           Hreach eq_refl eq_refl eq_refl))).
  - split; [reflexivity|].
    exact (proj1 (proj2 (capture_reference_after_reply sample_b64decode sample_placeholder
        sample_folder_prefix sample_documents_prefix
                           (answering uncounted_reply) fresh viewport_png
                           perspective_camera uncounted_reply
                           Hreach' eq_refl eq_refl eq_refl))).
Defined.

Lemma iterate_button_policy_witness :
  let s := generate (answering image_reply) captured in
  last_generated_file s = Some image_A
  /\ sample_load_png image_A = Return image_A
  /\ iterate_btn_Enabled s = true
  /\ iterate_btn_Enabled (iterate s) = false.
Proof.
  cbv zeta. split; [reflexivity|]. split; [reflexivity|]. split; [reflexivity|].
  exact (proj1 (proj1 (iterate_button_policy sample_b64decode sample_load_png
      sample_guess_type sample_placeholder sample_folder_prefix sample_documents_prefix)
                  (generate (answering image_reply) captured) image_A image_A
                  eq_refl eq_refl)).
Defined.

(** ** The camera and the picture *)

Lemma camera_description_witness :
  ViewportInfo studio_viewport = Some (Some studio_camera)
  /\ default false (IsPerspectiveProjection studio_camera) = true
  /\ Camera35mmLensLength studio_camera = Some 50%float
  /\ CameraAngle studio_camera = None
  /\ camera_log_line
       (extract_camera_info sample_format_1f sample_degree_sign studio_viewport)
     = "Camera: perspective, 50.0mm normal".
Proof.
  split; [reflexivity|]. split; [reflexivity|]. split; [reflexivity|].
  split; [reflexivity|].
  exact (proj1 (proj1 (proj2 (proj2 (proj2
           (camera_description sample_format_1f sample_degree_sign studio_viewport
              studio_camera eq_refl))))
           50%float eq_refl eq_refl eq_refl)).
Defined.

Lemma capture_restores_document_witness :
  NoDup (map Id (Objects sample_doc))
  /\ (capture_active_view_shaded sample_format_1f sample_degree_sign (Some "Shaded")
        sample_CaptureToBitmap None None sample_doc).2
     = sample_doc.
Proof.
  assert (Hnd : NoDup (map Id (Objects sample_doc))).
  { apply (bool_decide_unpack (NoDup (map Id (Objects sample_doc)))).
    vm_compute. exact I. }
  split; [exact Hnd|].
  exact (capture_restores_document sample_format_1f sample_degree_sign (Some "Shaded")
           sample_CaptureToBitmap None None sample_doc Hnd).
Defined.

Lemma capture_shoots_without_curves_witness :
  ActiveView sample_doc = Some studio_viewport
  /\ (capture_active_view_shaded sample_format_1f sample_degree_sign (Some "Shaded")
        sample_CaptureToBitmap None None sample_doc).1
     = Return (viewport_png,
               extract_camera_info sample_format_1f sample_degree_sign studio_viewport).
Proof.
  split; [reflexivity|].
  exact (proj1 (capture_shoots_without_curves sample_format_1f sample_degree_sign
                  "Shaded" sample_CaptureToBitmap None None sample_doc studio_viewport
                  eq_refl)).
Defined.
